(** * The execution service of flame (grpc/execution/server.go)

  A shallow embedding of the gRPC execution server that the conductor
  drives: [GetGenesisInfo], [GetBlock], [BatchGetBlocks], [ExecuteBlock],
  [GetCommitmentState] and [UpdateCommitmentState], together with the
  properties of the commitment state machine and of the block-execution
  driver.

  The server is a thin layer over collaborators that live elsewhere in the
  node (the block chain store, the transaction pool, the miner).  They are
  kept abstract, as an interface ([Collaborators]) with explicit contracts
  ([ChainStoreLaws], [MinerLaws]); a small executable realisation
  ([Toy]) shows that the contracts can be met and is used to run the
  server on concrete inputs.

  Metrics, log lines and the two mutexes have no effect on the values
  computed and are left out; a Go panic is the outcome [Panic].

  Two small neighbours are embedded beside the server: the fee recipient
  container (grpc/fee_recipient_container.go) and the mock bidirectional
  stream (grpc/optimistic/mock_grpc_stream.go). *)

From Stdlib Require Import ZArith List Lia Bool.
From Stdlib Require Import Strings.Byte.
From stdpp Require Import base decidable option list gmap strings.

Local Open Scope Z_scope.

(** ** Machine integers

  Go's fixed-width conversions, on [Z] with the wrap-around written out. *)

Definition uint32 (x : Z) : Z := x mod 2 ^ 32.
Definition uint64 (x : Z) : Z := x mod 2 ^ 64.
Definition int64 (x : Z) : Z := (x + 2 ^ 63) mod 2 ^ 64 - 2 ^ 63.

(** [math/big]: [Int.Uint64] is the low 64 bits of the magnitude;
  [Int.Int64] is the same word read as an [int64], negated when the
  number is negative. *)
Definition bigInt_Uint64 (x : Z) : Z := Z.abs x mod 2 ^ 64.
Definition bigInt_Int64 (x : Z) : Z :=
  let v := int64 (bigInt_Uint64 x) in
  if x <? 0 then int64 (- v) else v.

(** Two integers that agree in their low 32 bits. *)
Definition cong32 (a b : Z) : Prop := a mod 2 ^ 32 = b mod 2 ^ 32.

#[global] Instance byte_eq_dec : EqDecision byte := Byte.byte_eq_dec.

(** ** [common]: hashes and addresses *)

Module common.

Definition HashLength : nat := 32.

(** A hash is kept as the byte string of its 32-byte array. *)
Definition Hash : Type := list byte.
Definition Address : Type := list byte.

#[global] Instance Hash_eq_dec : EqDecision Hash := _.
#[global] Instance Address_eq_dec : EqDecision Address := _.

(** Modelled from the spec: [common.BytesToHash] is not among the sources;
    the block-hash binary form is 32 bytes, and a byte string of another
    length is cropped from the left or left-padded with zeros to that
    size. *)
Definition BytesToHash (b : list byte) : Hash :=
  let b' := skipn (length b - HashLength)%nat b in
  repeat x00 (HashLength - length b')%nat ++ b'.

(** [Hash.Bytes]. *)
Definition Bytes (h : Hash) : list byte := h.

End common.

(** ** [types]: headers and blocks of the chain *)

Module types.

(** A transaction, kept as its binary envelope. *)
Definition Transaction : Type := list byte.

(** The fields of [types.Header] the server reads.  [Number] is a
    [*big.Int]; [hHash] stands for [Header.Hash()], the digest of the
    header's encoding. *)
Record Header : Type := mkHeader {
  hNumber : Z;
  hParentHash : common.Hash;
  hTime : Z;
  hHash : common.Hash
  }.

Record Block : Type := mkBlock {
  header : Header;
  transactions : list Transaction
  }.

#[global] Instance Header_eq_dec : EqDecision Header.
Proof. solve_decision. Defined.
#[global] Instance Block_eq_dec : EqDecision Block.
Proof. solve_decision. Defined.

Definition Hash (b : Block) : common.Hash := hHash (header b).
Definition ParentHash (b : Block) : common.Hash := hParentHash (header b).
Definition NumberU64 (b : Block) : Z := bigInt_Uint64 (hNumber (header b)).
Definition Time (b : Block) : Z := hTime (header b).

End types.

(** ** Wire messages *)

Module timestamppb.
Record Timestamp : Type := mkTimestamp { Seconds : Z; Nanos : Z }.
#[global] Instance Timestamp_eq_dec : EqDecision Timestamp.
Proof. solve_decision. Defined.
(** The generated getter is nil-safe. *)
Definition GetSeconds (t : option Timestamp) : Z :=
  match t with Some x => Seconds x | None => 0 end.
End timestamppb.

Module sequencerblockv1.

Record Deposit : Type := mkDeposit {
  BridgeAddress : string;
  Asset : string;
  Amount : Z;
  RollupId : list byte;
  DestinationChainAddress : string;
  SourceTransactionId : string;
  SourceActionIndex : Z
  }.

Inductive RollupData : Type :=
  | RollupData_SequencedData (data : list byte)
  | RollupData_Deposit (d : Deposit).

End sequencerblockv1.

Module astriaPb.

Record Block : Type := mkBlock {
  Number : Z;
  Hash : list byte;
  ParentBlockHash : list byte;
  Timestamp : option timestamppb.Timestamp
  }.

#[global] Instance Block_eq_dec : EqDecision Block.
Proof. solve_decision. Defined.

Record CommitmentState : Type := mkCommitmentState {
  Soft : Block;
  Firm : Block;
  BaseCelestiaHeight : Z
  }.

#[global] Instance CommitmentState_eq_dec : EqDecision CommitmentState.
Proof. solve_decision. Defined.

Record GenesisInfo : Type := mkGenesisInfo {
  RollupId : list byte;
  SequencerGenesisBlockHeight : Z;
  CelestiaBlockVariance : Z
  }.

(** The [oneof] of a block identifier; [BlockIdentifier_unset] is the
    case in which neither alternative is set. *)
Inductive BlockIdentifier : Type :=
  | BlockIdentifier_BlockNumber (n : Z)
  | BlockIdentifier_BlockHash (h : list byte)
  | BlockIdentifier_unset.

Record GetBlockRequest : Type := mkGetBlockRequest {
  Identifier : option BlockIdentifier
  }.

Record BatchGetBlocksRequest : Type := mkBatchGetBlocksRequest {
  Identifiers : list BlockIdentifier
  }.

Record ExecuteBlockRequest : Type := mkExecuteBlockRequest {
  PrevBlockHash : list byte;
  Transactions : list sequencerblockv1.RollupData;
  ReqTimestamp : option timestamppb.Timestamp;
  SequencerBlockHash : option (list byte)
  }.

Record UpdateCommitmentStateRequest : Type := mkUpdateCommitmentStateRequest {
  ReqCommitmentState : CommitmentState
  }.

End astriaPb.

(** ** Status codes and call outcomes *)

Module codes.
Inductive Code : Type :=
  | InvalidArgument
  | NotFound
  | FailedPrecondition
  | PermissionDenied
  | Internal.
#[global] Instance Code_eq_dec : EqDecision Code.
Proof. solve_decision. Defined.
End codes.

(** What a procedure hands back: a response, a status error, or a panic
  that takes the process down. *)
Inductive result (A : Type) : Type :=
| Ok (a : A)
| Err (c : codes.Code)
| Panic.
Arguments Ok {A} a.
Arguments Err {A} c.
Arguments Panic {A}.

Definition is_Ok {A} (r : result A) : bool :=
  match r with Ok _ => true | _ => false end.

(** ** Chain configuration

  Read from genesis and never written afterwards. *)

Record ChainConfig : Type := mkChainConfig {
  AstriaRollupName : string;
  AstriaSequencerInitialHeight : Z;
  AstriaCelestiaInitialHeight : Z;
  AstriaCelestiaHeightVariance : Z;
  AstriaSequencerAddressPrefix : string;
  AstriaFeeCollectors : gmap Z common.Address;
  AstriaAuctioneerAddresses : gmap Z string;
  IsCancun : Z -> Z -> bool;
  BridgeAddresses : list string;
  BridgeAllowedAssets : list string
}.

(** [miner.BuildPayloadArgs]. *)
Record BuildPayloadArgs : Type := mkBuildPayloadArgs {
  Parent : common.Hash;
  ArgTimestamp : Z;
  Random : common.Hash;
  FeeRecipient : common.Address;
  OverrideTransactions : list types.Transaction;
  IsOptimisticExecution : bool;
  BeaconRoot : option common.Hash
}.

(** ** The collaborators

    [core.BlockChain], the transaction pool, the miner and the helpers of
    package [shared] are not part of the execution package.  The server
    reaches them only through the operations below; [chain] is the state of
    the block store. *)

Class Collaborators : Type := {
  chain : Type;
  ExecutableData : Type;
  (** what [Header.Hash] yields on a nil header pointer *)
  nilHeaderHash : common.Hash;
  (** head, safe and final pointers; the latter two may be unset *)
  CurrentBlock : chain -> types.Header;
  CurrentSafeBlock : chain -> option types.Header;
  CurrentFinalBlock : chain -> option types.Header;
  CurrentBaseCelestiaHeight : chain -> Z;
  GetBlockByHash : chain -> common.Hash -> option types.Block;
  GetHeaderByHash : chain -> common.Hash -> option types.Header;
  GetHeaderByNumber : chain -> Z -> option types.Header;
  GetCanonicalHash : chain -> Z -> common.Hash;
  (** [None] is a returned error *)
  SetCanonical : chain -> types.Block -> option chain;
  SetSafe : chain -> types.Header -> chain;
  SetCelestiaFinalized : chain -> types.Header -> Z -> chain;
  InsertBlockWithoutSetHead : chain -> types.Block -> option chain;
  (** [Miner.BuildPayload] followed by [payload.Resolve().ExecutionPayload];
      it reads the store and the pool's ordered list *)
  BuildPayload :
    chain -> list types.Transaction -> BuildPayloadArgs -> option ExecutableData;
  ExecutableDataToBlock :
    ExecutableData -> option common.Hash -> option types.Block;
  (** [shared.ValidateBech32mAddress address prefix]; [true] is a nil error *)
  ValidateBech32mAddress : string -> string -> bool;
  (** [sha256.Sum256] of a string's bytes *)
  Sum256 : string -> list byte;
  (** [Transaction.UnmarshalBinary] *)
  UnmarshalBinary : list byte -> option types.Transaction;
  (** the deposit transaction synthesised for a bridge deposit *)
  NewDepositTx :
    sequencerblockv1.Deposit -> Z -> list byte -> types.Transaction
}.

(** [Header.Hash()] through a possibly nil pointer. *)
Definition HeaderHash `{Collaborators} (h : option types.Header) : common.Hash :=
  match h with
  | Some x => types.hHash x
  | None => nilHeaderHash
  end.

(** ** The shared service container *)

(** Modelled from the spec: [shared.SharedServiceContainer] is not among the
    sources.  It owns the handles to the chain store and the pool, the
    next-fee-recipient cell, the auctioneer-address cell and the two
    handshake flags; every accessor reads or writes its one cell (compare
    [FeeRecipientContainer]).  [synced] is the engine's flag set by
    [SetSynced]; [astriaOrdered] is the pool's ordered list. *)
Record SharedServiceContainer (store : Type) : Type := mkContainer {
  bc : store;
  astriaOrdered : list types.Transaction;
  synced : bool;
  genesisInfoCalled : bool;
  getCommitmentStateCalled : bool;
  nextFeeRecipient : common.Address;
  auctioneerAddress : string
}.
Arguments mkContainer {store}.
Arguments bc {store}.
Arguments astriaOrdered {store}.
Arguments synced {store}.
Arguments genesisInfoCalled {store}.
Arguments getCommitmentStateCalled {store}.
Arguments nextFeeRecipient {store}.
Arguments auctioneerAddress {store}.

Section Container.
Context `{C : Collaborators}.

Definition setBc (s : SharedServiceContainer chain) (c : chain)
    : SharedServiceContainer chain :=
  mkContainer c (astriaOrdered s) (synced s) (genesisInfoCalled s)
    (getCommitmentStateCalled s) (nextFeeRecipient s) (auctioneerAddress s).

Definition SetAstriaOrdered (s : SharedServiceContainer chain)
    (txs : list types.Transaction) : SharedServiceContainer chain :=
  mkContainer (bc s) txs (synced s) (genesisInfoCalled s)
    (getCommitmentStateCalled s) (nextFeeRecipient s) (auctioneerAddress s).

Definition ClearAstriaOrdered (s : SharedServiceContainer chain)
    : SharedServiceContainer chain :=
  SetAstriaOrdered s [].

Definition SetSynced (s : SharedServiceContainer chain) : SharedServiceContainer chain :=
  mkContainer (bc s) (astriaOrdered s) true (genesisInfoCalled s)
    (getCommitmentStateCalled s) (nextFeeRecipient s) (auctioneerAddress s).

Definition setGenesisInfoCalled (s : SharedServiceContainer chain)
    (value : bool)
    : SharedServiceContainer chain :=
  mkContainer (bc s) (astriaOrdered s) (synced s) value
    (getCommitmentStateCalled s) (nextFeeRecipient s) (auctioneerAddress s).

Definition setGetCommitmentStateCalled (s : SharedServiceContainer chain)
    (value : bool)
    : SharedServiceContainer chain :=
  mkContainer (bc s) (astriaOrdered s) (synced s) (genesisInfoCalled s)
    value (nextFeeRecipient s) (auctioneerAddress s).

Definition setNextFeeRecipient (s : SharedServiceContainer chain)
    (feeRecipient : common.Address) : SharedServiceContainer chain :=
  mkContainer (bc s) (astriaOrdered s) (synced s) (genesisInfoCalled s)
    (getCommitmentStateCalled s) feeRecipient (auctioneerAddress s).

Definition setAuctioneerAddress (s : SharedServiceContainer chain)
    (address : string) : SharedServiceContainer chain :=
  mkContainer (bc s) (astriaOrdered s) (synced s) (genesisInfoCalled s)
    (getCommitmentStateCalled s) (nextFeeRecipient s) address.

(** Modelled from the spec: the handshake is complete when both
    [GetGenesisInfo] and [GetCommitmentState] have been called. *)
Definition syncMethodsCalled (s : SharedServiceContainer chain) : bool :=
  genesisInfoCalled s && getCommitmentStateCalled s.

(** Modelled from the spec: the unbundler of the container is not among the
    sources.  Output order is input order; sequenced data is decoded (an
    item that does not decode yields nothing); a deposit is skipped unless
    its bridge address is in the bridge set and its asset in the allowed
    set, and otherwise becomes the transaction derived from the deposit,
    the height and the previous block hash. *)
Definition UnbundleRollupDataTransactions (cfg : ChainConfig)
    (txs : list sequencerblockv1.RollupData) (height : Z)
    (prevBlockHash : list byte) : list types.Transaction :=
  flat_map (fun tx =>
    match tx with
    | sequencerblockv1.RollupData_SequencedData data =>
        match UnmarshalBinary data with
        | Some t => [t]
        | None => []
        end
    | sequencerblockv1.RollupData_Deposit d =>
        if bool_decide (sequencerblockv1.BridgeAddress d ∈ BridgeAddresses cfg)
           && bool_decide (sequencerblockv1.Asset d ∈ BridgeAllowedAssets cfg)
        then [NewDepositTx d height prevBlockHash]
        else []
    end) txs.

End Container.

(** ** Static validation *)

(** Modelled from the spec: [validateStaticExecuteBlockRequest] is not
    among the sources.  It receives the request alone (server.go:147), so
    of the conditions of the specification it enforces what a request
    decides: [prev_block_hash] is 32 bytes, [timestamp.seconds] is
    positive, and a [sequencer_block_hash] that is present is 32 bytes.
    Whether the hash has to be present or absent depends on the Cancun
    predicate of the chain, which the validator is not given.  [true] is a
    nil error. *)
Definition validateStaticExecuteBlockRequest
    (req : astriaPb.ExecuteBlockRequest) : bool :=
  bool_decide (length (astriaPb.PrevBlockHash req) = common.HashLength)
  && (0 <? timestamppb.GetSeconds (astriaPb.ReqTimestamp req))
  && match astriaPb.SequencerBlockHash req with
     | Some h => bool_decide (length h = common.HashLength)
     | None => true
     end.

(** Modelled from the spec: [validateStaticCommitmentState] is not among
    the sources.  Both [soft.hash] and [firm.hash] are 32 bytes and
    [base_celestia_height] is present (not the zero default). *)
Definition validateStaticCommitmentState
    (cs : astriaPb.CommitmentState) : bool :=
  bool_decide (length (astriaPb.Hash (astriaPb.Soft cs)) = common.HashLength)
  && bool_decide (length (astriaPb.Hash (astriaPb.Firm cs)) = common.HashLength)
  && negb (astriaPb.BaseCelestiaHeight cs =? 0).

(** ** The server *)

Section Server.
Context `{C : Collaborators}.
Variable cfg : ChainConfig.

Local Abbreviation State := (SharedServiceContainer chain).

Definition GetGenesisInfo (s : State) : result astriaPb.GenesisInfo * State :=
  let rollupHash := Sum256 (AstriaRollupName cfg) in
  let res :=
    astriaPb.mkGenesisInfo rollupHash
      (AstriaSequencerInitialHeight cfg) (AstriaCelestiaHeightVariance cfg) in
  (Ok res, setGenesisInfoCalled s true).

(** [None] is the error for a nil header. *)
Definition ethHeaderToExecutionBlock (header : option types.Header)
    : option astriaPb.Block :=
  match header with
  | None => None
  | Some h =>
      Some (astriaPb.mkBlock
              (uint32 (bigInt_Int64 (types.hNumber h)))
              (common.Bytes (types.hHash h))
              (common.Bytes (types.hParentHash h))
              (Some (timestamppb.mkTimestamp (int64 (types.hTime h)) 0)))
  end.

Definition getBlockFromIdentifier (s : State)
    (identifier : astriaPb.BlockIdentifier) : result astriaPb.Block :=
  let lookup :=
    match identifier with
    | astriaPb.BlockIdentifier_BlockNumber n =>
        Some (GetHeaderByNumber (bc s) (uint64 n))
    | astriaPb.BlockIdentifier_BlockHash h =>
        Some (GetHeaderByHash (bc s) (common.BytesToHash h))
    | astriaPb.BlockIdentifier_unset => None
    end in
  match lookup with
  | None => Err codes.InvalidArgument
  | Some None => Err codes.NotFound
  | Some (Some header) =>
      match ethHeaderToExecutionBlock (Some header) with
      | None => Err codes.Internal
      | Some res => Ok res
      end
  end.

Definition GetBlock (s : State) (req : astriaPb.GetBlockRequest)
    : result astriaPb.Block * State :=
  match astriaPb.Identifier req with
  | None => (Err codes.InvalidArgument, s)
  | Some identifier => (getBlockFromIdentifier s identifier, s)
  end.

(** The loop of [BatchGetBlocks]: the first failing lookup ends the call. *)
Fixpoint batchLoop (s : State) (ids : list astriaPb.BlockIdentifier)
    (blocks : list astriaPb.Block) : result (list astriaPb.Block) :=
  match ids with
  | [] => Ok blocks
  | id :: rest =>
      match getBlockFromIdentifier s id with
      | Ok block => batchLoop s rest (blocks ++ [block])
      | Err c => Err c
      | Panic => Panic
      end
  end.

Definition BatchGetBlocks (s : State) (req : astriaPb.BatchGetBlocksRequest)
    : result (list astriaPb.Block) * State :=
  match astriaPb.Identifiers req with
  | [] => (Err codes.InvalidArgument, s)
  | ids => (batchLoop s ids [], s)
  end.

(** The wire block [ExecuteBlock] answers with. *)
Definition executedBlockResponse (block : types.Block) : astriaPb.Block :=
  astriaPb.mkBlock
    (uint32 (types.NumberU64 block))
    (common.Bytes (types.Hash block))
    (common.Bytes (types.ParentHash block))
    (Some (timestamppb.mkTimestamp (int64 (types.Time block)) 0)).

(** The configuration updates that follow a successful insert
    (server.go:232-242).  An address that fails validation is reported in
    the log, which has no effect on the state; [setAuctioneerAddress] is
    called in either case. *)
Definition postInsertConfig (addressPrefix : string) (res : astriaPb.Block)
    (s : State) : State :=
  let s1 :=
    match AstriaFeeCollectors cfg !! uint32 (astriaPb.Number res + 1) with
    | Some next => setNextFeeRecipient s next
    | None => s
    end in
  match AstriaAuctioneerAddresses cfg !! uint32 (astriaPb.Number res + 1) with
  | Some address =>
      let _logged := negb (ValidateBech32mAddress address addressPrefix) in
      setAuctioneerAddress s1 address
  | None => s1
  end.

(** The Cancun branch of [ExecuteBlock] (server.go:174-181): under Cancun a
    nil [SequencerBlockHash] is the error ([None]) and any other value is
    converted to a hash; otherwise the reference stays nil. *)
Definition sequencerHashRefFor (cancun : bool)
    (sequencerBlockHash : option (list byte)) : option (option common.Hash) :=
  if cancun then
    match sequencerBlockHash with
    | None => None
    | Some h => Some (Some (common.BytesToHash h))
    end
  else Some None.

Definition ExecuteBlock (s : State) (req : astriaPb.ExecuteBlockRequest)
    : result astriaPb.Block * State :=
  if negb (validateStaticExecuteBlockRequest req) then
    (Err codes.InvalidArgument, s)
  else if negb (syncMethodsCalled s) then
    (Err codes.PermissionDenied, s)
  else
    let prevHeadHash := common.BytesToHash (astriaPb.PrevBlockHash req) in
    let softHash := HeaderHash (CurrentSafeBlock (bc s)) in
    if bool_decide (prevHeadHash ≠ softHash) then
      (Err codes.FailedPrecondition, s)
    else
      let height := uint64 (bigInt_Uint64 (types.hNumber (CurrentBlock (bc s))) + 1) in
      let blockTimestamp :=
        uint64 (timestamppb.GetSeconds (astriaPb.ReqTimestamp req)) in
      match sequencerHashRefFor
              (IsCancun cfg (int64 height) blockTimestamp)
              (astriaPb.SequencerBlockHash req) with
      | None => (Err codes.InvalidArgument, s)
      | Some sequencerHashRef =>
          let addressPrefix := AstriaSequencerAddressPrefix cfg in
          let txsToProcess :=
            UnbundleRollupDataTransactions cfg (astriaPb.Transactions req)
              height (common.Bytes prevHeadHash) in
          let s1 := SetAstriaOrdered s txsToProcess in
          let payloadAttributes :=
            mkBuildPayloadArgs prevHeadHash
              (uint64 (timestamppb.GetSeconds (astriaPb.ReqTimestamp req)))
              (repeat x00 common.HashLength)
              (nextFeeRecipient s1) [] false sequencerHashRef in
          match BuildPayload (bc s1) (astriaOrdered s1) payloadAttributes with
          | None => (Err codes.InvalidArgument, s1)
          | Some payload =>
              match ExecutableDataToBlock payload sequencerHashRef with
              | None => (Err codes.Internal, s1)
              | Some block =>
                  match InsertBlockWithoutSetHead (bc s1) block with
                  | None => (Err codes.Internal, s1)
                  | Some bc' =>
                      let s2 := ClearAstriaOrdered (setBc s1 bc') in
                      let res := executedBlockResponse block in
                      (Ok res, postInsertConfig addressPrefix res s2)
                  end
              end
          end
      end.

Definition GetCommitmentState (s : State)
    : result astriaPb.CommitmentState * State :=
  match ethHeaderToExecutionBlock (CurrentSafeBlock (bc s)) with
  | None => (Err codes.Internal, s)
  | Some softBlock =>
      match ethHeaderToExecutionBlock (CurrentFinalBlock (bc s)) with
      | None => (Err codes.Internal, s)
      | Some firmBlock =>
          let celestiaBlock := CurrentBaseCelestiaHeight (bc s) in
          (Ok (astriaPb.mkCommitmentState softBlock firmBlock celestiaBlock),
           setGetCommitmentStateCalled s true)
      end
  end.

(** The part of [UpdateCommitmentState] that follows the two block lookups
    (server.go:318-359).  A nil [rollbackBlock] makes [SetCanonical]
    dereference a nil pointer, which panics like the explicit [panic]. *)
Definition commitBlocks (s : State) (cs : astriaPb.CommitmentState)
    (softEthHash firmEthHash : common.Hash) (softBlock firmBlock : types.Block)
    : result astriaPb.CommitmentState * State :=
  let currentHead := types.hHash (CurrentBlock (bc s)) in
  match (if bool_decide (currentHead ≠ softEthHash)
         then SetCanonical (bc s) softBlock else Some (bc s)) with
  | None => (Err codes.Internal, s)
  | Some bc1 =>
      let rollbackBlock := GetBlockByHash bc1 currentHead in
      if bool_decide (GetCanonicalHash bc1 (types.NumberU64 firmBlock) ≠ firmEthHash)
      then
        match rollbackBlock with
        | None => (Panic, setBc s bc1)
        | Some rb =>
            match SetCanonical bc1 rb with
            | None => (Panic, setBc s bc1)
            | Some bc2 => (Err codes.InvalidArgument, setBc s bc2)
            end
        end
      else
        let s1 := SetSynced (setBc s bc1) in
        let currentSafe := HeaderHash (CurrentSafeBlock (bc s1)) in
        let s2 :=
          if bool_decide (currentSafe ≠ softEthHash)
          then setBc s1 (SetSafe (bc s1) (types.header softBlock)) else s1 in
        let currentFirm := HeaderHash (CurrentFinalBlock (bc s2)) in
        let s3 :=
          if bool_decide (currentFirm ≠ firmEthHash)
          then setBc s2 (SetCelestiaFinalized (bc s2) (types.header firmBlock)
                           (astriaPb.BaseCelestiaHeight cs))
          else s2 in
        (Ok cs, s3)
  end.

Definition UpdateCommitmentState (s : State)
    (req : astriaPb.UpdateCommitmentStateRequest)
    : result astriaPb.CommitmentState * State :=
  let cs := astriaPb.ReqCommitmentState req in
  if negb (validateStaticCommitmentState cs) then
    (Err codes.InvalidArgument, s)
  else if negb (syncMethodsCalled s) then
    (Err codes.PermissionDenied, s)
  else if CurrentBaseCelestiaHeight (bc s) >? astriaPb.BaseCelestiaHeight cs then
    (Err codes.InvalidArgument, s)
  else
    let softEthHash := common.BytesToHash (astriaPb.Hash (astriaPb.Soft cs)) in
    let firmEthHash := common.BytesToHash (astriaPb.Hash (astriaPb.Firm cs)) in
    match GetBlockByHash (bc s) softEthHash with
    | None => (Err codes.InvalidArgument, s)
    | Some softBlock =>
        match GetBlockByHash (bc s) firmEthHash with
        | None => (Err codes.InvalidArgument, s)
        | Some firmBlock =>
            commitBlocks s cs softEthHash firmEthHash softBlock firmBlock
        end
    end.

End Server.

(** ** Contracts of the collaborators *)

(** Modelled from the spec: the chain store ([core.BlockChain]) is not
    among the sources.  It is an immutable block store with mutable
    pointers [current], [safe] and [final]: a lookup by hash answers with a
    block of that hash; [set_canonical] makes the given block the head and
    touches neither the safe and final pointers nor the Celestia height;
    [set_safe] sets the safe pointer only; [set_celestia_finalized] sets
    the final pointer and persists the Celestia height together; the
    insert without head-advance adds the block and moves no pointer. *)
Class ChainStoreLaws `{C : Collaborators} : Prop := {
  GetBlockByHash_hash :
    forall c h b, GetBlockByHash c h = Some b -> types.Hash b = h;
  SetCanonical_head :
    forall c b c', SetCanonical c b = Some c' ->
      CurrentBlock c' = types.header b;
  SetCanonical_frame :
    forall c b c', SetCanonical c b = Some c' ->
      CurrentSafeBlock c' = CurrentSafeBlock c
      /\ CurrentFinalBlock c' = CurrentFinalBlock c
      /\ CurrentBaseCelestiaHeight c' = CurrentBaseCelestiaHeight c;
  SetSafe_safe :
    forall c h, CurrentSafeBlock (SetSafe c h) = Some h;
  SetSafe_frame :
    forall c h,
      CurrentBlock (SetSafe c h) = CurrentBlock c
      /\ CurrentFinalBlock (SetSafe c h) = CurrentFinalBlock c
      /\ CurrentBaseCelestiaHeight (SetSafe c h) = CurrentBaseCelestiaHeight c;
  SetCelestiaFinalized_final :
    forall c h n, CurrentFinalBlock (SetCelestiaFinalized c h n) = Some h;
  SetCelestiaFinalized_height :
    forall c h n, CurrentBaseCelestiaHeight (SetCelestiaFinalized c h n) = n;
  SetCelestiaFinalized_frame :
    forall c h n,
      CurrentBlock (SetCelestiaFinalized c h n) = CurrentBlock c
      /\ CurrentSafeBlock (SetCelestiaFinalized c h n) = CurrentSafeBlock c;
  InsertBlockWithoutSetHead_store :
    forall c b c', InsertBlockWithoutSetHead c b = Some c' ->
      forall h, GetBlockByHash c' h =
                if bool_decide (h = types.Hash b) then Some b
                else GetBlockByHash c h;
  InsertBlockWithoutSetHead_frame :
    forall c b c', InsertBlockWithoutSetHead c b = Some c' ->
      CurrentBlock c' = CurrentBlock c
      /\ CurrentSafeBlock c' = CurrentSafeBlock c
      /\ CurrentFinalBlock c' = CurrentFinalBlock c
      /\ CurrentBaseCelestiaHeight c' = CurrentBaseCelestiaHeight c
}.

(** Modelled from the spec: the payload builder is not among the sources.
    It takes a build request naming a parent and returns an executed block;
    the block is a child of that parent, which the store holds, and stands
    one above it. *)
Class MinerLaws `{C : Collaborators} : Prop := {
  BuildPayload_child :
    forall c pool args payload root b,
      BuildPayload c pool args = Some payload ->
      ExecutableDataToBlock payload root = Some b ->
      types.ParentHash b = Parent args
      /\ exists pb, GetBlockByHash c (Parent args) = Some pb
           /\ types.hNumber (types.header b)
              = types.hNumber (types.header pb) + 1
}.

(** ** Call sequences

    The calls a conductor can make, and the run of a sequence of them from
    a given service state.  A panic ends the process, so the run has no
    state afterwards. *)

Inductive Call : Type :=
| CallGetGenesisInfo
| CallGetBlock (req : astriaPb.GetBlockRequest)
| CallBatchGetBlocks (req : astriaPb.BatchGetBlocksRequest)
| CallExecuteBlock (req : astriaPb.ExecuteBlockRequest)
| CallGetCommitmentState
| CallUpdateCommitmentState (req : astriaPb.UpdateCommitmentStateRequest).

(** How a call ended, without its payload. *)
Inductive Status : Type :=
| StatusOK
| StatusErr (c : codes.Code)
| StatusPanic.

Definition statusOf {A} (r : result A) : Status :=
  match r with
  | Ok _ => StatusOK
  | Err c => StatusErr c
  | Panic => StatusPanic
  end.

Section Runs.
Context `{C : Collaborators}.
Variable cfg : ChainConfig.

Definition step (s : SharedServiceContainer chain) (c : Call)
    : Status * SharedServiceContainer chain :=
  match c with
  | CallGetGenesisInfo =>
      let '(r, s') := GetGenesisInfo cfg s in (statusOf r, s')
  | CallGetBlock req =>
      let '(r, s') := GetBlock s req in (statusOf r, s')
  | CallBatchGetBlocks req =>
      let '(r, s') := BatchGetBlocks s req in (statusOf r, s')
  | CallExecuteBlock req =>
      let '(r, s') := ExecuteBlock cfg s req in (statusOf r, s')
  | CallGetCommitmentState =>
      let '(r, s') := GetCommitmentState s in (statusOf r, s')
  | CallUpdateCommitmentState req =>
      let '(r, s') := UpdateCommitmentState s req in (statusOf r, s')
  end.

Fixpoint run (s : SharedServiceContainer chain) (calls : list Call)
    : option (SharedServiceContainer chain) :=
  match calls with
  | [] => Some s
  | c :: rest =>
      match step s c with
      | (StatusPanic, _) => None
      | (_, s') => run s' rest
      end
  end.

(** The request is malformed in the sense of the static-validation sentence
    of the specification, read at the height following the head:
    [prev_block_hash] is not 32 bytes, or [timestamp.seconds] is not
    positive, or the sequencer block hash is not 32 bytes while the Cancun
    predicate holds, or it is present while the predicate does not hold. *)
Definition malformedBySpec (s : SharedServiceContainer chain)
    (req : astriaPb.ExecuteBlockRequest) : bool :=
  let height := uint64 (bigInt_Uint64 (types.hNumber (CurrentBlock (bc s))) + 1) in
  let ts := uint64 (timestamppb.GetSeconds (astriaPb.ReqTimestamp req)) in
  negb (bool_decide (length (astriaPb.PrevBlockHash req) = common.HashLength))
  || negb (0 <? timestamppb.GetSeconds (astriaPb.ReqTimestamp req))
  || (if IsCancun cfg (int64 height) ts
      then match astriaPb.SequencerBlockHash req with
           | Some h => negb (bool_decide (length h = common.HashLength))
           | None => true
           end
      else match astriaPb.SequencerBlockHash req with
           | Some _ => true
           | None => false
           end).

End Runs.

(** The call gets as far as the firm-ancestry check: the request passed
    static validation, the handshake gate and the Celestia height check,
    both blocks were found, and [bc1] is the store after the chain was
    re-canonicalised to the soft block (the store as it was when the soft
    block already was the head). *)
Definition reachesFirmCheck `{C : Collaborators} (s : SharedServiceContainer chain)
    (req : astriaPb.UpdateCommitmentStateRequest)
    (softBlock firmBlock : types.Block) (bc1 : chain) : Prop :=
  let cs := astriaPb.ReqCommitmentState req in
  let softEthHash := common.BytesToHash (astriaPb.Hash (astriaPb.Soft cs)) in
  let firmEthHash := common.BytesToHash (astriaPb.Hash (astriaPb.Firm cs)) in
  validateStaticCommitmentState cs = true
  /\ syncMethodsCalled s = true
  /\ CurrentBaseCelestiaHeight (bc s) <= astriaPb.BaseCelestiaHeight cs
  /\ GetBlockByHash (bc s) softEthHash = Some softBlock
  /\ GetBlockByHash (bc s) firmEthHash = Some firmBlock
  /\ (if bool_decide (types.hHash (CurrentBlock (bc s)) ≠ softEthHash)
      then SetCanonical (bc s) softBlock else Some (bc s)) = Some bc1.

(** ** An executable realisation of the collaborators

    A store that keeps its blocks in a list, takes the canonical chain to
    be the ancestors of the head, and a builder that puts the pool's list
    in a child of the named parent.  It meets the contracts above and lets
    the server run on concrete inputs. *)

Module Toy.

Record Store : Type := mkStore {
  blocks : list types.Block;
  headPtr : types.Header;
  safePtr : option types.Header;
  finalPtr : option types.Header;
  baseCelestiaHeight : Z
}.

Definition byteOfZ (z : Z) : byte :=
  match Byte.of_N (Z.to_N (z mod 256)) with
  | Some b => b
  | None => x00
  end.

Definition zeroHash : common.Hash := repeat x00 common.HashLength.

(** A stand-in for the header digest: it separates the blocks used below. *)
Definition digest (number time : Z) (parent : common.Hash)
    (feeRecipient : common.Address) (txs : list types.Transaction)
    (root : option common.Hash) : common.Hash :=
  [ byteOfZ number; byteOfZ time; hd x00 parent; hd x00 feeRecipient;
    byteOfZ (Z.of_nat (length txs));
    match root with Some r => hd x01 r | None => x00 end ]
  ++ repeat x00 26.

Definition getBlockByHash (c : Store) (h : common.Hash) : option types.Block :=
  find (fun b => bool_decide (types.Hash b = h)) (blocks c).

Fixpoint ancestorAt (fuel : nat) (c : Store) (h : types.Header) (n : Z)
    : option types.Header :=
  if bool_decide (types.hNumber h = n) then Some h
  else
    match fuel with
    | O => None
    | S fuel' =>
        match getBlockByHash c (types.hParentHash h) with
        | Some pb => ancestorAt fuel' c (types.header pb) n
        | None => None
        end
    end.

Definition getHeaderByNumber (c : Store) (n : Z) : option types.Header :=
  ancestorAt (length (blocks c)) c (headPtr c) n.

Definition getCanonicalHash (c : Store) (n : Z) : common.Hash :=
  match getHeaderByNumber c n with
  | Some h => types.hHash h
  | None => zeroHash
  end.

(** Fails on a block the store does not hold. *)
Definition setCanonical (c : Store) (b : types.Block) : option Store :=
  match getBlockByHash c (types.Hash b) with
  | Some _ =>
      Some (mkStore (blocks c) (types.header b) (safePtr c) (finalPtr c)
              (baseCelestiaHeight c))
  | None => None
  end.

Definition setSafe (c : Store) (h : types.Header) : Store :=
  mkStore (blocks c) (headPtr c) (Some h) (finalPtr c) (baseCelestiaHeight c).

Definition setCelestiaFinalized (c : Store) (h : types.Header) (n : Z) : Store :=
  mkStore (blocks c) (headPtr c) (safePtr c) (Some h) n.

(** A known block is accepted again as it is; a child of an unknown parent
    and a second block under a known hash are refused. *)
Definition insertBlockWithoutSetHead (c : Store) (b : types.Block)
    : option Store :=
  match getBlockByHash c (types.Hash b) with
  | Some b0 => if bool_decide (b0 = b) then Some c else None
  | None =>
      match getBlockByHash c (types.ParentHash b) with
      | Some _ =>
          Some (mkStore (blocks c ++ [b]) (headPtr c) (safePtr c) (finalPtr c)
                  (baseCelestiaHeight c))
      | None => None
      end
  end.

(** The builder refuses an unknown parent and a timestamp that is not
    after the parent's. *)
Definition buildPayload (c : Store) (pool : list types.Transaction)
    (args : BuildPayloadArgs) : option types.Block :=
  match getBlockByHash c (Parent args) with
  | None => None
  | Some pb =>
      if ArgTimestamp args <=? types.Time pb then None
      else
        let n := types.hNumber (types.header pb) + 1 in
        Some (types.mkBlock
                (types.mkHeader n (Parent args) (ArgTimestamp args)
                   (digest n (ArgTimestamp args) (Parent args)
                      (FeeRecipient args) pool (BeaconRoot args)))
                pool)
  end.

#[global] Instance toy : Collaborators := {|
  chain := Store;
  ExecutableData := types.Block;
  nilHeaderHash := zeroHash;
  CurrentBlock := headPtr;
  CurrentSafeBlock := safePtr;
  CurrentFinalBlock := finalPtr;
  CurrentBaseCelestiaHeight := baseCelestiaHeight;
  GetBlockByHash := getBlockByHash;
  GetHeaderByHash := fun c h => types.header <$> getBlockByHash c h;
  GetHeaderByNumber := getHeaderByNumber;
  GetCanonicalHash := getCanonicalHash;
  SetCanonical := setCanonical;
  SetSafe := setSafe;
  SetCelestiaFinalized := setCelestiaFinalized;
  InsertBlockWithoutSetHead := insertBlockWithoutSetHead;
  BuildPayload := buildPayload;
  ExecutableDataToBlock := fun p _ => Some p;
  ValidateBech32mAddress := fun address prefix => String.prefix prefix address;
  Sum256 := fun _ => zeroHash;
  UnmarshalBinary := fun data => match data with [] => None | _ => Some data end;
  NewDepositTx := fun d height prev =>
    [byteOfZ height; byteOfZ (sequencerblockv1.Amount d)]
|}.

(** *** A small chain: genesis, two blocks on it, and a fork block *)

Definition feeA : common.Address := repeat x0a 20.
Definition feeB : common.Address := repeat x0b 20.

Definition child (parent : types.Block) (time : Z)
    (feeRecipient : common.Address) : types.Block :=
  let n := types.hNumber (types.header parent) + 1 in
  types.mkBlock
    (types.mkHeader n (types.Hash parent) time
       (digest n time (types.Hash parent) feeRecipient [] None))
    [].

Definition genesis : types.Block :=
  types.mkBlock
    (types.mkHeader 0 zeroHash 0 (digest 0 0 zeroHash [] [] None)) [].
Definition block1 : types.Block := child genesis 10 feeA.
Definition block2 : types.Block := child block1 20 feeA.
Definition fork1 : types.Block := child genesis 11 feeA.

(** Head, soft and firm all at [block2]. *)
Definition chainAt2 : Store :=
  mkStore [genesis; block1; block2; fork1]
    (types.header block2) (Some (types.header block2))
    (Some (types.header block2)) 5.

(** Head at [block2]; soft and firm one below, at [block1]. *)
Definition chainSoftBehind : Store :=
  mkStore [genesis; block1; block2; fork1]
    (types.header block2) (Some (types.header block1))
    (Some (types.header block1)) 5.

Definition config (cancun : bool) (feeCollectors : gmap Z common.Address)
    (auctioneers : gmap Z string) : ChainConfig :=
  mkChainConfig "test" 1 5 10 "astria" feeCollectors auctioneers
    (fun _ _ => cancun) ["astria1bridge"] ["nria"].

Definition container (c : Store) (handshake : bool)
    : SharedServiceContainer chain :=
  mkContainer c [] false handshake handshake feeA "astria1old".

Definition executeOn (parent : types.Block) (time : Z)
    (root : option (list byte)) : astriaPb.ExecuteBlockRequest :=
  astriaPb.mkExecuteBlockRequest (types.Hash parent)
    [sequencerblockv1.RollupData_SequencedData [x01; x02]]
    (Some (timestamppb.mkTimestamp time 0)) root.

Definition wire (b : types.Block) : astriaPb.Block :=
  astriaPb.mkBlock (types.hNumber (types.header b)) (types.Hash b)
    (types.ParentHash b)
    (Some (timestamppb.mkTimestamp (types.Time b) 0)).

Definition commit (soft firm : astriaPb.Block) (height : Z)
    : astriaPb.UpdateCommitmentStateRequest :=
  astriaPb.mkUpdateCommitmentStateRequest
    (astriaPb.mkCommitmentState soft firm height).

End Toy.

(** ** Helpers for statements about calls *)

Definition isUpdateCommitmentState (c : Call) : bool :=
  match c with
  | CallUpdateCommitmentState _ => true
  | _ => false
  end.

(** The header a block identifier stands for in the store, as the type
    switch of [getBlockFromIdentifier] looks it up (server.go:366-373);
    the outer [None] is the default case of the switch. *)
Definition headerOfIdentifier `{C : Collaborators}
    (s : SharedServiceContainer chain) (identifier : astriaPb.BlockIdentifier)
    : option (option types.Header) :=
  match identifier with
  | astriaPb.BlockIdentifier_BlockNumber n =>
      Some (GetHeaderByNumber (bc s) (uint64 n))
  | astriaPb.BlockIdentifier_BlockHash h =>
      Some (GetHeaderByHash (bc s) (common.BytesToHash h))
  | astriaPb.BlockIdentifier_unset => None
  end.

(** Two stores with the same head, the same safe and final pointers and
    the same Celestia height. *)
Definition samePointers `{C : Collaborators} (c1 c2 : chain) : Prop :=
  CurrentBlock c1 = CurrentBlock c2
  /\ CurrentSafeBlock c1 = CurrentSafeBlock c2
  /\ CurrentFinalBlock c1 = CurrentFinalBlock c2
  /\ CurrentBaseCelestiaHeight c1 = CurrentBaseCelestiaHeight c2.

(** ** [grpc]: the fee recipient container (grpc/fee_recipient_container.go)

    The read-write mutex orders the accesses and holds no data. *)

Module grpc.

Record FeeRecipientContainer : Type := mkFeeRecipientContainer {
  nextFeeRecipient : common.Address
}.

(** [common.Address{}] is twenty zero bytes. *)
Definition NewFeeRecipientContainer : FeeRecipientContainer :=
  mkFeeRecipientContainer (repeat x00 20).

Definition GetNextFeeRecipient (frc : FeeRecipientContainer) : common.Address :=
  nextFeeRecipient frc.

Definition SetNextFeeRecipient (frc : FeeRecipientContainer)
    (next : common.Address) : FeeRecipientContainer :=
  mkFeeRecipientContainer next.

(** A sequence of writes, in order. *)
Definition setAll (frc : FeeRecipientContainer) (writes : list common.Address)
    : FeeRecipientContainer :=
  fold_left SetNextFeeRecipient writes frc.

End grpc.

(** ** [optimistic]: the mock bidirectional stream
    (grpc/optimistic/mock_grpc_stream.go)

    [requestCounter] is a [uint64]; [len] is an [int], and
    [uint64(len(...) - 1)] wraps when the slice is empty.  The delay in
    [Recv] has no effect on what is returned. *)

Module optimistic.

Record MockBidirectionalStreaming (K V : Type) : Type := mkMock {
  requestStream : list K;
  accumulatedResponses : list V;
  requestCounter : Z
}.
Arguments mkMock {K V}.
Arguments requestStream {K V}.
Arguments accumulatedResponses {K V}.
Arguments requestCounter {K V}.

(** What [Recv] hands back: a request, [io.EOF], or the run-time panic of
    an index out of range. *)
Inductive Received (K : Type) : Type :=
| RecvRequest (req : K)
| RecvEOF
| RecvPanic.
Arguments RecvRequest {K} req.
Arguments RecvEOF {K}.
Arguments RecvPanic {K}.

Definition Recv {K V} (ms : MockBidirectionalStreaming K V)
    : Received K * MockBidirectionalStreaming K V :=
  if requestCounter ms >? uint64 (Z.of_nat (length (requestStream ms)) - 1)
  then (RecvEOF, ms)
  else
    match requestStream ms !! Z.to_nat (requestCounter ms) with
    | Some req =>
        (RecvRequest req,
         mkMock (requestStream ms) (accumulatedResponses ms)
           (uint64 (requestCounter ms + 1)))
    | None => (RecvPanic, ms)
    end.

(** [Send] returns a nil error. *)
Definition Send {K V} (ms : MockBidirectionalStreaming K V) (res : V)
    : MockBidirectionalStreaming K V :=
  mkMock (requestStream ms) (accumulatedResponses ms ++ [res])
    (requestCounter ms).

(** [n] calls of [Recv] in a row, with what each handed back; a panic ends
    the sequence. *)
Fixpoint recvN {K V} (n : nat) (ms : MockBidirectionalStreaming K V)
    : list (Received K) * MockBidirectionalStreaming K V :=
  match n with
  | O => ([], ms)
  | S n' =>
      match Recv ms with
      | (RecvPanic, ms') => ([RecvPanic], ms')
      | (r, ms') => let '(rs, ms'') := recvN n' ms' in (r :: rs, ms'')
      end
  end.

Definition sendAll {K V} (ms : MockBidirectionalStreaming K V)
    (responses : list V) : MockBidirectionalStreaming K V :=
  fold_left Send responses ms.

End optimistic.

(** * Properties *)

(** ** Integer conversions and hashes *)
Lemma cong32_sub_mult a q : cong32 (a - 2 ^ 64 * q) a.
Proof.
  unfold cong32.
  replace (a - 2 ^ 64 * q) with (a + (- (2 ^ 32 * q)) * 2 ^ 32)
    by (change (2 ^ 64) with (2 ^ 32 * 2 ^ 32); ring).
  apply Z_mod_plus_full.
Qed.

Lemma cong32_mod64 a : cong32 (a mod 2 ^ 64) a.
Proof.
  rewrite Z.mod_eq by lia. apply cong32_sub_mult.
Qed.

Lemma cong32_int64 a : cong32 (int64 a) a.
Proof.
  unfold int64. rewrite Z.mod_eq by lia.
  replace (a + 2 ^ 63 - 2 ^ 64 * ((a + 2 ^ 63) / 2 ^ 64) - 2 ^ 63)
    with (a - 2 ^ 64 * ((a + 2 ^ 63) / 2 ^ 64)) by ring.
  apply cong32_sub_mult.
Qed.

Lemma cong32_opp a b : cong32 a b -> cong32 (- a) (- b).
Proof.
  unfold cong32. intros H.
  rewrite <- (Z.sub_0_l a), <- (Z.sub_0_l b).
  rewrite (Zminus_mod 0 a), (Zminus_mod 0 b), H. reflexivity.
Qed.

Lemma uint32_bigInt_Int64 n : uint32 (bigInt_Int64 n) = n mod 2 ^ 32.
Proof.
  unfold uint32, bigInt_Int64, bigInt_Uint64.
  destruct (n <? 0) eqn:Hn.
  - apply Z.ltb_lt in Hn.
    transitivity ((- int64 (Z.abs n mod 2 ^ 64)) mod 2 ^ 32); [apply cong32_int64|].
    replace n with (- Z.abs n) at 2 by lia.
    apply cong32_opp.
    transitivity ((Z.abs n mod 2 ^ 64) mod 2 ^ 32);
      [apply cong32_int64 | apply cong32_mod64].
  - apply Z.ltb_ge in Hn.
    transitivity ((Z.abs n mod 2 ^ 64) mod 2 ^ 32); [apply cong32_int64 |].
    rewrite Z.abs_eq by lia. apply cong32_mod64.
Qed.

Lemma uint32_bigInt_Uint64 n : 0 <= n -> uint32 (bigInt_Uint64 n) = n mod 2 ^ 32.
Proof.
  intros Hn. unfold uint32, bigInt_Uint64. rewrite Z.abs_eq by lia. apply cong32_mod64.
Qed.

Lemma BytesToHash_id (b : list byte) :
  length b = common.HashLength -> common.BytesToHash b = b.
Proof.
  intros Hb. unfold common.BytesToHash. rewrite Hb, Nat.sub_diag.
  change (skipn 0 b) with b. rewrite Hb, Nat.sub_diag. reflexivity.
Qed.

(** ** The realisation meets the contracts *)

Lemma find_snoc {A} (f : A -> bool) (l : list A) (x : A) :
  find f (l ++ [x]) =
  match find f l with
  | Some y => Some y
  | None => if f x then Some x else None
  end.
Proof.
  induction l as [|a l IH]; simpl; [reflexivity|].
  destruct (f a); [reflexivity | exact IH].
Qed.

Lemma toy_getBlockByHash_hash c h b :
  Toy.getBlockByHash c h = Some b -> types.Hash b = h.
Proof.
  unfold Toy.getBlockByHash. intros Hf.
  apply find_some in Hf as [_ Hf]. by apply bool_decide_eq_true in Hf.
Qed.

Lemma toy_store_laws : @ChainStoreLaws Toy.toy.
Proof.
  split; simpl.
  - exact toy_getBlockByHash_hash.
  - intros c b c'. unfold Toy.setCanonical.
    destruct (Toy.getBlockByHash c (types.Hash b)); [|discriminate].
    intros [= <-]. reflexivity.
  - intros c b c'. unfold Toy.setCanonical.
    destruct (Toy.getBlockByHash c (types.Hash b)); [|discriminate].
    intros [= <-]. auto.
  - reflexivity.
  - auto.
  - reflexivity.
  - reflexivity.
  - auto.
  - intros c b c'. unfold Toy.insertBlockWithoutSetHead.
    destruct (Toy.getBlockByHash c (types.Hash b)) as [b0|] eqn:Hk.
    + case_bool_decide as Hb; [|discriminate]. intros [= <-] h. subst b0.
      case_bool_decide as Hh; [by subst h | reflexivity].
    + destruct (Toy.getBlockByHash c (types.ParentHash b)); [|discriminate].
      intros [= <-] h.
      transitivity (match Toy.getBlockByHash c h with
                    | Some y => Some y
                    | None => if bool_decide (types.Hash b = h) then Some b else None
                    end);
        [exact (find_snoc (fun x => bool_decide (types.Hash x = h)) (Toy.blocks c) b)|].
      destruct (decide (h = types.Hash b)) as [->|Hh].
      * rewrite Hk, !bool_decide_eq_true_2 by reflexivity. reflexivity.
      * rewrite !bool_decide_eq_false_2 by congruence.
        by destruct (Toy.getBlockByHash c h).
  - intros c b c'. unfold Toy.insertBlockWithoutSetHead.
    destruct (Toy.getBlockByHash c (types.Hash b)) as [b0|].
    + case_bool_decide; [|discriminate]. intros [= <-]. auto.
    + destruct (Toy.getBlockByHash c (types.ParentHash b)); [|discriminate].
      intros [= <-]. auto.
Qed.

Lemma toy_miner_laws : @MinerLaws Toy.toy.
Proof.
  split; simpl. intros c pool args payload root b.
  unfold Toy.buildPayload.
  destruct (Toy.getBlockByHash c (Parent args)) as [pb|] eqn:Hp; [|discriminate].
  destruct (ArgTimestamp args <=? types.Time pb); [discriminate|].
  intros [= <-] [= <-]. split; [reflexivity|].
  exists pb. split; [reflexivity|]. reflexivity.
Qed.

(** ** What the procedures hand back *)

Section Inversions.
Context `{C : Collaborators}.
Variable cfg : ChainConfig.

(** The wire block that stands for a header. *)
Lemma ethHeaderToExecutionBlock_Some (h : types.Header) :
  exists blk,
    ethHeaderToExecutionBlock (Some h) = Some blk
    /\ astriaPb.Number blk = types.hNumber h mod 2 ^ 32
    /\ astriaPb.Hash blk = types.hHash h
    /\ astriaPb.ParentBlockHash blk = types.hParentHash h.
Proof.
  eexists. split; [reflexivity|]. simpl.
  split; [apply uint32_bigInt_Int64 | split; reflexivity].
Qed.

Lemma getBlockFromIdentifier_Ok s id blk :
  getBlockFromIdentifier s id = Ok blk ->
  exists h,
    ethHeaderToExecutionBlock (Some h) = Some blk
    /\ astriaPb.Number blk = types.hNumber h mod 2 ^ 32.
Proof.
  unfold getBlockFromIdentifier.
  destruct id as [n|hb|]; [| |discriminate].
  - destruct (GetHeaderByNumber (bc s) (uint64 n)) as [h|]; [|discriminate].
    intros [= <-]. exists h. split; [reflexivity | apply uint32_bigInt_Int64].
  - destruct (GetHeaderByHash (bc s) (common.BytesToHash hb)) as [h|]; [|discriminate].
    intros [= <-]. exists h. split; [reflexivity | apply uint32_bigInt_Int64].
Qed.

Lemma batchLoop_Ok s ids : forall acc blks,
  batchLoop s ids acc = Ok blks ->
  exists new, blks = acc ++ new
    /\ Forall (fun blk => exists h,
                 ethHeaderToExecutionBlock (Some h) = Some blk
                 /\ astriaPb.Number blk = types.hNumber h mod 2 ^ 32) new.
Proof.
  induction ids as [|id rest IH]; intros acc blks; simpl.
  - intros [= <-]. exists []. split; [by rewrite app_nil_r | constructor].
  - destruct (getBlockFromIdentifier s id) as [blk| |] eqn:Hid; [|discriminate..].
    intros Hrest. apply IH in Hrest as (new & -> & Hnew).
    exists (blk :: new). split; [by rewrite <- app_assoc|].
    constructor; [exact (getBlockFromIdentifier_Ok s id blk Hid) | exact Hnew].
Qed.

(** What a successful [ExecuteBlock] went through. *)
Lemma ExecuteBlock_Ok_inv s req res s' :
  ExecuteBlock cfg s req = (Ok res, s') ->
  validateStaticExecuteBlockRequest req = true
  /\ syncMethodsCalled s = true
  /\ common.BytesToHash (astriaPb.PrevBlockHash req)
     = HeaderHash (CurrentSafeBlock (bc s))
  /\ exists txs args payload root block bc',
       txs = UnbundleRollupDataTransactions cfg (astriaPb.Transactions req)
               (uint64 (bigInt_Uint64 (types.hNumber (CurrentBlock (bc s))) + 1))
               (common.Bytes (common.BytesToHash (astriaPb.PrevBlockHash req)))
       /\ Parent args = common.BytesToHash (astriaPb.PrevBlockHash req)
       /\ FeeRecipient args = nextFeeRecipient s
       /\ BuildPayload (bc s) txs args = Some payload
       /\ ExecutableDataToBlock payload root = Some block
       /\ InsertBlockWithoutSetHead (bc s) block = Some bc'
       /\ res = executedBlockResponse block
       /\ s' = postInsertConfig cfg (AstriaSequencerAddressPrefix cfg) res
                 (ClearAstriaOrdered (setBc (SetAstriaOrdered s txs) bc')).
Proof.
  unfold ExecuteBlock.
  destruct (validateStaticExecuteBlockRequest req); [|discriminate]. simpl negb. cbv iota.
  destruct (syncMethodsCalled s); [|discriminate]. simpl negb. cbv iota.
  case_bool_decide as Hprev; [discriminate|].
  destruct (sequencerHashRefFor _ _) as [root|]; [|discriminate].
  cbv zeta. simpl bc. simpl astriaOrdered. simpl nextFeeRecipient.
  match goal with
  | |- context [BuildPayload ?c ?p ?a] =>
      destruct (BuildPayload c p a) as [payload|] eqn:Hbuild; [|discriminate]
  end.
  destruct (ExecutableDataToBlock payload root) as [block|] eqn:Hblock; [|discriminate].
  destruct (InsertBlockWithoutSetHead (bc s) block) as [bc'|] eqn:Hins; [|discriminate].
  intros [= <- <-].
  repeat split; [exact Hprev|].
  eexists _, _, payload, root, block, bc'.
  repeat split; [| | exact Hbuild | exact Hblock | exact Hins]; reflexivity.
Qed.

(** [ExecuteBlock] answers OK exactly when every gate is passed, the
    builder yields a payload for the staged list, the payload converts to
    a block and the insert succeeds; the arguments handed to the builder
    are spelled out. *)
Lemma ExecuteBlock_Ok_iff s req res s' :
  let prevHeadHash := common.BytesToHash (astriaPb.PrevBlockHash req) in
  let height := uint64 (bigInt_Uint64 (types.hNumber (CurrentBlock (bc s))) + 1) in
  let ts := uint64 (timestamppb.GetSeconds (astriaPb.ReqTimestamp req)) in
  let txs :=
    UnbundleRollupDataTransactions cfg (astriaPb.Transactions req) height
      (common.Bytes prevHeadHash) in
  ExecuteBlock cfg s req = (Ok res, s') <->
  validateStaticExecuteBlockRequest req = true
  /\ syncMethodsCalled s = true
  /\ prevHeadHash = HeaderHash (CurrentSafeBlock (bc s))
  /\ exists root payload block bc',
       sequencerHashRefFor (IsCancun cfg (int64 height) ts)
         (astriaPb.SequencerBlockHash req) = Some root
       /\ BuildPayload (bc s) txs
            (mkBuildPayloadArgs prevHeadHash ts (repeat x00 common.HashLength)
               (nextFeeRecipient s) [] false root) = Some payload
       /\ ExecutableDataToBlock payload root = Some block
       /\ InsertBlockWithoutSetHead (bc s) block = Some bc'
       /\ res = executedBlockResponse block
       /\ s' = postInsertConfig cfg (AstriaSequencerAddressPrefix cfg) res
                 (ClearAstriaOrdered (setBc (SetAstriaOrdered s txs) bc')).
Proof.
  intros prevHeadHash height ts txs. subst prevHeadHash height ts txs.
  unfold ExecuteBlock. cbv zeta.
  destruct (validateStaticExecuteBlockRequest req); cbn [negb];
    [|split; [discriminate | intros (? & _); discriminate]].
  destruct (syncMethodsCalled s); cbn [negb];
    [|split; [discriminate | intros (_ & ? & _); discriminate]].
  case_bool_decide as Hprev;
    [split; [discriminate | intros (_ & _ & ? & _); contradiction]|].
  assert (Hprev' : common.BytesToHash (astriaPb.PrevBlockHash req)
                   = HeaderHash (CurrentSafeBlock (bc s)))
    by (destruct (decide (common.BytesToHash (astriaPb.PrevBlockHash req)
                          = HeaderHash (CurrentSafeBlock (bc s)))); [done|tauto]).
  simpl bc. simpl astriaOrdered. simpl nextFeeRecipient.
  destruct (sequencerHashRefFor _ (astriaPb.SequencerBlockHash req)) as [root|].
  2: { split; [discriminate|]. intros (_ & _ & _ & ? & ? & ? & ? & ? & _).
       discriminate. }
  destruct (BuildPayload _ _ _) as [payload|] eqn:Hbuild.
  2: { split; [discriminate|].
       intros (_ & _ & _ & root' & ? & ? & ? & [= <-] & Hb & _).
       rewrite Hbuild in Hb. discriminate. }
  destruct (ExecutableDataToBlock payload root) as [block|] eqn:Hblock.
  2: { split; [discriminate|].
       intros (_ & _ & _ & root' & ? & ? & ? & [= <-] & Hb & Hc & _).
       rewrite Hbuild in Hb. injection Hb as <-. rewrite Hblock in Hc.
       discriminate. }
  destruct (InsertBlockWithoutSetHead (bc s) block) as [bc'|] eqn:Hins.
  2: { split; [discriminate|].
       intros (_ & _ & _ & root' & ? & ? & ? & [= <-] & Hb & Hc & Hi & _).
       rewrite Hbuild in Hb. injection Hb as <-. rewrite Hblock in Hc.
       injection Hc as <-. rewrite Hins in Hi. discriminate. }
  split.
  - intros [= <- <-]. repeat split; [exact Hprev'|].
    by exists root, payload, block, bc'.
  - intros (_ & _ & _ & root' & payload' & block' & bc'' & [= <-] & Hb & Hc & Hi
            & -> & ->).
    rewrite Hbuild in Hb. injection Hb as <-. rewrite Hblock in Hc.
    injection Hc as <-. rewrite Hins in Hi. injection Hi as <-. reflexivity.
Qed.

End Inversions.

(** ** The configuration updates after an insert *)

Lemma postInsertConfig_frame `{C : Collaborators} cfg prefix res s :
  bc (postInsertConfig cfg prefix res s) = bc s
  /\ astriaOrdered (postInsertConfig cfg prefix res s) = astriaOrdered s
  /\ genesisInfoCalled (postInsertConfig cfg prefix res s) = genesisInfoCalled s
  /\ getCommitmentStateCalled (postInsertConfig cfg prefix res s)
     = getCommitmentStateCalled s
  /\ synced (postInsertConfig cfg prefix res s) = synced s.
Proof.
  unfold postInsertConfig.
  destruct (AstriaFeeCollectors cfg !! _), (AstriaAuctioneerAddresses cfg !! _);
    repeat split.
Qed.

Section AuctioneerAddress.
Context `{C : Collaborators}.
Variable cfg : ChainConfig.

Lemma postInsertConfig_auctioneer prefix res s address :
  AstriaAuctioneerAddresses cfg !! uint32 (astriaPb.Number res + 1) = Some address ->
  auctioneerAddress (postInsertConfig cfg prefix res s) = address.
Proof. intros Hcfg. unfold postInsertConfig. rewrite Hcfg. reflexivity. Qed.

Lemma postInsertConfig_no_auctioneer prefix res s :
  AstriaAuctioneerAddresses cfg !! uint32 (astriaPb.Number res + 1) = None ->
  auctioneerAddress (postInsertConfig cfg prefix res s) = auctioneerAddress s.
Proof.
  intros Hcfg. unfold postInsertConfig. rewrite Hcfg.
  by destruct (AstriaFeeCollectors cfg !! _).
Qed.

End AuctioneerAddress.

(** ** The commitment pointers after an accepted update *)

Section CommitmentPointers.
Context `{C : Collaborators} `{!ChainStoreLaws}.

Local Ltac finish_pointers :=
  simpl HeaderHash; repeat split;
  first [ done | congruence | intros; congruence | intros; by eexists ].

(** The store after the optional re-canonicalisation keeps the pointers
    and the Celestia height. *)
Lemma recanonicalise_frame (c c1 : chain) (b : types.Block) (cond : bool) :
  (if cond then SetCanonical c b else Some c) = Some c1 ->
  CurrentSafeBlock c1 = CurrentSafeBlock c
  /\ CurrentFinalBlock c1 = CurrentFinalBlock c
  /\ CurrentBaseCelestiaHeight c1 = CurrentBaseCelestiaHeight c.
Proof.
  destruct cond.
  - apply SetCanonical_frame.
  - intros [= <-]. auto.
Qed.

Lemma commitBlocks_Ok s cs softEthHash firmEthHash softBlock firmBlock cs' s1 :
  commitBlocks s cs softEthHash firmEthHash softBlock firmBlock = (Ok cs', s1) ->
  types.Hash softBlock = softEthHash ->
  types.Hash firmBlock = firmEthHash ->
  cs' = cs
  /\ HeaderHash (CurrentSafeBlock (bc s1)) = softEthHash
  /\ HeaderHash (CurrentFinalBlock (bc s1)) = firmEthHash
  /\ (is_Some (CurrentSafeBlock (bc s)) -> is_Some (CurrentSafeBlock (bc s1)))
  /\ (is_Some (CurrentFinalBlock (bc s)) -> is_Some (CurrentFinalBlock (bc s1)))
  /\ (HeaderHash (CurrentFinalBlock (bc s)) ≠ firmEthHash ->
      CurrentBaseCelestiaHeight (bc s1) = astriaPb.BaseCelestiaHeight cs)
  /\ (HeaderHash (CurrentFinalBlock (bc s)) = firmEthHash ->
      CurrentBaseCelestiaHeight (bc s1) = CurrentBaseCelestiaHeight (bc s)).
Proof.
  unfold commitBlocks. cbv zeta.
  destruct (if bool_decide (types.hHash (CurrentBlock (bc s)) ≠ softEthHash)
            then SetCanonical (bc s) softBlock else Some (bc s))
    as [bc1|] eqn:Hcanon; [|discriminate].
  apply recanonicalise_frame in Hcanon as (Hsafe1 & Hfinal1 & Hbase1).
  case_bool_decide as Hfirm.
  { destruct (GetBlockByHash bc1 _) as [rb|]; [|discriminate].
    destruct (SetCanonical bc1 rb); discriminate. }
  simpl bc.
  intros Hout Hsoft Hfirmb.
  destruct (decide (HeaderHash (CurrentSafeBlock bc1) = softEthHash)) as [Hs|Hs];
    [rewrite (bool_decide_eq_false_2 _ (fun H => H Hs)) in Hout
    |rewrite (bool_decide_eq_true_2 _ Hs) in Hout]; simpl bc in Hout.
  - destruct (decide (HeaderHash (CurrentFinalBlock bc1) = firmEthHash)) as [Hf|Hf];
      [rewrite (bool_decide_eq_false_2 _ (fun H => H Hf)) in Hout
      |rewrite (bool_decide_eq_true_2 _ Hf) in Hout];
      injection Hout as <- <-; simpl bc.
    + rewrite <- Hsafe1, <- Hfinal1, <- Hbase1. finish_pointers.
    + rewrite SetCelestiaFinalized_final, SetCelestiaFinalized_height.
      destruct (SetCelestiaFinalized_frame bc1 (types.header firmBlock)
                  (astriaPb.BaseCelestiaHeight cs)) as [_ ->].
      rewrite <- Hsafe1, <- Hfinal1. finish_pointers.
  - destruct (SetSafe_frame bc1 (types.header softBlock)) as (_ & Hfinal2 & Hbase2).
    rewrite Hfinal2 in Hout.
    destruct (decide (HeaderHash (CurrentFinalBlock bc1) = firmEthHash)) as [Hf|Hf];
      [rewrite (bool_decide_eq_false_2 _ (fun H => H Hf)) in Hout
      |rewrite (bool_decide_eq_true_2 _ Hf) in Hout];
      injection Hout as <- <-; simpl bc.
    + rewrite SetSafe_safe, Hfinal2, Hbase2.
      rewrite <- Hfinal1, <- Hbase1. finish_pointers.
    + rewrite SetCelestiaFinalized_final, SetCelestiaFinalized_height.
      destruct (SetCelestiaFinalized_frame (SetSafe bc1 (types.header softBlock))
                  (types.header firmBlock) (astriaPb.BaseCelestiaHeight cs))
        as [_ ->].
      rewrite SetSafe_safe. rewrite <- Hfinal1. finish_pointers.
Qed.

(** What an accepted [UpdateCommitmentState] went through. *)
Lemma UpdateCommitmentState_Ok_inv s req cs s1 :
  UpdateCommitmentState s req = (Ok cs, s1) ->
  validateStaticCommitmentState (astriaPb.ReqCommitmentState req) = true
  /\ syncMethodsCalled s = true
  /\ CurrentBaseCelestiaHeight (bc s)
     <= astriaPb.BaseCelestiaHeight (astriaPb.ReqCommitmentState req)
  /\ exists softBlock firmBlock,
       types.Hash softBlock
       = common.BytesToHash
           (astriaPb.Hash (astriaPb.Soft (astriaPb.ReqCommitmentState req)))
       /\ types.Hash firmBlock
          = common.BytesToHash
              (astriaPb.Hash (astriaPb.Firm (astriaPb.ReqCommitmentState req)))
       /\ commitBlocks s (astriaPb.ReqCommitmentState req)
            (types.Hash softBlock) (types.Hash firmBlock) softBlock firmBlock
          = (Ok cs, s1).
Proof.
  unfold UpdateCommitmentState. cbv zeta.
  destruct (validateStaticCommitmentState _); [|discriminate].
  destruct (syncMethodsCalled s); [|discriminate]. simpl negb. cbv iota.
  destruct (Z.gtb_spec (CurrentBaseCelestiaHeight (bc s))
              (astriaPb.BaseCelestiaHeight (astriaPb.ReqCommitmentState req)));
    [discriminate|].
  destruct (GetBlockByHash (bc s) (common.BytesToHash (astriaPb.Hash (astriaPb.Soft _))))
    as [softBlock|] eqn:Hsoft; [|discriminate].
  destruct (GetBlockByHash (bc s) (common.BytesToHash (astriaPb.Hash (astriaPb.Firm _))))
    as [firmBlock|] eqn:Hfirm; [|discriminate].
  intros Hout. repeat split; [lia|].
  exists softBlock, firmBlock.
  apply GetBlockByHash_hash in Hsoft, Hfirm.
  rewrite Hsoft, Hfirm. auto.
Qed.

End CommitmentPointers.

(** ** The handshake flags along a run *)

Section Handshake.
Context `{C : Collaborators}.
Variable cfg : ChainConfig.

Local Ltac crush_branches :=
  repeat match goal with
         | |- context [if ?b then _ else _] => destruct b
         | |- context [match ?o with Some _ => _ | None => _ end] => destruct o
         end.

Lemma ExecuteBlock_flags s req :
  genesisInfoCalled (snd (ExecuteBlock cfg s req)) = genesisInfoCalled s
  /\ getCommitmentStateCalled (snd (ExecuteBlock cfg s req))
     = getCommitmentStateCalled s.
Proof.
  unfold ExecuteBlock. cbv zeta. crush_branches; cbn [snd];
    try (split; reflexivity).
  match goal with
  | |- context [postInsertConfig ?c ?p ?r ?x] =>
      destruct (postInsertConfig_frame c p r x) as (_ & _ & -> & -> & _)
  end.
  split; reflexivity.
Qed.

Lemma UpdateCommitmentState_flags s req :
  genesisInfoCalled (snd (UpdateCommitmentState s req)) = genesisInfoCalled s
  /\ getCommitmentStateCalled (snd (UpdateCommitmentState s req))
     = getCommitmentStateCalled s.
Proof.
  unfold UpdateCommitmentState, commitBlocks. cbv zeta.
  crush_branches; cbn [snd]; split; reflexivity.
Qed.

(** A call sets a handshake flag only by being the matching getter. *)
Lemma step_genesisInfoCalled s c :
  genesisInfoCalled (snd (step cfg s c)) = true ->
  genesisInfoCalled s = true \/ c = CallGetGenesisInfo.
Proof.
  destruct c as [|req|req|req| |req]; cbn [step].
  - by right.
  - unfold GetBlock. destruct (astriaPb.Identifier req); by left.
  - unfold BatchGetBlocks. destruct (astriaPb.Identifiers req); by left.
  - destruct (ExecuteBlock cfg s req) as [r s'] eqn:Hrun. cbn [snd].
    pose proof (ExecuteBlock_flags s req) as [Hg _]. rewrite Hrun in Hg.
    cbn [snd] in Hg. rewrite Hg. by left.
  - unfold GetCommitmentState.
    destruct (ethHeaderToExecutionBlock (CurrentSafeBlock (bc s)));
      [destruct (ethHeaderToExecutionBlock (CurrentFinalBlock (bc s)))|]; by left.
  - destruct (UpdateCommitmentState s req) as [r s'] eqn:Hrun. cbn [snd].
    pose proof (UpdateCommitmentState_flags s req) as [Hg _]. rewrite Hrun in Hg.
    cbn [snd] in Hg. rewrite Hg. by left.
Qed.

Lemma step_getCommitmentStateCalled s c :
  getCommitmentStateCalled (snd (step cfg s c)) = true ->
  getCommitmentStateCalled s = true
  \/ (c = CallGetCommitmentState /\ fst (step cfg s c) = StatusOK).
Proof.
  destruct c as [|req|req|req| |req]; cbn [step].
  - by left.
  - unfold GetBlock. destruct (astriaPb.Identifier req); by left.
  - unfold BatchGetBlocks. destruct (astriaPb.Identifiers req); by left.
  - destruct (ExecuteBlock cfg s req) as [r s'] eqn:Hrun. cbn [snd].
    pose proof (ExecuteBlock_flags s req) as [_ Hg]. rewrite Hrun in Hg.
    cbn [snd] in Hg. rewrite Hg. by left.
  - unfold GetCommitmentState.
    destruct (ethHeaderToExecutionBlock (CurrentSafeBlock (bc s)));
      [destruct (ethHeaderToExecutionBlock (CurrentFinalBlock (bc s)))|];
      cbn; auto.
  - destruct (UpdateCommitmentState s req) as [r s'] eqn:Hrun. cbn [snd].
    pose proof (UpdateCommitmentState_flags s req) as [_ Hg]. rewrite Hrun in Hg.
    cbn [snd] in Hg. rewrite Hg. by left.
Qed.

Lemma run_cons s c rest s' :
  run cfg s (c :: rest) = Some s' ->
  fst (step cfg s c) ≠ StatusPanic /\ run cfg (snd (step cfg s c)) rest = Some s'.
Proof.
  cbn [run]. destruct (step cfg s c) as [st s1]. cbn [fst snd].
  destruct st; [auto | auto | discriminate].
Qed.

Lemma run_cons_intro s c rest :
  fst (step cfg s c) ≠ StatusPanic ->
  run cfg s (c :: rest) = run cfg (snd (step cfg s c)) rest.
Proof.
  cbn [run]. destruct (step cfg s c) as [st s1]. cbn [fst snd].
  destruct st; [reflexivity | reflexivity | contradiction].
Qed.

(** A flag found set at the end of a run was set at its start or by a
    getter within the run. *)
Lemma run_genesisInfoCalled pre : forall s0 s,
  run cfg s0 pre = Some s ->
  genesisInfoCalled s = true ->
  genesisInfoCalled s0 = true \/ In CallGetGenesisInfo pre.
Proof.
  induction pre as [|c rest IH]; intros s0 s Hrun Hflag.
  - injection Hrun as <-. by left.
  - apply run_cons in Hrun as [_ Hrun].
    destruct (IH _ _ Hrun Hflag) as [Hs1|Hin]; [|right; by right].
    destruct (step_genesisInfoCalled s0 c Hs1) as [?| ->]; [by left|].
    right. by left.
Qed.

Lemma run_getCommitmentStateCalled pre : forall s0 s,
  run cfg s0 pre = Some s ->
  getCommitmentStateCalled s = true ->
  getCommitmentStateCalled s0 = true
  \/ exists pre1 pre2 s1,
       pre = pre1 ++ CallGetCommitmentState :: pre2
       /\ run cfg s0 pre1 = Some s1
       /\ fst (step cfg s1 CallGetCommitmentState) = StatusOK.
Proof.
  induction pre as [|c rest IH]; intros s0 s Hrun Hflag.
  - injection Hrun as <-. by left.
  - apply run_cons in Hrun as [Hnp Hrun].
    destruct (IH _ _ Hrun Hflag) as [Hs1|(pre1 & pre2 & s1 & -> & Hrun1 & Hok)].
    + destruct (step_getCommitmentStateCalled s0 c Hs1) as [?|[-> Hok]]; [by left|].
      right. exists [], rest, s0. by repeat split.
    + right. exists (c :: pre1), pre2, s1. repeat split; [|exact Hok].
      rewrite run_cons_intro by exact Hnp. exact Hrun1.
Qed.

End Handshake.

(** ** The Celestia height along a run *)

Section CelestiaHeight.
Context `{C : Collaborators} `{!ChainStoreLaws}.
Variable cfg : ChainConfig.

Lemma commitBlocks_height s cs softEthHash firmEthHash softBlock firmBlock :
  types.Hash softBlock = softEthHash ->
  types.Hash firmBlock = firmEthHash ->
  CurrentBaseCelestiaHeight (bc s) <= astriaPb.BaseCelestiaHeight cs ->
  CurrentBaseCelestiaHeight (bc s)
  <= CurrentBaseCelestiaHeight
       (bc (snd (commitBlocks s cs softEthHash firmEthHash softBlock firmBlock))).
Proof.
  intros Hsoft Hfirm Hle.
  destruct (commitBlocks s cs softEthHash firmEthHash softBlock firmBlock)
    as [r s1] eqn:Hout.
  destruct r as [cs'| |].
  - apply commitBlocks_Ok in Hout as (_ & _ & _ & _ & _ & Hmoved & Hkept);
      [|assumption..].
    cbn [snd].
    destruct (decide (HeaderHash (CurrentFinalBlock (bc s)) = firmEthHash))
      as [Heq|Hne]; [rewrite (Hkept Heq); lia | rewrite (Hmoved Hne); exact Hle].
  - revert Hout. unfold commitBlocks. cbv zeta.
    destruct (if bool_decide (types.hHash (CurrentBlock (bc s)) ≠ softEthHash)
              then SetCanonical (bc s) softBlock else Some (bc s))
      as [bc1|] eqn:Hcanon; [|intros [= _ <-]; cbn [snd]; lia].
    apply recanonicalise_frame in Hcanon as (_ & _ & Hbase1).
    case_bool_decide; [|discriminate].
    destruct (GetBlockByHash bc1 _) as [rb|]; [|discriminate].
    destruct (SetCanonical bc1 rb) as [bc2|] eqn:Hback; [|discriminate].
    intros [= _ <-]. cbn [snd]. simpl bc.
    destruct (SetCanonical_frame _ _ _ Hback) as (_ & _ & ->). lia.
  - revert Hout. unfold commitBlocks. cbv zeta.
    destruct (if bool_decide (types.hHash (CurrentBlock (bc s)) ≠ softEthHash)
              then SetCanonical (bc s) softBlock else Some (bc s))
      as [bc1|] eqn:Hcanon; [|discriminate].
    apply recanonicalise_frame in Hcanon as (_ & _ & Hbase1).
    case_bool_decide; [|discriminate].
    destruct (GetBlockByHash bc1 _) as [rb|];
      [destruct (SetCanonical bc1 rb); [discriminate|]|];
      intros [= <-]; cbn [snd]; simpl bc; lia.
Qed.

Lemma UpdateCommitmentState_height s req :
  CurrentBaseCelestiaHeight (bc s)
  <= CurrentBaseCelestiaHeight (bc (snd (UpdateCommitmentState s req))).
Proof.
  unfold UpdateCommitmentState. cbv zeta.
  destruct (validateStaticCommitmentState _); [|cbn; lia].
  destruct (syncMethodsCalled s); [|cbn; lia]. simpl negb. cbv iota.
  destruct (Z.gtb_spec (CurrentBaseCelestiaHeight (bc s))
              (astriaPb.BaseCelestiaHeight (astriaPb.ReqCommitmentState req)));
    [cbn; lia|].
  destruct (GetBlockByHash (bc s) (common.BytesToHash (astriaPb.Hash (astriaPb.Soft _))))
    as [softBlock|] eqn:Hsoft; [|cbn; lia].
  destruct (GetBlockByHash (bc s) (common.BytesToHash (astriaPb.Hash (astriaPb.Firm _))))
    as [firmBlock|] eqn:Hfirm; [|cbn; lia].
  apply commitBlocks_height;
    [exact (GetBlockByHash_hash _ _ _ Hsoft)
    |exact (GetBlockByHash_hash _ _ _ Hfirm) | assumption].
Qed.

Lemma ExecuteBlock_height s req :
  CurrentBaseCelestiaHeight (bc (snd (ExecuteBlock cfg s req)))
  = CurrentBaseCelestiaHeight (bc s).
Proof.
  destruct (ExecuteBlock cfg s req) as [r s'] eqn:Hrun.
  destruct r as [res| |].
  - apply ExecuteBlock_Ok_inv in Hrun
      as (_ & _ & _ & txs & args & payload & root & block & bc' & _ & _ & _
          & _ & _ & Hins & _ & ->).
    cbn [snd]. rewrite (proj1 (postInsertConfig_frame _ _ _ _)). simpl bc.
    by destruct (InsertBlockWithoutSetHead_frame _ _ _ Hins) as (_ & _ & _ & ->).
  - revert Hrun. unfold ExecuteBlock. cbv zeta.
    repeat match goal with
           | |- context [if ?b then _ else _] => destruct b
           | |- context [match ?o with Some _ => _ | None => _ end] => destruct o
           end; intros [= _ <-]; reflexivity.
  - revert Hrun. unfold ExecuteBlock. cbv zeta.
    repeat match goal with
           | |- context [if ?b then _ else _] => destruct b
           | |- context [match ?o with Some _ => _ | None => _ end] => destruct o
           end; discriminate.
Qed.

Lemma step_height s c :
  CurrentBaseCelestiaHeight (bc s)
  <= CurrentBaseCelestiaHeight (bc (snd (step cfg s c))).
Proof.
  destruct c as [|req|req|req| |req]; cbn [step].
  - cbn. lia.
  - unfold GetBlock. destruct (astriaPb.Identifier req); cbn; lia.
  - unfold BatchGetBlocks. destruct (astriaPb.Identifiers req); cbn; lia.
  - pose proof (ExecuteBlock_height s req) as Hh.
    destruct (ExecuteBlock cfg s req) as [r s']. cbn [snd] in *. lia.
  - unfold GetCommitmentState.
    destruct (ethHeaderToExecutionBlock (CurrentSafeBlock (bc s)));
      [destruct (ethHeaderToExecutionBlock (CurrentFinalBlock (bc s)))|];
      cbn; lia.
  - pose proof (UpdateCommitmentState_height s req) as Hh.
    destruct (UpdateCommitmentState s req) as [r s']. cbn [snd] in *. lia.
Qed.

Lemma run_height calls : forall s0 s,
  run cfg s0 calls = Some s ->
  CurrentBaseCelestiaHeight (bc s0) <= CurrentBaseCelestiaHeight (bc s).
Proof.
  induction calls as [|c rest IH]; intros s0 s Hrun.
  - injection Hrun as <-. lia.
  - apply run_cons in Hrun as [_ Hrun]. apply IH in Hrun.
    pose proof (step_height s0 c). lia.
Qed.

End CelestiaHeight.

(** ** The lookups behind the query procedures *)

Section Queries.
Context `{C : Collaborators}.

Lemma getBlockFromIdentifier_cases (s : SharedServiceContainer chain) id :
  getBlockFromIdentifier s id =
  match headerOfIdentifier s id with
  | None => Err codes.InvalidArgument
  | Some None => Err codes.NotFound
  | Some (Some header) =>
      match ethHeaderToExecutionBlock (Some header) with
      | Some res => Ok res
      | None => Err codes.Internal
      end
  end.
Proof. destruct id; reflexivity. Qed.

Lemma batchLoop_Ok_iff (s : SharedServiceContainer chain) ids :
  forall acc blks,
    batchLoop s ids acc = Ok blks <->
    exists new, blks = acc ++ new
      /\ Forall2 (fun id blk => getBlockFromIdentifier s id = Ok blk) ids new.
Proof.
  induction ids as [|id rest IH]; intros acc blks; cbn [batchLoop].
  - split.
    + intros [= <-]. exists []. split; [by rewrite app_nil_r | constructor].
    + intros (new & -> & Hall). apply Forall2_nil_inv_l in Hall as ->.
      by rewrite app_nil_r.
  - destruct (getBlockFromIdentifier s id) as [blk| |] eqn:Hid.
    + rewrite IH. split.
      * intros (new & -> & Hall). exists (blk :: new).
        split; [by rewrite <- app_assoc | by constructor].
      * intros (new & -> & Hall).
        apply Forall2_cons_inv_l in Hall as (blk' & new' & Hblk & Hall & ->).
        rewrite Hid in Hblk. injection Hblk as <-.
        exists new'. split; [by rewrite <- app_assoc | exact Hall].
    + split; [discriminate|].
      intros (new & _ & Hall).
      apply Forall2_cons_inv_l in Hall as (blk' & new' & Hblk & _ & _).
      rewrite Hid in Hblk. discriminate.
    + split; [discriminate|].
      intros (new & _ & Hall).
      apply Forall2_cons_inv_l in Hall as (blk' & new' & Hblk & _ & _).
      rewrite Hid in Hblk. discriminate.
Qed.

Lemma batchLoop_first_error (s : SharedServiceContainer chain) pre :
  forall id post c acc,
    Forall (fun i => is_Ok (getBlockFromIdentifier s i) = true) pre ->
    getBlockFromIdentifier s id = Err c ->
    batchLoop s (pre ++ id :: post) acc = Err c.
Proof.
  induction pre as [|p pre IH]; intros id post c acc Hpre Hid; cbn [batchLoop app].
  - by rewrite Hid.
  - apply Forall_cons in Hpre as [Hp Hpre].
    destruct (getBlockFromIdentifier s p); [|discriminate..].
    by apply IH.
Qed.

End Queries.

(** * The claims *)

(** ** C1: the auctioneer address after a block *)

(** C1.  After a successful [ExecuteBlock], an auctioneer address that the
    configuration gives for the height after the returned block number is
    the stored auctioneer address, whether or not it passes the bech32m
    validation under the configured prefix: a failed validation does not
    keep the address out of the cell. *)
Theorem ExecuteBlock_stores_configured_auctioneer `{C : Collaborators}
    (cfg : ChainConfig) (s s' : SharedServiceContainer chain)
    (req : astriaPb.ExecuteBlockRequest) (res : astriaPb.Block)
    (address : string) :
  ExecuteBlock cfg s req = (Ok res, s') ->
  AstriaAuctioneerAddresses cfg !! uint32 (astriaPb.Number res + 1)
    = Some address ->
  auctioneerAddress s' = address.
Proof.
  intros Hexec Hcfg.
  apply ExecuteBlock_Ok_inv in Hexec
    as (_ & _ & _ & txs & args & payload & root & block & bc' & _ & _ & _
        & _ & _ & _ & Hres & ->).
  by apply postInsertConfig_auctioneer.
Qed.

(** On the small chain the configuration names "bogus" for height 4.  It
    fails validation under the prefix "astria", the block at height 3 is
    executed, and the cell that held "astria1old" holds "bogus". *)
Lemma ExecuteBlock_stores_configured_auctioneer_witness :
  let cfg := Toy.config false ∅ {[ 4 := "bogus" ]} in
  let s := Toy.container Toy.chainAt2 true in
  let out := ExecuteBlock cfg s (Toy.executeOn Toy.block2 30 None) in
  ValidateBech32mAddress "bogus" (AstriaSequencerAddressPrefix cfg) = false
  /\ auctioneerAddress s = "astria1old"
  /\ is_Ok (fst out) = true
  /\ auctioneerAddress (snd out) = "bogus".
Proof.
  intros cfg s out.
  split; [reflexivity|]. split; [reflexivity|]. split; [reflexivity|].
  assert (Hrun : exists res s',
             out = (Ok res, s')
             /\ AstriaAuctioneerAddresses cfg !! uint32 (astriaPb.Number res + 1)
                = Some "bogus")
    by (eexists _, _; split; [vm_compute; reflexivity | vm_compute; reflexivity]).
  destruct Hrun as (res & s' & Hrun & Hcfg).
  rewrite Hrun. cbn [snd].
  exact (ExecuteBlock_stores_configured_auctioneer (C := Toy.toy) cfg s s'
           (Toy.executeOn Toy.block2 30 None) res "bogus" Hrun Hcfg).
Defined.

(** ** C2: the firm block is not on the soft block's chain *)

Lemma UpdateCommitmentState_reaches `{C : Collaborators}
    s req softBlock firmBlock bc1 :
  let cs := astriaPb.ReqCommitmentState req in
  reachesFirmCheck s req softBlock firmBlock bc1 ->
  UpdateCommitmentState s req =
  commitBlocks s cs
    (common.BytesToHash (astriaPb.Hash (astriaPb.Soft cs)))
    (common.BytesToHash (astriaPb.Hash (astriaPb.Firm cs)))
    softBlock firmBlock.
Proof.
  intros cs (Hstatic & Hsync & Hbase & Hsoft & Hfirm & _). subst cs.
  unfold UpdateCommitmentState. cbv zeta.
  rewrite Hstatic, Hsync. simpl negb. cbv iota.
  destruct (Z.gtb_spec (CurrentBaseCelestiaHeight (bc s))
              (astriaPb.BaseCelestiaHeight (astriaPb.ReqCommitmentState req)));
    [lia|].
  rewrite Hsoft, Hfirm. reflexivity.
Qed.

(** C2.  When [UpdateCommitmentState] has found both blocks and
    re-canonicalised the chain to the soft block, and the canonical hash at
    the firm block's height is not the requested firm hash, the store is
    handed the block under the pre-call head hash to become canonical
    again.  If that [SetCanonical] succeeds the call returns
    [InvalidArgument] and the head is the pre-call head; if it fails the
    process aborts. *)
Theorem UpdateCommitmentState_firm_mismatch_rolls_back
    `{C : Collaborators} {laws : ChainStoreLaws}
    (s : SharedServiceContainer chain)
    (req : astriaPb.UpdateCommitmentStateRequest)
    (softBlock firmBlock rollbackBlock : types.Block) (bc1 : chain) :
  reachesFirmCheck s req softBlock firmBlock bc1 ->
  GetCanonicalHash bc1 (types.NumberU64 firmBlock)
    ≠ common.BytesToHash
        (astriaPb.Hash (astriaPb.Firm (astriaPb.ReqCommitmentState req))) ->
  GetBlockByHash bc1 (types.hHash (CurrentBlock (bc s))) = Some rollbackBlock ->
  (forall bc2, SetCanonical bc1 rollbackBlock = Some bc2 ->
     UpdateCommitmentState s req = (Err codes.InvalidArgument, setBc s bc2)
     /\ types.hHash (CurrentBlock bc2) = types.hHash (CurrentBlock (bc s)))
  /\ (SetCanonical bc1 rollbackBlock = None ->
      fst (UpdateCommitmentState s req) = Panic).
Proof.
  intros Hreach Hmismatch Hrb.
  rewrite (UpdateCommitmentState_reaches s req softBlock firmBlock bc1 Hreach).
  destruct Hreach as (_ & _ & _ & _ & _ & Hcanon).
  unfold commitBlocks. cbv zeta. rewrite Hcanon.
  rewrite bool_decide_eq_true_2 by exact Hmismatch.
  rewrite Hrb. split.
  - intros bc2 Hback. rewrite Hback. split; [reflexivity|].
    rewrite (SetCanonical_head _ _ _ Hback).
    exact (GetBlockByHash_hash _ _ _ Hrb).
  - intros Hback. rewrite Hback. reflexivity.
Qed.

(** On the small chain, with head, soft and firm at [block2], a request
    names the fork block as soft and [block2] as firm.  The head moves to
    the fork block, no ancestor of which stands at height 2, and the call
    answers [InvalidArgument] with the head back at [block2]. *)
Lemma UpdateCommitmentState_firm_mismatch_rolls_back_witness :
  let s := Toy.container Toy.chainAt2 true in
  let req := Toy.commit (Toy.wire Toy.fork1) (Toy.wire Toy.block2) 5 in
  let bc1 :=
    Toy.mkStore (Toy.blocks Toy.chainAt2) (types.header Toy.fork1)
      (Toy.safePtr Toy.chainAt2) (Toy.finalPtr Toy.chainAt2) 5 in
  reachesFirmCheck s req Toy.fork1 Toy.block2 bc1
  /\ GetCanonicalHash bc1 (types.NumberU64 Toy.block2)
     ≠ common.BytesToHash (types.Hash Toy.block2)
  /\ UpdateCommitmentState s req = (Err codes.InvalidArgument, s)
  /\ CurrentBlock (bc (snd (UpdateCommitmentState s req)))
     = types.header Toy.block2.
Proof.
  intros s req bc1.
  assert (Hreach : reachesFirmCheck s req Toy.fork1 Toy.block2 bc1)
    by (repeat split; reflexivity).
  assert (Hmismatch : GetCanonicalHash bc1 (types.NumberU64 Toy.block2)
                      ≠ common.BytesToHash (types.Hash Toy.block2))
    by (vm_compute; discriminate).
  split; [exact Hreach|]. split; [exact Hmismatch|].
  destruct (UpdateCommitmentState_firm_mismatch_rolls_back
              (C := Toy.toy) (laws := toy_store_laws) s req
              Toy.fork1 Toy.block2 Toy.block2 bc1 Hreach Hmismatch eq_refl)
    as [Hok _].
  destruct (Hok Toy.chainAt2 eq_refl) as [Hout _].
  rewrite Hout. split; reflexivity.
Defined.

(** ** C3: reading the commitment state back *)

(** C3.  What [GetCommitmentState] reads after [UpdateCommitmentState]
    has accepted [cs], in a state whose soft and firm pointers are set.
    The read succeeds and returns a soft block and a firm block with the
    hashes of [cs]; their other fields are those of the headers the
    pointers hold, since the request is echoed without being compared with
    what is stored.  When the call moved the firm pointer, the Celestia
    height read is that of [cs].  When the firm hash of [cs] was already
    the firm pointer's, [SetCelestiaFinalized] is not called
    (server.go:350-353) and the height of [cs] is not stored: the read
    gives the height stored before the call, and so differs from the state
    that was echoed back whenever [cs] carries another height. *)
Theorem UpdateCommitmentState_then_GetCommitmentState
    `{C : Collaborators} {laws : ChainStoreLaws}
    (s s1 : SharedServiceContainer chain)
    (req : astriaPb.UpdateCommitmentStateRequest) (cs : astriaPb.CommitmentState) :
  UpdateCommitmentState s req = (Ok cs, s1) ->
  is_Some (CurrentSafeBlock (bc s)) ->
  is_Some (CurrentFinalBlock (bc s)) ->
  exists cs',
    GetCommitmentState s1 = (Ok cs', setGetCommitmentStateCalled s1 true)
    /\ astriaPb.Hash (astriaPb.Soft cs') = astriaPb.Hash (astriaPb.Soft cs)
    /\ astriaPb.Hash (astriaPb.Firm cs') = astriaPb.Hash (astriaPb.Firm cs)
    /\ ethHeaderToExecutionBlock (CurrentSafeBlock (bc s1))
       = Some (astriaPb.Soft cs')
    /\ ethHeaderToExecutionBlock (CurrentFinalBlock (bc s1))
       = Some (astriaPb.Firm cs')
    /\ (HeaderHash (CurrentFinalBlock (bc s)) ≠ astriaPb.Hash (astriaPb.Firm cs) ->
        astriaPb.BaseCelestiaHeight cs' = astriaPb.BaseCelestiaHeight cs)
    /\ (HeaderHash (CurrentFinalBlock (bc s)) = astriaPb.Hash (astriaPb.Firm cs) ->
        astriaPb.BaseCelestiaHeight cs' = CurrentBaseCelestiaHeight (bc s)
        /\ CurrentBaseCelestiaHeight (bc s1) = CurrentBaseCelestiaHeight (bc s)
        /\ (CurrentBaseCelestiaHeight (bc s) ≠ astriaPb.BaseCelestiaHeight cs ->
            cs' ≠ cs))
    /\ astriaPb.BaseCelestiaHeight cs' <= astriaPb.BaseCelestiaHeight cs.
Proof.
  intros Hupd Hsafe Hfinal.
  apply UpdateCommitmentState_Ok_inv in Hupd
    as (Hstatic & _ & Hbase & softBlock & firmBlock & Hsoft & Hfirm & Hcommit).
  apply commitBlocks_Ok in Hcommit
    as (-> & Hs1 & Hf1 & Hsome_s & Hsome_f & Hmoved & Hkept); [|reflexivity..].
  unfold validateStaticCommitmentState in Hstatic.
  apply andb_prop in Hstatic as [Hlen _].
  apply andb_prop in Hlen as [Hlen_s Hlen_f].
  apply bool_decide_eq_true in Hlen_s, Hlen_f.
  rewrite Hsoft, (BytesToHash_id _ Hlen_s) in Hs1.
  rewrite Hfirm, (BytesToHash_id _ Hlen_f) in Hf1, Hmoved, Hkept.
  destruct (Hsome_s Hsafe) as [hs Hhs]. destruct (Hsome_f Hfinal) as [hf Hhf].
  unfold GetCommitmentState. rewrite Hhs, Hhf. simpl ethHeaderToExecutionBlock.
  rewrite Hhs in Hs1. rewrite Hhf in Hf1. simpl in Hs1, Hf1.
  eexists. split; [reflexivity|]. simpl.
  split; [exact Hs1|]. split; [exact Hf1|].
  split; [reflexivity|]. split; [reflexivity|].
  split; [exact Hmoved|]. split.
  - intros Heq. specialize (Hkept Heq).
    split; [exact Hkept|]. split; [exact Hkept|].
    intros Hne Hcs. apply Hne. rewrite <- Hkept, <- Hcs. reflexivity.
  - destruct (decide (HeaderHash (CurrentFinalBlock (bc s))
                      = astriaPb.Hash (astriaPb.Firm (astriaPb.ReqCommitmentState req))))
      as [Heq|Hne].
    + rewrite (Hkept Heq). exact Hbase.
    + rewrite (Hmoved Hne). lia.
Qed.

(** On the small chain with head, soft and firm at [block2] and Celestia
    height 5, a request that keeps both blocks and raises the height to 6
    is accepted and echoed with height 6; the store keeps height 5 and the
    following read gives height 5, not the state that was echoed. *)
Lemma UpdateCommitmentState_then_GetCommitmentState_witness :
  let s := Toy.container Toy.chainAt2 true in
  let cs :=
    astriaPb.mkCommitmentState (Toy.wire Toy.block2) (Toy.wire Toy.block2) 6 in
  let req := astriaPb.mkUpdateCommitmentStateRequest cs in
  exists s1 cs',
    UpdateCommitmentState s req = (Ok cs, s1)
    /\ GetCommitmentState s1 = (Ok cs', setGetCommitmentStateCalled s1 true)
    /\ CurrentBaseCelestiaHeight (bc s1) = 5
    /\ astriaPb.BaseCelestiaHeight cs' = 5
    /\ cs' ≠ cs.
Proof.
  intros s cs req.
  assert (Hupd : exists s1, UpdateCommitmentState s req = (Ok cs, s1))
    by (eexists; vm_compute; reflexivity).
  destruct Hupd as [s1 Hupd].
  assert (Hsafe : is_Some (CurrentSafeBlock (bc s))) by (by eexists).
  assert (Hfinal : is_Some (CurrentFinalBlock (bc s))) by (by eexists).
  assert (Hsame : HeaderHash (CurrentFinalBlock (bc s))
                  = astriaPb.Hash (astriaPb.Firm cs)) by reflexivity.
  assert (Hraised : CurrentBaseCelestiaHeight (bc s)
                    ≠ astriaPb.BaseCelestiaHeight cs) by discriminate.
  destruct (UpdateCommitmentState_then_GetCommitmentState
              (C := Toy.toy) (laws := toy_store_laws) s s1 req cs Hupd Hsafe Hfinal)
    as (cs' & Hget & _ & _ & _ & _ & _ & Hkept & _).
  destruct (Hkept Hsame) as (Hread & Hstored & Hdiff).
  exists s1, cs'. split; [exact Hupd|]. split; [exact Hget|].
  split; [exact Hstored|]. split; [exact Hread | exact (Hdiff Hraised)].
Defined.

(** ** C4: what a successful [ExecuteBlock] changes *)

(** C4.  An [ExecuteBlock] that returns OK staged in the pool the
    unbundling of the request's transactions, computed for the height
    after the current head (server.go:171-172, "the height that this block
    will be at"), had the builder make a payload from that list on top of
    the block named by [prev_block_hash], and stored the block of that
    payload: every lookup by hash is as before, except that the hash of
    the block resolves to the block.  The block is a child of the current
    soft head, which the store holds, and stands one above the soft head;
    that is the height the transactions were unbundled for exactly when
    the soft head stands as high as the head.  The head, safe and final
    pointers and the Celestia height are as before, and the pool's ordered
    list is empty again. *)
Theorem ExecuteBlock_frame
    `{C : Collaborators} {laws : ChainStoreLaws} {miner : MinerLaws}
    (cfg : ChainConfig) (s s' : SharedServiceContainer chain)
    (req : astriaPb.ExecuteBlockRequest) (res : astriaPb.Block) :
  ExecuteBlock cfg s req = (Ok res, s') ->
  let prevHeadHash := common.BytesToHash (astriaPb.PrevBlockHash req) in
  let height := uint64 (bigInt_Uint64 (types.hNumber (CurrentBlock (bc s))) + 1) in
  let ts := uint64 (timestamppb.GetSeconds (astriaPb.ReqTimestamp req)) in
  let txs :=
    UnbundleRollupDataTransactions cfg (astriaPb.Transactions req) height
      (common.Bytes prevHeadHash) in
  exists root payload block parent,
    sequencerHashRefFor (IsCancun cfg (int64 height) ts)
      (astriaPb.SequencerBlockHash req) = Some root
    /\ BuildPayload (bc s) txs
         (mkBuildPayloadArgs prevHeadHash ts (repeat x00 common.HashLength)
            (nextFeeRecipient s) [] false root) = Some payload
    /\ ExecutableDataToBlock payload root = Some block
    /\ res = executedBlockResponse block
    /\ (forall h, GetBlockByHash (bc s') h =
                  if bool_decide (h = types.Hash block) then Some block
                  else GetBlockByHash (bc s) h)
    /\ types.ParentHash block = HeaderHash (CurrentSafeBlock (bc s))
    /\ GetBlockByHash (bc s) (HeaderHash (CurrentSafeBlock (bc s))) = Some parent
    /\ types.hNumber (types.header block)
       = types.hNumber (types.header parent) + 1
    /\ (types.hNumber (types.header block)
        = types.hNumber (CurrentBlock (bc s)) + 1
        <-> types.hNumber (types.header parent)
            = types.hNumber (CurrentBlock (bc s)))
    /\ CurrentBlock (bc s') = CurrentBlock (bc s)
    /\ CurrentSafeBlock (bc s') = CurrentSafeBlock (bc s)
    /\ CurrentFinalBlock (bc s') = CurrentFinalBlock (bc s)
    /\ CurrentBaseCelestiaHeight (bc s') = CurrentBaseCelestiaHeight (bc s)
    /\ astriaOrdered s' = [].
Proof.
  intros Hexec prevHeadHash height ts txs.
  apply ExecuteBlock_Ok_iff in Hexec
    as (_ & _ & Hprev & root & payload & block & bc' & Href & Hbuild & Hblock
        & Hins & -> & ->).
  fold prevHeadHash height ts txs in Href, Hbuild.
  destruct (BuildPayload_child _ _ _ _ _ _ Hbuild Hblock)
    as (Hchild & parent & Hpb & Hnum).
  cbn [Parent] in Hchild, Hpb. fold prevHeadHash in Hprev.
  rewrite Hprev in Hchild, Hpb.
  destruct (postInsertConfig_frame cfg (AstriaSequencerAddressPrefix cfg)
              (executedBlockResponse block)
              (ClearAstriaOrdered (setBc (SetAstriaOrdered s txs) bc')))
    as (Hbc & Hpool & _).
  fold prevHeadHash height txs. rewrite Hbc, Hpool. simpl bc. simpl astriaOrdered.
  destruct (InsertBlockWithoutSetHead_frame _ _ _ Hins) as (H1 & H2 & H3 & H4).
  exists root, payload, block, parent.
  split; [exact Href|]. split; [exact Hbuild|]. split; [exact Hblock|].
  split; [reflexivity|].
  split; [exact (InsertBlockWithoutSetHead_store _ _ _ Hins)|].
  split; [exact Hchild|]. split; [exact Hpb|]. split; [exact Hnum|].
  split; [rewrite Hnum; split; lia|].
  repeat split; assumption.
Qed.

(** On the small chain with the head at [block2] (height 2) and the soft
    head at [block1] (height 1), a request on top of the soft head that
    carries one deposit is executed.  The deposit is turned into a
    transaction for height 3, the height after the head, and the block
    that holds it is stored and answered at height 2. *)
Lemma ExecuteBlock_frame_witness :
  let cfg := Toy.config false ∅ ∅ in
  let s := Toy.container Toy.chainSoftBehind true in
  let deposit :=
    sequencerblockv1.mkDeposit "astria1bridge" "nria" 7 [] "0xdest" "tx" 0 in
  let req :=
    astriaPb.mkExecuteBlockRequest (types.Hash Toy.block1)
      [sequencerblockv1.RollupData_Deposit deposit]
      (Some (timestamppb.mkTimestamp 30 0)) None in
  exists res s' block,
    ExecuteBlock cfg s req = (Ok res, s')
    /\ types.hNumber (CurrentBlock (bc s)) = 2
    /\ GetBlockByHash (bc s') (astriaPb.Hash res) = Some block
    /\ types.transactions block = [NewDepositTx deposit 3 (types.Hash Toy.block1)]
    /\ types.hNumber (types.header block) = 2
    /\ astriaPb.Number res = 2
    /\ astriaOrdered s' = [].
Proof.
  intros cfg s deposit req.
  assert (Hrun : exists res s', ExecuteBlock cfg s req = (Ok res, s'))
    by (eexists _, _; vm_compute; reflexivity).
  destruct Hrun as (res & s' & Hrun).
  destruct (ExecuteBlock_frame (C := Toy.toy) (laws := toy_store_laws)
              (miner := toy_miner_laws) _ _ _ _ _ Hrun)
    as (root & payload & block & parent & Href & Hbuild & Hblock & Hres & Hstore
        & _ & Hparent & Hnum & _ & _ & _ & _ & _ & Hpool).
  injection Href as <-.
  assert (Hp : parent = Toy.block1)
    by (vm_compute in Hparent; by injection Hparent as <-).
  assert (Htxs : types.transactions block
                 = [NewDepositTx deposit 3 (types.Hash Toy.block1)]).
  { vm_compute in Hbuild. injection Hbuild as <-.
    injection Hblock as <-. reflexivity. }
  exists res, s', block. split; [exact Hrun|]. split; [reflexivity|].
  split; [|split; [exact Htxs|]].
  - rewrite Hstore, Hres. cbn [executedBlockResponse astriaPb.Hash common.Bytes].
    by rewrite bool_decide_eq_true_2.
  - rewrite Hp in Hnum. split; [exact Hnum|].
    split; [|exact Hpool].
    rewrite Hres. cbn [executedBlockResponse astriaPb.Number].
    unfold types.NumberU64. rewrite Hnum. reflexivity.
Defined.

(** The block stored need not be new.  On the small chain, the same
    request executed twice in a row is answered with the same block both
    times; the second call finds the block in the store and adds none. *)
Lemma ExecuteBlock_again_adds_no_block :
  let cfg := Toy.config false ∅ ∅ in
  let s := Toy.container Toy.chainAt2 true in
  let req := Toy.executeOn Toy.block2 30 None in
  exists res s1 s2,
    ExecuteBlock cfg s req = (Ok res, s1)
    /\ ExecuteBlock cfg s1 req = (Ok res, s2)
    /\ bc s1 ≠ bc s
    /\ bc s2 = bc s1.
Proof.
  intros cfg s req.
  eexists _, _, _. split; [vm_compute; reflexivity|].
  split; [vm_compute; reflexivity|].
  split; [vm_compute; discriminate | vm_compute; reflexivity].
Qed.

(** ** C5: determinism of [ExecuteBlock] *)

(** C5.  The block [ExecuteBlock] answers with is not a function of the
    chain store and the request alone: it is the block the builder makes
    for the fee recipient held in the container's cell (server.go:196),
    which [ExecuteBlock] itself rewrites after a block (server.go:232-234).
    For two states that hold the same chain store and answer the same
    request with OK, the two blocks are the builder's blocks for the same
    store, staged list, parent, timestamp and sequencer hash and for the
    two fee recipients; their hashes agree exactly when the builder's
    blocks for the two recipients have the same hash. *)
Theorem ExecuteBlock_block_follows_fee_recipient `{C : Collaborators}
    (cfg : ChainConfig) (s1 s2 s1' s2' : SharedServiceContainer chain)
    (req : astriaPb.ExecuteBlockRequest) (res1 res2 : astriaPb.Block) :
  bc s1 = bc s2 ->
  ExecuteBlock cfg s1 req = (Ok res1, s1') ->
  ExecuteBlock cfg s2 req = (Ok res2, s2') ->
  let prevHeadHash := common.BytesToHash (astriaPb.PrevBlockHash req) in
  let height := uint64 (bigInt_Uint64 (types.hNumber (CurrentBlock (bc s1))) + 1) in
  let ts := uint64 (timestamppb.GetSeconds (astriaPb.ReqTimestamp req)) in
  let txs :=
    UnbundleRollupDataTransactions cfg (astriaPb.Transactions req) height
      (common.Bytes prevHeadHash) in
  let args feeRecipient root :=
    mkBuildPayloadArgs prevHeadHash ts (repeat x00 common.HashLength)
      feeRecipient [] false root in
  exists root payload1 payload2 block1 block2,
    sequencerHashRefFor (IsCancun cfg (int64 height) ts)
      (astriaPb.SequencerBlockHash req) = Some root
    /\ BuildPayload (bc s1) txs (args (nextFeeRecipient s1) root) = Some payload1
    /\ BuildPayload (bc s1) txs (args (nextFeeRecipient s2) root) = Some payload2
    /\ ExecutableDataToBlock payload1 root = Some block1
    /\ ExecutableDataToBlock payload2 root = Some block2
    /\ res1 = executedBlockResponse block1
    /\ res2 = executedBlockResponse block2
    /\ (astriaPb.Hash res1 = astriaPb.Hash res2
        <-> types.Hash block1 = types.Hash block2).
Proof.
  intros Hbc Hrun1 Hrun2 prevHeadHash height ts txs args.
  apply ExecuteBlock_Ok_iff in Hrun1
    as (_ & _ & _ & root & payload1 & block1 & bc1 & Href & Hbuild1 & Hblock1
        & _ & -> & _).
  apply ExecuteBlock_Ok_iff in Hrun2
    as (_ & _ & _ & root' & payload2 & block2 & bc2 & Href' & Hbuild2 & Hblock2
        & _ & -> & _).
  rewrite <- Hbc in Href', Hbuild2.
  rewrite Href in Href'. injection Href' as <-.
  exists root, payload1, payload2, block1, block2.
  split; [exact Href|]. split; [exact Hbuild1|]. split; [exact Hbuild2|].
  split; [exact Hblock1|]. split; [exact Hblock2|].
  split; [reflexivity|]. split; reflexivity.
Qed.

(** On the small chain with the soft head at [block1], fee recipient
    [feeA] in the cell and the collector [feeB] listed for height 3: the
    request that [block2] of the chain was built from (on top of [block1],
    timestamp 20, no transactions) is executed twice in a row.  The first
    call answers with [block2] itself, adds nothing to the store and
    leaves [feeB] in the cell; the second call, on the same store, answers
    with a block of another hash. *)
Lemma ExecuteBlock_block_follows_fee_recipient_witness :
  let cfg := Toy.config false {[ 3 := Toy.feeB ]} ∅ in
  let s := Toy.container Toy.chainSoftBehind true in
  let req :=
    astriaPb.mkExecuteBlockRequest (types.Hash Toy.block1) []
      (Some (timestamppb.mkTimestamp 20 0)) None in
  exists res1 s1 res2 s2,
    ExecuteBlock cfg s req = (Ok res1, s1)
    /\ ExecuteBlock cfg s1 req = (Ok res2, s2)
    /\ bc s1 = bc s
    /\ nextFeeRecipient s = Toy.feeA
    /\ nextFeeRecipient s1 = Toy.feeB
    /\ astriaPb.Hash res1 = types.Hash Toy.block2
    /\ astriaPb.Hash res1 ≠ astriaPb.Hash res2.
Proof.
  intros cfg s req.
  assert (Hrun : exists res1 s1 res2 s2,
             ExecuteBlock cfg s req = (Ok res1, s1)
             /\ ExecuteBlock cfg s1 req = (Ok res2, s2)
             /\ bc s = bc s1
             /\ nextFeeRecipient s1 = Toy.feeB
             /\ astriaPb.Hash res1 = types.Hash Toy.block2)
    by (eexists _, _, _, _;
        split; [vm_compute; reflexivity
               |split; [vm_compute; reflexivity
                       |split; [vm_compute; reflexivity
                               |split; vm_compute; reflexivity]]]).
  destruct Hrun as (res1 & s1 & res2 & s2 & Hrun1 & Hrun2 & Hbc & Hfee & Hhash).
  destruct (ExecuteBlock_block_follows_fee_recipient (C := Toy.toy)
              cfg s s1 s1 s2 req res1 res2 Hbc Hrun1 Hrun2)
    as (root & payload1 & payload2 & block1 & block2 & Href & Hbuild1 & Hbuild2
        & Hblock1 & Hblock2 & _ & _ & Hiff).
  exists res1, s1, res2, s2.
  split; [exact Hrun1|]. split; [exact Hrun2|]. split; [by rewrite Hbc|].
  split; [reflexivity|]. split; [exact Hfee|]. split; [exact Hhash|].
  intros Heq. apply Hiff in Heq.
  injection Href as <-. rewrite Hfee in Hbuild2.
  vm_compute in Hbuild1. injection Hbuild1 as <-.
  vm_compute in Hbuild2. injection Hbuild2 as <-.
  injection Hblock1 as <-. injection Hblock2 as <-.
  vm_compute in Heq. discriminate.
Defined.

(** ** C6: when [ExecuteBlock] answers [InvalidArgument] *)

(** The claim as it stands fails, each way.  On the small chain: with the
    handshake complete and the Cancun predicate false, a request that
    carries a 32-byte sequencer block hash is malformed in the claim's
    sense and is executed; with the handshake incomplete and the predicate
    true, a request without a sequencer block hash is malformed in the
    claim's sense and is answered [PermissionDenied]; and with the
    handshake complete, a request that is not malformed in the claim's
    sense but whose timestamp is the parent's is answered [InvalidArgument],
    because no payload is built. *)
Lemma ExecuteBlock_static_validation_counterexample :
  (let cfg := Toy.config false ∅ ∅ in
   let s := Toy.container Toy.chainAt2 true in
   let req := Toy.executeOn Toy.block2 30 (Some (repeat x07 32)) in
   malformedBySpec cfg s req = true
   /\ is_Ok (fst (ExecuteBlock cfg s req)) = true)
  /\ (let cfg := Toy.config true ∅ ∅ in
      let s := Toy.container Toy.chainAt2 false in
      let req := Toy.executeOn Toy.block2 30 None in
      malformedBySpec cfg s req = true
      /\ fst (ExecuteBlock cfg s req) = Err codes.PermissionDenied)
  /\ (let cfg := Toy.config false ∅ ∅ in
      let s := Toy.container Toy.chainAt2 true in
      let req := Toy.executeOn Toy.block2 20 None in
      malformedBySpec cfg s req = false
      /\ fst (ExecuteBlock cfg s req) = Err codes.InvalidArgument).
Proof. repeat split; vm_compute; reflexivity. Qed.

(** C6, amended.  [ExecuteBlock] answers [InvalidArgument] exactly in three
    cases.  Before the handshake and parent checks, whatever the state:
    static validation rejects the request, because [prev_block_hash] is
    not 32 bytes, or [timestamp.seconds] is not positive, or a sequencer
    block hash is present that is not 32 bytes.  After the handshake and
    parent checks have passed: the Cancun predicate holds for the height
    after the head and the timestamp, and the request has no sequencer
    block hash; or no payload can be built from the request.  A 32-byte
    sequencer block hash that is present without Cancun is no reason for
    [InvalidArgument]: the call ends as it does without the hash. *)
Theorem ExecuteBlock_InvalidArgument_iff `{C : Collaborators}
    (cfg : ChainConfig) (s : SharedServiceContainer chain)
    (req : astriaPb.ExecuteBlockRequest) :
  let prevHeadHash := common.BytesToHash (astriaPb.PrevBlockHash req) in
  let height := uint64 (bigInt_Uint64 (types.hNumber (CurrentBlock (bc s))) + 1) in
  let ts := uint64 (timestamppb.GetSeconds (astriaPb.ReqTimestamp req)) in
  let cancun := IsCancun cfg (int64 height) ts in
  let rejectedStatically :=
    length (astriaPb.PrevBlockHash req) ≠ common.HashLength
    \/ timestamppb.GetSeconds (astriaPb.ReqTimestamp req) <= 0
    \/ (exists h, astriaPb.SequencerBlockHash req = Some h
                  /\ length h ≠ common.HashLength) in
  (rejectedStatically ->
   ExecuteBlock cfg s req = (Err codes.InvalidArgument, s))
  /\ (fst (ExecuteBlock cfg s req) = Err codes.InvalidArgument <->
        rejectedStatically
        \/ (syncMethodsCalled s = true
            /\ prevHeadHash = HeaderHash (CurrentSafeBlock (bc s))
            /\ ((cancun = true /\ astriaPb.SequencerBlockHash req = None)
                \/ exists root,
                     sequencerHashRefFor cancun (astriaPb.SequencerBlockHash req)
                     = Some root
                     /\ BuildPayload (bc s)
                          (UnbundleRollupDataTransactions cfg
                             (astriaPb.Transactions req) height
                             (common.Bytes prevHeadHash))
                          (mkBuildPayloadArgs prevHeadHash ts
                             (repeat x00 common.HashLength)
                             (nextFeeRecipient s) [] false root)
                        = None)))
  /\ (forall h,
        cancun = false ->
        astriaPb.SequencerBlockHash req = Some h ->
        length h = common.HashLength ->
        ExecuteBlock cfg s req
        = ExecuteBlock cfg s
            (astriaPb.mkExecuteBlockRequest (astriaPb.PrevBlockHash req)
               (astriaPb.Transactions req) (astriaPb.ReqTimestamp req) None)).
Proof.
  intros prevHeadHash height ts cancun rejectedStatically.
  assert (Hstatic_iff :
            validateStaticExecuteBlockRequest req = false <-> rejectedStatically).
  { subst rejectedStatically. unfold validateStaticExecuteBlockRequest.
    rewrite !andb_false_iff, bool_decide_eq_false, Z.ltb_ge.
    destruct (astriaPb.SequencerBlockHash req) as [h|].
    - rewrite bool_decide_eq_false. split.
      + intros [[?|?]|?]; [by left | right; by left | right; right; by exists h].
      + intros [?|[?|(h' & [= <-] & ?)]]; [left; by left | left; by right | by right].
    - split.
      + intros [[?|?]|?]; [by left | right; by left | discriminate].
      + intros [?|[?|(h' & ? & _)]]; [left; by left | left; by right | discriminate]. }
  assert (Hreject : validateStaticExecuteBlockRequest req = false ->
                    ExecuteBlock cfg s req = (Err codes.InvalidArgument, s)).
  { intros Hstatic. unfold ExecuteBlock. rewrite Hstatic. reflexivity. }
  split; [intros Hrej; by apply Hreject, Hstatic_iff|]. split.
  - destruct (validateStaticExecuteBlockRequest req) eqn:Hstatic.
    2: { rewrite (Hreject eq_refl). cbn [fst].
         split; [intros _; left; by apply Hstatic_iff | reflexivity]. }
    assert (Hnot : ~ rejectedStatically)
      by (intros Hrej; apply Hstatic_iff in Hrej; discriminate).
    subst prevHeadHash height ts cancun.
    unfold ExecuteBlock. cbv zeta. rewrite Hstatic. cbn [negb].
    destruct (syncMethodsCalled s); cbn [negb];
      [|cbn [fst]; split;
          [discriminate | intros [?|(? & _)]; [contradiction | discriminate]]].
    case_bool_decide as Hprev;
      [cbn [fst]; split;
         [discriminate | intros [?|(_ & ? & _)]; contradiction]|].
    simpl bc. simpl astriaOrdered. simpl nextFeeRecipient.
    destruct (sequencerHashRefFor _ (astriaPb.SequencerBlockHash req))
      as [root|] eqn:Href.
    + destruct (BuildPayload _ _ _) as [payload|] eqn:Hbuild.
      * destruct (ExecutableDataToBlock payload root) as [block|];
          [destruct (InsertBlockWithoutSetHead (bc s) block)|]; cbn [fst];
          (split; [discriminate|]);
          (intros [?|(_ & _ & [[Hc Hn]|(root' & Hr & Hb)])]; [contradiction| |]);
          try (unfold sequencerHashRefFor in Href; rewrite Hc, Hn in Href; discriminate);
          injection Hr as <-; congruence.
      * cbn [fst]. split; [|reflexivity]. intros _. right.
        repeat split; try done.
        right. by exists root.
    + cbn [fst]. split; [|reflexivity]. intros _. right.
      repeat split; try done.
      left. unfold sequencerHashRefFor in Href.
      destruct (IsCancun cfg _ _); [|discriminate].
      by destruct (astriaPb.SequencerBlockHash req).
  - intros h Hcancun Hhash Hlen. subst prevHeadHash height ts cancun.
    unfold ExecuteBlock, validateStaticExecuteBlockRequest. cbv zeta.
    cbn [astriaPb.PrevBlockHash astriaPb.Transactions astriaPb.ReqTimestamp
         astriaPb.SequencerBlockHash].
    rewrite Hhash, Hcancun, (bool_decide_eq_true_2 _ Hlen).
    reflexivity.
Qed.

(** Under Cancun and before the handshake, a request whose sequencer block
    hash is a single byte is rejected by static validation; the container
    is as before. *)
Lemma ExecuteBlock_InvalidArgument_iff_witness :
  let cfg := Toy.config true ∅ ∅ in
  let s := Toy.container Toy.chainAt2 false in
  let req := Toy.executeOn Toy.block2 30 (Some [x07]) in
  ExecuteBlock cfg s req = (Err codes.InvalidArgument, s).
Proof.
  intros cfg s req.
  apply (proj1 (ExecuteBlock_InvalidArgument_iff (C := Toy.toy) cfg s req)).
  right. right. exists [x07]. split; [reflexivity | discriminate].
Defined.

(** ** C7: the parent check *)

(** The claim as it stands fails.  On the small chain, after the handshake,
    a request names [block1] as parent while the soft head is [block2], and
    carries timestamp 0: the answer is [InvalidArgument], from static
    validation, not [FailedPrecondition]. *)
Lemma ExecuteBlock_stale_parent_counterexample :
  let cfg := Toy.config false ∅ ∅ in
  let s := Toy.container Toy.chainAt2 true in
  let req := Toy.executeOn Toy.block1 0 None in
  syncMethodsCalled s = true
  /\ astriaPb.PrevBlockHash req ≠ HeaderHash (CurrentSafeBlock (bc s))
  /\ fst (ExecuteBlock cfg s req) = Err codes.InvalidArgument
  /\ fst (ExecuteBlock cfg s req) ≠ Err codes.FailedPrecondition.
Proof.
  intros cfg s req. split; [reflexivity|].
  split; [vm_compute; discriminate|].
  split; [reflexivity | vm_compute; discriminate].
Qed.

(** C7, amended.  After the handshake, an [ExecuteBlock] call whose
    [prev_block_hash] is not the hash of the current safe pointer fails and
    leaves the whole service state as it was: no block is built or
    inserted, and the pool is not touched.  The status is
    [FailedPrecondition] for every request that passes static validation;
    a request that static validation rejects is answered [InvalidArgument]
    before the parent is looked at. *)
Theorem ExecuteBlock_stale_parent `{C : Collaborators}
    (cfg : ChainConfig) (s : SharedServiceContainer chain)
    (req : astriaPb.ExecuteBlockRequest) :
  syncMethodsCalled s = true ->
  astriaPb.PrevBlockHash req ≠ HeaderHash (CurrentSafeBlock (bc s)) ->
  snd (ExecuteBlock cfg s req) = s
  /\ (validateStaticExecuteBlockRequest req = true ->
      fst (ExecuteBlock cfg s req) = Err codes.FailedPrecondition)
  /\ (validateStaticExecuteBlockRequest req = false ->
      fst (ExecuteBlock cfg s req) = Err codes.InvalidArgument).
Proof.
  intros Hsync Hprev. unfold ExecuteBlock.
  destruct (validateStaticExecuteBlockRequest req) eqn:Hstatic; simpl negb; cbv iota.
  - rewrite Hsync. simpl negb. cbv iota.
    unfold validateStaticExecuteBlockRequest in Hstatic.
    apply andb_prop in Hstatic as [Hstatic _].
    apply andb_prop in Hstatic as [Hlen _]. apply bool_decide_eq_true in Hlen.
    rewrite (BytesToHash_id _ Hlen).
    rewrite bool_decide_eq_true_2 by exact Hprev.
    split; [reflexivity | split; [intros _; reflexivity | discriminate]].
  - split; [reflexivity | split; [discriminate | intros _; reflexivity]].
Qed.

(** On the small chain, after the handshake, a well-formed request on top
    of [block1] is refused with [FailedPrecondition]: the soft head is
    [block2]. *)
Lemma ExecuteBlock_stale_parent_witness :
  let cfg := Toy.config false ∅ ∅ in
  let s := Toy.container Toy.chainAt2 true in
  let req := Toy.executeOn Toy.block1 30 None in
  syncMethodsCalled s = true
  /\ astriaPb.PrevBlockHash req ≠ HeaderHash (CurrentSafeBlock (bc s))
  /\ validateStaticExecuteBlockRequest req = true
  /\ ExecuteBlock cfg s req = (Err codes.FailedPrecondition, s).
Proof.
  intros cfg s req.
  assert (Hsync : syncMethodsCalled s = true) by reflexivity.
  assert (Hprev : astriaPb.PrevBlockHash req ≠ HeaderHash (CurrentSafeBlock (bc s)))
    by (vm_compute; discriminate).
  assert (Hstatic : validateStaticExecuteBlockRequest req = true) by reflexivity.
  split; [exact Hsync|]. split; [exact Hprev|]. split; [exact Hstatic|].
  destruct (ExecuteBlock_stale_parent (C := Toy.toy) cfg s req Hsync Hprev)
    as (Hstate & Hcode & _).
  specialize (Hcode Hstatic).
  destruct (ExecuteBlock cfg s req) as [r s']. simpl in Hstate, Hcode.
  by rewrite Hstate, Hcode.
Defined.

(** ** C8: the handshake gate *)

(** The claim as it stands fails.  On the small chain, before the
    handshake, an [ExecuteBlock] request with timestamp 0 and an
    [UpdateCommitmentState] request with Celestia height 0 are answered
    [InvalidArgument], from static validation, not [PermissionDenied]. *)
Lemma handshake_gate_counterexample :
  let cfg := Toy.config false ∅ ∅ in
  let s := Toy.container Toy.chainAt2 false in
  syncMethodsCalled s = false
  /\ fst (ExecuteBlock cfg s (Toy.executeOn Toy.block2 0 None))
     = Err codes.InvalidArgument
  /\ fst (UpdateCommitmentState s
            (Toy.commit (Toy.wire Toy.block2) (Toy.wire Toy.block2) 0))
     = Err codes.InvalidArgument.
Proof. repeat split. Qed.

(** C8, amended.  While either handshake flag is false, [ExecuteBlock] and
    [UpdateCommitmentState] fail and leave the service state as it was; the
    status is [PermissionDenied] for every request that passes static
    validation, and [InvalidArgument] for one that does not.  Hence in
    every run of calls from a state with both flags false, an [ExecuteBlock]
    or [UpdateCommitmentState] call that is accepted comes after a
    [GetGenesisInfo] call and after a [GetCommitmentState] call that
    returned OK. *)
Theorem handshake_gate `{C : Collaborators} (cfg : ChainConfig) :
  (forall s req, syncMethodsCalled s = false ->
     snd (ExecuteBlock cfg s req) = s
     /\ (validateStaticExecuteBlockRequest req = true ->
         fst (ExecuteBlock cfg s req) = Err codes.PermissionDenied)
     /\ (validateStaticExecuteBlockRequest req = false ->
         fst (ExecuteBlock cfg s req) = Err codes.InvalidArgument))
  /\ (forall s req, syncMethodsCalled s = false ->
        snd (UpdateCommitmentState s req) = s
        /\ (validateStaticCommitmentState (astriaPb.ReqCommitmentState req) = true ->
            fst (UpdateCommitmentState s req) = Err codes.PermissionDenied)
        /\ (validateStaticCommitmentState (astriaPb.ReqCommitmentState req) = false ->
            fst (UpdateCommitmentState s req) = Err codes.InvalidArgument))
  /\ (forall s0 pre s c,
        genesisInfoCalled s0 = false ->
        getCommitmentStateCalled s0 = false ->
        run cfg s0 pre = Some s ->
        (exists req, c = CallExecuteBlock req)
        \/ (exists req, c = CallUpdateCommitmentState req) ->
        fst (step cfg s c) = StatusOK ->
        In CallGetGenesisInfo pre
        /\ exists pre1 pre2 s1,
             pre = pre1 ++ CallGetCommitmentState :: pre2
             /\ run cfg s0 pre1 = Some s1
             /\ fst (step cfg s1 CallGetCommitmentState) = StatusOK).
Proof.
  assert (Hexec : forall s req, syncMethodsCalled s = false ->
     snd (ExecuteBlock cfg s req) = s
     /\ (validateStaticExecuteBlockRequest req = true ->
         fst (ExecuteBlock cfg s req) = Err codes.PermissionDenied)
     /\ (validateStaticExecuteBlockRequest req = false ->
         fst (ExecuteBlock cfg s req) = Err codes.InvalidArgument)).
  { intros s req Hsync. unfold ExecuteBlock. rewrite Hsync.
    destruct (validateStaticExecuteBlockRequest req); cbn;
      (split; [reflexivity | split; [done | done]]). }
  assert (Hupd : forall s req, syncMethodsCalled s = false ->
        snd (UpdateCommitmentState s req) = s
        /\ (validateStaticCommitmentState (astriaPb.ReqCommitmentState req) = true ->
            fst (UpdateCommitmentState s req) = Err codes.PermissionDenied)
        /\ (validateStaticCommitmentState (astriaPb.ReqCommitmentState req) = false ->
            fst (UpdateCommitmentState s req) = Err codes.InvalidArgument)).
  { intros s req Hsync. unfold UpdateCommitmentState. cbv zeta. rewrite Hsync.
    destruct (validateStaticCommitmentState _); cbn;
      (split; [reflexivity | split; [done | done]]). }
  split; [exact Hexec|]. split; [exact Hupd|].
  intros s0 pre s c Hg0 Hc0 Hrun Hcall Hok.
  assert (Hsync : syncMethodsCalled s = true).
  { destruct (syncMethodsCalled s) eqn:Hsync; [reflexivity|]. exfalso.
    destruct Hcall as [[req ->]|[req ->]]; cbn [step] in Hok.
    - destruct (Hexec s req Hsync) as (_ & Ht & Hf).
      destruct (ExecuteBlock cfg s req) as [r s']. cbn [fst] in *.
      destruct (validateStaticExecuteBlockRequest req);
        [rewrite Ht in Hok by reflexivity | rewrite Hf in Hok by reflexivity];
        discriminate.
    - destruct (Hupd s req Hsync) as (_ & Ht & Hf).
      destruct (UpdateCommitmentState s req) as [r s']. cbn [fst] in *.
      destruct (validateStaticCommitmentState _);
        [rewrite Ht in Hok by reflexivity | rewrite Hf in Hok by reflexivity];
        discriminate. }
  unfold syncMethodsCalled in Hsync. apply andb_prop in Hsync as [Hg Hc].
  split.
  - destruct (run_genesisInfoCalled cfg pre s0 s Hrun Hg) as [Habs|Hin];
      [congruence | exact Hin].
  - destruct (run_getCommitmentStateCalled cfg pre s0 s Hrun Hc) as [Habs|Hex];
      [congruence | exact Hex].
Qed.

(** On the small chain, from a container that has seen no call, the run
    [GetGenesisInfo; GetCommitmentState] is followed by an accepted
    [ExecuteBlock]; both getters are in the run before it. *)
Lemma handshake_gate_witness :
  let cfg := Toy.config false ∅ ∅ in
  let s0 := Toy.container Toy.chainAt2 false in
  let pre := [CallGetGenesisInfo; CallGetCommitmentState] in
  let c := CallExecuteBlock (Toy.executeOn Toy.block2 30 None) in
  exists s,
    run cfg s0 pre = Some s
    /\ fst (step cfg s c) = StatusOK
    /\ In CallGetGenesisInfo pre
    /\ exists pre1 pre2 s1,
         pre = pre1 ++ CallGetCommitmentState :: pre2
         /\ run cfg s0 pre1 = Some s1
         /\ fst (step cfg s1 CallGetCommitmentState) = StatusOK.
Proof.
  intros cfg s0 pre c.
  assert (Hrun : exists s, run cfg s0 pre = Some s /\ fst (step cfg s c) = StatusOK)
    by (eexists; split; [vm_compute; reflexivity | vm_compute; reflexivity]).
  destruct Hrun as (s & Hrun & Hok).
  exists s. split; [exact Hrun|]. split; [exact Hok|].
  exact (proj2 (proj2 (handshake_gate (C := Toy.toy) cfg)) s0 pre s c
           eq_refl eq_refl Hrun (or_introl (ex_intro _ _ eq_refl)) Hok).
Defined.

(** ** C9: the Celestia height never goes down *)

(** The claim as it stands fails.  On the small chain, before the
    handshake, a well-formed request whose Celestia height 4 is below the
    stored height 5 is answered [PermissionDenied], not [InvalidArgument]. *)
Lemma celestia_height_counterexample :
  let s := Toy.container Toy.chainAt2 false in
  let req := Toy.commit (Toy.wire Toy.block2) (Toy.wire Toy.block2) 4 in
  astriaPb.BaseCelestiaHeight (astriaPb.ReqCommitmentState req)
  < CurrentBaseCelestiaHeight (bc s)
  /\ fst (UpdateCommitmentState s req) = Err codes.PermissionDenied.
Proof. split; reflexivity. Qed.

(** C9, amended.  An [UpdateCommitmentState] request whose Celestia height
    is below the stored one fails and leaves the service state as it was;
    once the handshake is complete the status is [InvalidArgument], and
    before that it is [InvalidArgument] or [PermissionDenied].  The stored
    height after an accepted update is at least the height before, and the
    same holds from the start to the end of every run of calls. *)
Theorem celestia_height_monotone
    `{C : Collaborators} {laws : ChainStoreLaws} (cfg : ChainConfig) :
  (forall s req,
     astriaPb.BaseCelestiaHeight (astriaPb.ReqCommitmentState req)
     < CurrentBaseCelestiaHeight (bc s) ->
     snd (UpdateCommitmentState s req) = s
     /\ (syncMethodsCalled s = true ->
         fst (UpdateCommitmentState s req) = Err codes.InvalidArgument)
     /\ (fst (UpdateCommitmentState s req) = Err codes.InvalidArgument
         \/ fst (UpdateCommitmentState s req) = Err codes.PermissionDenied))
  /\ (forall s req cs s1,
        UpdateCommitmentState s req = (Ok cs, s1) ->
        CurrentBaseCelestiaHeight (bc s) <= CurrentBaseCelestiaHeight (bc s1))
  /\ (forall s0 calls s,
        run cfg s0 calls = Some s ->
        CurrentBaseCelestiaHeight (bc s0) <= CurrentBaseCelestiaHeight (bc s)).
Proof.
  split; [|split].
  - intros s req Hlow. unfold UpdateCommitmentState. cbv zeta.
    destruct (validateStaticCommitmentState _); [|cbn; auto].
    destruct (syncMethodsCalled s); [|cbn; split; [reflexivity|]; split; [done|auto]].
    simpl negb. cbv iota.
    destruct (Z.gtb_spec (CurrentBaseCelestiaHeight (bc s))
                (astriaPb.BaseCelestiaHeight (astriaPb.ReqCommitmentState req)));
      [cbn; auto | lia].
  - intros s req cs s1 Hupd.
    pose proof (UpdateCommitmentState_height s req) as Hh.
    rewrite Hupd in Hh. exact Hh.
  - intros s0 calls s. apply run_height.
Qed.

(** On the small chain, after the handshake, a request with Celestia
    height 4 against the stored 5 is refused with [InvalidArgument]; and
    promoting [block2] with height 7 from the state with soft and firm at
    [block1] raises the stored height from 5 to 7. *)
Lemma celestia_height_monotone_witness :
  let s := Toy.container Toy.chainAt2 true in
  let low := Toy.commit (Toy.wire Toy.block2) (Toy.wire Toy.block2) 4 in
  let t := Toy.container Toy.chainSoftBehind true in
  let up := Toy.commit (Toy.wire Toy.block2) (Toy.wire Toy.block2) 7 in
  (astriaPb.BaseCelestiaHeight (astriaPb.ReqCommitmentState low)
   < CurrentBaseCelestiaHeight (bc s)
   /\ UpdateCommitmentState s low = (Err codes.InvalidArgument, s))
  /\ (is_Ok (fst (UpdateCommitmentState t up)) = true
      /\ CurrentBaseCelestiaHeight (bc t)
         <= CurrentBaseCelestiaHeight (bc (snd (UpdateCommitmentState t up)))
      /\ CurrentBaseCelestiaHeight (bc (snd (UpdateCommitmentState t up))) = 7).
Proof.
  intros s low t up.
  pose proof (celestia_height_monotone (C := Toy.toy) (laws := toy_store_laws)
                (Toy.config false ∅ ∅)) as (Hlow & Hmono & _).
  split.
  - assert (Hlt : astriaPb.BaseCelestiaHeight (astriaPb.ReqCommitmentState low)
                  < CurrentBaseCelestiaHeight (bc s)) by reflexivity.
    split; [exact Hlt|].
    destruct (Hlow s low Hlt) as (Hstate & Hcode & _).
    specialize (Hcode eq_refl).
    destruct (UpdateCommitmentState s low) as [r s']. cbn [fst snd] in *.
    by rewrite Hstate, Hcode.
  - split; [reflexivity|]. split; [|reflexivity].
    assert (Hupd : exists cs t', UpdateCommitmentState t up = (Ok cs, t'))
      by (eexists _, _; vm_compute; reflexivity).
    destruct Hupd as (cs & t' & Hupd).
    rewrite Hupd. cbn [snd].
    exact (Hmono t up cs t' Hupd).
Defined.

(** ** C10: block numbers on the wire *)

Section WireNumbers.
Context `{C : Collaborators}.

Lemma headers_resolve (s : SharedServiceContainer chain) ids hs :
  Forall2 (fun id h => headerOfIdentifier s id = Some (Some h)) ids hs ->
  exists blks,
    Forall2 (fun id blk => getBlockFromIdentifier s id = Ok blk) ids blks
    /\ Forall2 (fun h blk => astriaPb.Number blk = types.hNumber h mod 2 ^ 32)
         hs blks.
Proof.
  induction 1 as [|id h ids hs Hh _ (blks & Hids & Hnums)].
  - exists []. split; constructor.
  - destruct (ethHeaderToExecutionBlock_Some h) as (blk & H1 & H2 & _).
    exists (blk :: blks). split; constructor; try assumption.
    by rewrite getBlockFromIdentifier_cases, Hh, H1.
Qed.

Lemma resolved_from_headers (s : SharedServiceContainer chain) ids blks :
  Forall2 (fun id blk => getBlockFromIdentifier s id = Ok blk) ids blks ->
  exists hs,
    Forall2 (fun id h => headerOfIdentifier s id = Some (Some h)) ids hs
    /\ Forall2 (fun h blk => astriaPb.Number blk = types.hNumber h mod 2 ^ 32)
         hs blks.
Proof.
  induction 1 as [|id blk ids blks Hid _ (hs & Hhs & Hnums)].
  - exists []. split; constructor.
  - rewrite getBlockFromIdentifier_cases in Hid.
    destruct (headerOfIdentifier s id) as [[h|]|] eqn:Hh; [|discriminate..].
    cbn [ethHeaderToExecutionBlock] in Hid. injection Hid as <-.
    exists (h :: hs). split; constructor; try assumption.
    apply uint32_bigInt_Int64.
Qed.

End WireNumbers.

(** C10.  Every wire block the service returns carries the chain height
    reduced modulo 2^32, and a height at or above 2^32 raises no error.
    The conversion of a header succeeds for every header and yields its
    number modulo 2^32.  [GetBlock] answers OK for every identifier under
    which the store has a header, with that header's number modulo 2^32,
    and answers OK in no other case; [BatchGetBlocks] answers OK whenever
    the store has a header under each identifier of a non-empty list, with
    the numbers of these headers modulo 2^32 in request order, and in no
    other case; [GetCommitmentState] answers OK whenever both pointers are
    set, with the numbers of their headers modulo 2^32, and in no other
    case.  [ExecuteBlock] answers OK whenever the gates are passed, the
    builder and the conversion yield a block and the insert succeeds,
    whatever the height of the block, and in no other case; the block
    answered carries the number of the block inserted modulo 2^32. *)
Theorem wire_block_number_mod_2_32 `{C : Collaborators} (cfg : ChainConfig)
    (s : SharedServiceContainer chain) :
  (forall h : types.Header,
     exists blk, ethHeaderToExecutionBlock (Some h) = Some blk
       /\ astriaPb.Number blk = types.hNumber h mod 2 ^ 32)
  /\ (forall id h,
        headerOfIdentifier s id = Some (Some h) ->
        exists blk,
          GetBlock s (astriaPb.mkGetBlockRequest (Some id)) = (Ok blk, s)
          /\ ethHeaderToExecutionBlock (Some h) = Some blk
          /\ astriaPb.Number blk = types.hNumber h mod 2 ^ 32)
  /\ (forall req blk s', GetBlock s req = (Ok blk, s') ->
        exists id h,
          astriaPb.Identifier req = Some id
          /\ headerOfIdentifier s id = Some (Some h)
          /\ astriaPb.Number blk = types.hNumber h mod 2 ^ 32)
  /\ (forall req hs,
        astriaPb.Identifiers req ≠ [] ->
        Forall2 (fun id h => headerOfIdentifier s id = Some (Some h))
          (astriaPb.Identifiers req) hs ->
        exists blks,
          BatchGetBlocks s req = (Ok blks, s)
          /\ Forall2 (fun h blk =>
                        astriaPb.Number blk = types.hNumber h mod 2 ^ 32)
               hs blks)
  /\ (forall req blks s', BatchGetBlocks s req = (Ok blks, s') ->
        exists hs,
          Forall2 (fun id h => headerOfIdentifier s id = Some (Some h))
            (astriaPb.Identifiers req) hs
          /\ Forall2 (fun h blk =>
                        astriaPb.Number blk = types.hNumber h mod 2 ^ 32)
               hs blks)
  /\ (forall hs hf,
        CurrentSafeBlock (bc s) = Some hs ->
        CurrentFinalBlock (bc s) = Some hf ->
        exists cs,
          GetCommitmentState s = (Ok cs, setGetCommitmentStateCalled s true)
          /\ astriaPb.Number (astriaPb.Soft cs) = types.hNumber hs mod 2 ^ 32
          /\ astriaPb.Number (astriaPb.Firm cs) = types.hNumber hf mod 2 ^ 32)
  /\ (forall cs s', GetCommitmentState s = (Ok cs, s') ->
        exists hs hf,
          CurrentSafeBlock (bc s) = Some hs
          /\ CurrentFinalBlock (bc s) = Some hf
          /\ astriaPb.Number (astriaPb.Soft cs) = types.hNumber hs mod 2 ^ 32
          /\ astriaPb.Number (astriaPb.Firm cs) = types.hNumber hf mod 2 ^ 32)
  /\ (forall req root payload block bc',
        let prevHeadHash := common.BytesToHash (astriaPb.PrevBlockHash req) in
        let height :=
          uint64 (bigInt_Uint64 (types.hNumber (CurrentBlock (bc s))) + 1) in
        let ts := uint64 (timestamppb.GetSeconds (astriaPb.ReqTimestamp req)) in
        validateStaticExecuteBlockRequest req = true ->
        syncMethodsCalled s = true ->
        prevHeadHash = HeaderHash (CurrentSafeBlock (bc s)) ->
        sequencerHashRefFor (IsCancun cfg (int64 height) ts)
          (astriaPb.SequencerBlockHash req) = Some root ->
        BuildPayload (bc s)
          (UnbundleRollupDataTransactions cfg (astriaPb.Transactions req)
             height (common.Bytes prevHeadHash))
          (mkBuildPayloadArgs prevHeadHash ts (repeat x00 common.HashLength)
             (nextFeeRecipient s) [] false root) = Some payload ->
        ExecutableDataToBlock payload root = Some block ->
        InsertBlockWithoutSetHead (bc s) block = Some bc' ->
        exists res s',
          ExecuteBlock cfg s req = (Ok res, s')
          /\ bc s' = bc'
          /\ (0 <= types.hNumber (types.header block) ->
              astriaPb.Number res
              = types.hNumber (types.header block) mod 2 ^ 32))
  /\ (forall req res s', ExecuteBlock cfg s req = (Ok res, s') ->
        exists block,
          InsertBlockWithoutSetHead (bc s) block = Some (bc s')
          /\ res = executedBlockResponse block
          /\ (0 <= types.hNumber (types.header block) ->
              astriaPb.Number res
              = types.hNumber (types.header block) mod 2 ^ 32)).
Proof.
  repeat apply conj.
  - intros h. destruct (ethHeaderToExecutionBlock_Some h) as (blk & H1 & H2 & _).
    by exists blk.
  - intros id h Hh. unfold GetBlock. cbn [astriaPb.Identifier].
    rewrite getBlockFromIdentifier_cases, Hh.
    destruct (ethHeaderToExecutionBlock_Some h) as (blk & H1 & H2 & _).
    rewrite H1. by exists blk.
  - intros req blk s'. unfold GetBlock.
    destruct (astriaPb.Identifier req) as [id|]; [|discriminate].
    rewrite getBlockFromIdentifier_cases.
    destruct (headerOfIdentifier s id) as [[h|]|] eqn:Hh; [|discriminate..].
    cbn [ethHeaderToExecutionBlock]. intros [= <- _].
    exists id, h. split; [reflexivity|]. split; [exact Hh|].
    apply uint32_bigInt_Int64.
  - intros req hs Hne Hall.
    destruct (headers_resolve s _ _ Hall) as (blks & Hids & Hnums).
    exists blks. split; [|exact Hnums].
    unfold BatchGetBlocks.
    destruct (astriaPb.Identifiers req) as [|id ids] eqn:Hreq; [done|].
    f_equal. change (batchLoop s (id :: ids) [] = Ok blks).
    apply batchLoop_Ok_iff. by exists blks.
  - intros req blks s'. unfold BatchGetBlocks.
    destruct (astriaPb.Identifiers req) as [|id ids] eqn:Hids; [discriminate|].
    intros [= Hloop _].
    change (batchLoop s (id :: ids) [] = Ok blks) in Hloop.
    apply batchLoop_Ok_iff in Hloop as (new & -> & Hall). cbn [app].
    exact (resolved_from_headers s _ _ Hall).
  - intros hs hf Hs Hf. unfold GetCommitmentState. rewrite Hs, Hf.
    cbn [ethHeaderToExecutionBlock]. eexists. split; [reflexivity|].
    split; apply uint32_bigInt_Int64.
  - intros cs s'. unfold GetCommitmentState.
    destruct (CurrentSafeBlock (bc s)) as [hs|]; [|discriminate].
    destruct (CurrentFinalBlock (bc s)) as [hf|]; [|discriminate].
    intros [= <- _]. exists hs, hf.
    repeat split; apply uint32_bigInt_Int64.
  - intros req root payload block bc' prevHeadHash height ts
      Hstatic Hsync Hprev Href Hbuild Hblock Hins.
    eexists _, _. split.
    + apply ExecuteBlock_Ok_iff. split; [exact Hstatic|]. split; [exact Hsync|].
      split; [exact Hprev|]. exists root, payload, block, bc'.
      split; [exact Href|]. split; [exact Hbuild|]. split; [exact Hblock|].
      split; [exact Hins|]. split; reflexivity.
    + split; [by rewrite (proj1 (postInsertConfig_frame _ _ _ _))|].
      intros Hn. apply uint32_bigInt_Uint64. exact Hn.
  - intros req res s' Hexec.
    apply ExecuteBlock_Ok_iff in Hexec
      as (_ & _ & _ & root & payload & block & bc' & _ & _ & _ & Hins & -> & ->).
    exists block. rewrite (proj1 (postInsertConfig_frame _ _ _ _)). cbn [bc setBc ClearAstriaOrdered SetAstriaOrdered].
    split; [exact Hins|]. split; [reflexivity|].
    intros Hn. apply uint32_bigInt_Uint64. exact Hn.
Qed.

(** A chain whose head, soft and firm block stands at height 2^32 + 5:
    looking the block up by its hash and reading the commitment state
    answer OK with number 5, and executing on top of it answers OK with
    number 6, the number of the block inserted at height 2^32 + 6. *)
Lemma wire_block_number_mod_2_32_witness :
  let high :=
    types.mkBlock
      (types.mkHeader (2 ^ 32 + 5) Toy.zeroHash 10
         (Toy.digest (2 ^ 32 + 5) 10 Toy.zeroHash [] [] None)) [] in
  let c :=
    Toy.mkStore [high] (types.header high) (Some (types.header high))
      (Some (types.header high)) 5 in
  let s := Toy.container c true in
  let cfg := Toy.config false ∅ ∅ in
  (exists blk,
     GetBlock s (astriaPb.mkGetBlockRequest
                   (Some (astriaPb.BlockIdentifier_BlockHash (types.Hash high))))
     = (Ok blk, s)
     /\ astriaPb.Number blk = 5)
  /\ (exists cs,
        GetCommitmentState s = (Ok cs, setGetCommitmentStateCalled s true)
        /\ astriaPb.Number (astriaPb.Soft cs) = 5)
  /\ (exists res s',
        ExecuteBlock cfg s (Toy.executeOn high 30 None) = (Ok res, s')
        /\ astriaPb.Number res = 6).
Proof.
  intros high c s cfg.
  pose proof (wire_block_number_mod_2_32 (C := Toy.toy) cfg s)
    as (_ & Hget & _ & _ & _ & Hread & _ & Hexec & _).
  split; [|split].
  - destruct (Hget (astriaPb.BlockIdentifier_BlockHash (types.Hash high))
                (types.header high) eq_refl) as (blk & Hblk & _ & Hnum).
    exists blk. split; [exact Hblk|]. rewrite Hnum. reflexivity.
  - destruct (Hread (types.header high) (types.header high) eq_refl eq_refl)
      as (cs & Hcs & Hnum & _).
    exists cs. split; [exact Hcs|]. rewrite Hnum. reflexivity.
  - assert (Hbuilt : exists payload bc',
               BuildPayload (bc s)
                 (UnbundleRollupDataTransactions cfg
                    (astriaPb.Transactions (Toy.executeOn high 30 None))
                    (uint64 (bigInt_Uint64
                               (types.hNumber (CurrentBlock (bc s))) + 1))
                    (common.Bytes (common.BytesToHash (types.Hash high))))
                 (mkBuildPayloadArgs (common.BytesToHash (types.Hash high))
                    (uint64 30) (repeat x00 common.HashLength)
                    (nextFeeRecipient s) [] false None) = Some payload
               /\ InsertBlockWithoutSetHead (bc s) payload = Some bc'
               /\ types.hNumber (types.header payload) = 2 ^ 32 + 6)
      by (eexists _, _;
          split; [vm_compute; reflexivity
                 |split; [vm_compute; reflexivity | vm_compute; reflexivity]]).
    destruct Hbuilt as (payload & bc' & Hbuild & Hins & Hheight).
    destruct (Hexec (Toy.executeOn high 30 None) None payload payload bc'
                eq_refl eq_refl eq_refl eq_refl Hbuild eq_refl Hins)
      as (res & s' & Hrun & _ & Hnum).
    exists res, s'. split; [exact Hrun|].
    rewrite Hnum, Hheight; [reflexivity | rewrite Hheight; discriminate].
Defined.

(** * Further properties of the server and its neighbours *)

(** ** The query procedures *)

(** X1.  [GetBlock] never changes the service state.  It answers
    [InvalidArgument] exactly when the request carries no identifier or an
    identifier with neither alternative set, [NotFound] exactly when the
    store has no header under the number or hash given, and otherwise the
    wire form of the header found; the [Internal] branch of the lookup is
    never taken. *)
Theorem GetBlock_outcome `{C : Collaborators}
    (s : SharedServiceContainer chain) (req : astriaPb.GetBlockRequest) :
  snd (GetBlock s req) = s
  /\ (fst (GetBlock s req) = Err codes.InvalidArgument <->
      astriaPb.Identifier req = None
      \/ astriaPb.Identifier req = Some astriaPb.BlockIdentifier_unset)
  /\ (fst (GetBlock s req) = Err codes.NotFound <->
      exists id, astriaPb.Identifier req = Some id
                 /\ headerOfIdentifier s id = Some None)
  /\ (forall blk, fst (GetBlock s req) = Ok blk <->
      exists id header,
        astriaPb.Identifier req = Some id
        /\ headerOfIdentifier s id = Some (Some header)
        /\ ethHeaderToExecutionBlock (Some header) = Some blk)
  /\ fst (GetBlock s req) ≠ Err codes.Internal.
Proof.
  assert (Hunset : forall id, headerOfIdentifier s id = None <->
                              id = astriaPb.BlockIdentifier_unset).
  { intros [n|h|]; cbn [headerOfIdentifier]; split; (discriminate || reflexivity). }
  unfold GetBlock.
  destruct (astriaPb.Identifier req) as [id|]; cbn [fst snd].
  2: { split; [reflexivity|]. split; [split; auto|].
       split; [split; [discriminate | intros (? & ? & _); discriminate]|].
       split; [|discriminate].
       intros blk. split; [discriminate | intros (? & ? & ? & _); discriminate]. }
  rewrite getBlockFromIdentifier_cases.
  specialize (Hunset id).
  destruct (headerOfIdentifier s id) as [[header|]|] eqn:Hh;
    cbn [ethHeaderToExecutionBlock].
  - split; [reflexivity|].
    split.
    { split; [discriminate|]. intros [?|[= ->]]; [discriminate|].
      by apply proj2 in Hunset; specialize (Hunset eq_refl). }
    split.
    { split; [discriminate|]. intros (id' & [= <-] & Hid). congruence. }
    split; [|discriminate].
    intros blk. split.
    + intros [= <-]. by exists id, header.
    + intros (id' & header' & [= <-] & Hid & [= <-]). congruence.
  - split; [reflexivity|].
    split.
    { split; [discriminate|]. intros [?|[= ->]]; [discriminate|].
      by apply proj2 in Hunset; specialize (Hunset eq_refl). }
    split.
    { split; [|reflexivity]. intros _. by exists id. }
    split; [|discriminate].
    intros blk. split; [discriminate|].
    intros (id' & header' & [= <-] & Hid & _). congruence.
  - split; [reflexivity|].
    split.
    { split; [|reflexivity]. intros _. right. f_equal. by apply Hunset. }
    split.
    { split; [discriminate|]. intros (id' & [= <-] & Hid). congruence. }
    split; [|discriminate].
    intros blk. split; [discriminate|].
    intros (id' & header' & [= <-] & Hid & _). congruence.
Qed.

(** X2.  [BatchGetBlocks] answers OK exactly when the list of identifiers
    is not empty and every identifier resolves; the blocks answered are
    then the blocks of the identifiers, one for one and in request order.
    The service state is unchanged. *)
Theorem BatchGetBlocks_Ok_iff `{C : Collaborators}
    (s : SharedServiceContainer chain) (req : astriaPb.BatchGetBlocksRequest)
    (blks : list astriaPb.Block) :
  snd (BatchGetBlocks s req) = s
  /\ (fst (BatchGetBlocks s req) = Ok blks <->
      astriaPb.Identifiers req ≠ []
      /\ Forall2 (fun id blk => getBlockFromIdentifier s id = Ok blk)
           (astriaPb.Identifiers req) blks).
Proof.
  unfold BatchGetBlocks.
  destruct (astriaPb.Identifiers req) as [|id ids] eqn:Hids; cbn [fst snd].
  - split; [reflexivity|]. split; [discriminate | intros [? _]; contradiction].
  - split; [reflexivity|].
    rewrite (batchLoop_Ok_iff s (id :: ids) [] blks). split.
    + intros (new & -> & Hall). split; [discriminate | exact Hall].
    + intros [_ Hall]. by exists blks.
Qed.

(** X3.  [BatchGetBlocks] stops at the first identifier that does not
    resolve and answers with that identifier's error, whatever follows it
    in the request; no partial list is returned.  An empty list of
    identifiers is answered [InvalidArgument]. *)
Theorem BatchGetBlocks_first_error `{C : Collaborators}
    (s : SharedServiceContainer chain) (req : astriaPb.BatchGetBlocksRequest) :
  (astriaPb.Identifiers req = [] ->
   BatchGetBlocks s req = (Err codes.InvalidArgument, s))
  /\ (forall pre id post c,
        astriaPb.Identifiers req = pre ++ id :: post ->
        Forall (fun i => is_Ok (getBlockFromIdentifier s i) = true) pre ->
        getBlockFromIdentifier s id = Err c ->
        BatchGetBlocks s req = (Err c, s)).
Proof.
  split.
  - intros Hids. unfold BatchGetBlocks. by rewrite Hids.
  - intros pre id post c Hids Hpre Hid. unfold BatchGetBlocks. rewrite Hids.
    pose proof (batchLoop_first_error s pre id post c [] Hpre Hid) as Hloop.
    destruct pre; cbn [app] in *; by rewrite Hloop.
Qed.

(** On the small chain, whose canonical heights are 0, 1 and 2, the batch
    [1; 2; 100; 0] is answered [NotFound]. *)
Lemma BatchGetBlocks_first_error_witness :
  let s := Toy.container Toy.chainAt2 true in
  let ids :=
    [astriaPb.BlockIdentifier_BlockNumber 1;
     astriaPb.BlockIdentifier_BlockNumber 2;
     astriaPb.BlockIdentifier_BlockNumber 100;
     astriaPb.BlockIdentifier_BlockNumber 0] in
  BatchGetBlocks s (astriaPb.mkBatchGetBlocksRequest ids)
  = (Err codes.NotFound, s).
Proof.
  intros s ids.
  apply (proj2 (BatchGetBlocks_first_error (C := Toy.toy) s
                  (astriaPb.mkBatchGetBlocksRequest ids))
           [astriaPb.BlockIdentifier_BlockNumber 1;
            astriaPb.BlockIdentifier_BlockNumber 2]
           (astriaPb.BlockIdentifier_BlockNumber 100)
           [astriaPb.BlockIdentifier_BlockNumber 0] codes.NotFound).
  - reflexivity.
  - repeat constructor.
  - reflexivity.
Defined.

(** X4.  [GetCommitmentState] never touches the chain store.  It answers
    [Internal] exactly when the safe or the final pointer is unset, and
    then leaves the whole service state as it was, the handshake flag
    included; otherwise it answers the wire forms of the two pointers with
    the stored Celestia height, and sets its handshake flag and nothing
    else. *)
Theorem GetCommitmentState_outcome `{C : Collaborators}
    (s : SharedServiceContainer chain) :
  bc (snd (GetCommitmentState s)) = bc s
  /\ (fst (GetCommitmentState s) = Err codes.Internal <->
      CurrentSafeBlock (bc s) = None \/ CurrentFinalBlock (bc s) = None)
  /\ (fst (GetCommitmentState s) = Err codes.Internal ->
      snd (GetCommitmentState s) = s)
  /\ (forall hs hf,
        CurrentSafeBlock (bc s) = Some hs ->
        CurrentFinalBlock (bc s) = Some hf ->
        exists soft firm,
          ethHeaderToExecutionBlock (Some hs) = Some soft
          /\ ethHeaderToExecutionBlock (Some hf) = Some firm
          /\ GetCommitmentState s
             = (Ok (astriaPb.mkCommitmentState soft firm
                      (CurrentBaseCelestiaHeight (bc s))),
                setGetCommitmentStateCalled s true))
  /\ (is_Ok (fst (GetCommitmentState s)) = true
      \/ fst (GetCommitmentState s) = Err codes.Internal).
Proof.
  unfold GetCommitmentState.
  destruct (CurrentSafeBlock (bc s)) as [hs|];
    [destruct (CurrentFinalBlock (bc s)) as [hf|]|];
    cbn [ethHeaderToExecutionBlock fst snd].
  - split; [reflexivity|].
    split; [split; [discriminate | intros [?|?]; discriminate]|].
    split; [discriminate|]. split; [|by left].
    intros hs' hf' [= <-] [= <-]. eexists _, _. repeat split.
  - split; [reflexivity|]. split; [split; auto|]. split; [reflexivity|].
    split; [discriminate | by right].
  - split; [reflexivity|]. split; [split; auto|]. split; [reflexivity|].
    split; [discriminate | by right].
Qed.

(** ** [ExecuteBlock]: what a failed call leaves behind, and the fee
    recipient *)

Section ExecuteBlockOutcomes.
Context `{C : Collaborators}.
Variable cfg : ChainConfig.

Lemma ExecuteBlock_Err_inv s req c s' :
  ExecuteBlock cfg s req = (Err c, s') ->
  (s' = s
   /\ (c = codes.InvalidArgument \/ c = codes.PermissionDenied
       \/ c = codes.FailedPrecondition))
  \/ (s' = SetAstriaOrdered s
             (UnbundleRollupDataTransactions cfg (astriaPb.Transactions req)
                (uint64 (bigInt_Uint64 (types.hNumber (CurrentBlock (bc s))) + 1))
                (common.Bytes (common.BytesToHash (astriaPb.PrevBlockHash req))))
      /\ (c = codes.InvalidArgument \/ c = codes.Internal)).
Proof.
  unfold ExecuteBlock. cbv zeta.
  destruct (validateStaticExecuteBlockRequest req); cbn [negb];
    [|intros [= <- <-]; left; auto].
  destruct (syncMethodsCalled s); cbn [negb]; [|intros [= <- <-]; left; auto].
  case_bool_decide; [intros [= <- <-]; left; auto|].
  destruct (sequencerHashRefFor _ _) as [root|]; [|intros [= <- <-]; left; auto].
  destruct (BuildPayload _ _ _) as [payload|]; [|intros [= <- <-]; right; auto].
  destruct (ExecutableDataToBlock payload root) as [block|];
    [|intros [= <- <-]; right; auto].
  destruct (InsertBlockWithoutSetHead _ block) as [bc'|];
    [discriminate | intros [= <- <-]; right; auto].
Qed.

Lemma ExecuteBlock_not_Panic s req : fst (ExecuteBlock cfg s req) ≠ Panic.
Proof.
  unfold ExecuteBlock. cbv zeta.
  repeat match goal with
         | |- context [if ?b then _ else _] => destruct b
         | |- context [match ?o with Some _ => _ | None => _ end] => destruct o
         end; discriminate.
Qed.

(** The handshake and parent checks of [ExecuteBlock], for a request that
    passed static validation. *)
Lemma ExecuteBlock_parent_check s req :
  validateStaticExecuteBlockRequest req = true ->
  syncMethodsCalled s = true ->
  (fst (ExecuteBlock cfg s req) = Err codes.FailedPrecondition <->
   common.BytesToHash (astriaPb.PrevBlockHash req)
   ≠ HeaderHash (CurrentSafeBlock (bc s)))
  /\ fst (ExecuteBlock cfg s req) ≠ Err codes.PermissionDenied.
Proof.
  intros Hstatic Hsync. unfold ExecuteBlock. cbv zeta.
  rewrite Hstatic, Hsync. cbn [negb].
  case_bool_decide as Hprev; cbn [fst].
  - split; [split; auto | discriminate].
  - split; [split|].
    + intros Hfp. exfalso. revert Hfp.
      destruct (sequencerHashRefFor _ _) as [root|]; [|discriminate].
      destruct (BuildPayload _ _ _) as [payload|]; [|discriminate].
      destruct (ExecutableDataToBlock payload root) as [block|]; [|discriminate].
      destruct (InsertBlockWithoutSetHead _ block) as [bc'|]; discriminate.
    + intros Hne. by destruct Hprev.
    + destruct (sequencerHashRefFor _ _) as [root|]; [|discriminate].
      destruct (BuildPayload _ _ _) as [payload|]; [|discriminate].
      destruct (ExecutableDataToBlock payload root) as [block|]; [|discriminate].
      destruct (InsertBlockWithoutSetHead _ block) as [bc'|]; discriminate.
Qed.

End ExecuteBlockOutcomes.

(** X5.  An [ExecuteBlock] call that fails inserts no block and changes
    neither the handshake flags nor the fee-recipient and auctioneer
    cells.  It is never answered [NotFound].  A call refused with
    [PermissionDenied] or [FailedPrecondition] leaves the whole state as
    it was; a call that fails after the transactions were handed to the
    pool (always so for [Internal]) leaves the unbundled list set in the
    pool, which is cleared only after a successful insert. *)
Theorem ExecuteBlock_error_footprint `{C : Collaborators} (cfg : ChainConfig)
    (s s' : SharedServiceContainer chain) (req : astriaPb.ExecuteBlockRequest)
    (c : codes.Code) :
  ExecuteBlock cfg s req = (Err c, s') ->
  let txs :=
    UnbundleRollupDataTransactions cfg (astriaPb.Transactions req)
      (uint64 (bigInt_Uint64 (types.hNumber (CurrentBlock (bc s))) + 1))
      (common.Bytes (common.BytesToHash (astriaPb.PrevBlockHash req))) in
  c ≠ codes.NotFound
  /\ (s' = s \/ s' = SetAstriaOrdered s txs)
  /\ (c = codes.PermissionDenied \/ c = codes.FailedPrecondition -> s' = s)
  /\ (c = codes.Internal -> s' = SetAstriaOrdered s txs).
Proof.
  intros Hrun txs.
  destruct (ExecuteBlock_Err_inv cfg s req c s' Hrun)
    as [[-> Hc]|[-> Hc]].
  - split; [by destruct Hc as [->|[->| ->]]|].
    split; [by left|]. split; [done|].
    intros ->. by destruct Hc as [?|[?|?]].
  - split; [by destruct Hc as [->| ->]|].
    split; [by right|]. split; [|done].
    intros [->| ->]; by destruct Hc.
Qed.

(** On the small chain, a request on top of the soft head [block2] with a
    timestamp that is not after the parent's cannot be built: the call
    answers [InvalidArgument] and the pool keeps the one unbundled
    transaction. *)
Lemma ExecuteBlock_error_footprint_witness :
  let s := Toy.container Toy.chainAt2 true in
  let out :=
    ExecuteBlock (Toy.config false ∅ ∅) s (Toy.executeOn Toy.block2 20 None) in
  fst out = Err codes.InvalidArgument
  /\ (snd out = s \/ snd out = SetAstriaOrdered s [[x01; x02]]).
Proof.
  intros s out.
  assert (Hrun : out = (Err codes.InvalidArgument,
                        SetAstriaOrdered s [[x01; x02]]))
    by (vm_compute; reflexivity).
  split; [by rewrite Hrun|].
  destruct (ExecuteBlock_error_footprint (C := Toy.toy) _ _ _ _ _ Hrun)
    as (_ & Hstate & _).
  rewrite Hrun. cbn [snd]. exact Hstate.
Defined.

(** X6.  An [ExecuteBlock] that returns OK built its block for the fee
    recipient held before the call.  Afterwards the cell holds the fee
    collector the configuration lists for the answered number plus one
    (as a 32-bit number) when it lists one, and the recipient held before
    otherwise: a listed collector is first used by the block at its own
    height. *)
Theorem ExecuteBlock_fee_recipient `{C : Collaborators} (cfg : ChainConfig)
    (s s' : SharedServiceContainer chain) (req : astriaPb.ExecuteBlockRequest)
    (res : astriaPb.Block) :
  ExecuteBlock cfg s req = (Ok res, s') ->
  nextFeeRecipient s'
  = match AstriaFeeCollectors cfg !! uint32 (astriaPb.Number res + 1) with
    | Some next => next
    | None => nextFeeRecipient s
    end
  /\ exists txs args payload root block,
       FeeRecipient args = nextFeeRecipient s
       /\ BuildPayload (bc s) txs args = Some payload
       /\ ExecutableDataToBlock payload root = Some block
       /\ res = executedBlockResponse block.
Proof.
  intros Hrun.
  apply ExecuteBlock_Ok_inv in Hrun
    as (_ & _ & _ & txs & args & payload & root & block & bc' & _ & _ & Hfee
        & Hbuild & Hblock & _ & Hres & ->).
  split.
  - unfold postInsertConfig.
    destruct (AstriaFeeCollectors cfg !! _), (AstriaAuctioneerAddresses cfg !! _);
      reflexivity.
  - by exists txs, args, payload, root, block.
Qed.

(** On the small chain with the collector [feeB] listed for height 4,
    the call that builds block 3 starts with [feeA] in the cell and leaves
    [feeB] in it. *)
Lemma ExecuteBlock_fee_recipient_witness :
  let s := Toy.container Toy.chainAt2 true in
  let cfg := Toy.config false {[ 4 := Toy.feeB ]} ∅ in
  let out := ExecuteBlock cfg s (Toy.executeOn Toy.block2 30 None) in
  nextFeeRecipient s = Toy.feeA
  /\ is_Ok (fst out) = true
  /\ nextFeeRecipient (snd out) = Toy.feeB.
Proof.
  intros s cfg out.
  split; [reflexivity|]. split; [reflexivity|].
  assert (Hrun : exists res s', out = (Ok res, s') /\ astriaPb.Number res = 3)
    by (eexists _, _; split; [vm_compute; reflexivity | reflexivity]).
  destruct Hrun as (res & s' & Hrun & Hnum).
  destruct (ExecuteBlock_fee_recipient (C := Toy.toy) _ _ _ _ _ Hrun)
    as [Hfee _].
  rewrite Hrun. cbn [snd]. rewrite Hfee, Hnum. reflexivity.
Defined.

(** ** What moves the commitment state *)

Section CommitmentFrame.
Context `{C : Collaborators} `{!ChainStoreLaws}.
Variable cfg : ChainConfig.

Lemma samePointers_refl c : samePointers c c.
Proof. by repeat split. Qed.

Lemma samePointers_trans c1 c2 c3 :
  samePointers c1 c2 -> samePointers c2 c3 -> samePointers c1 c3.
Proof.
  intros (? & ? & ? & ?) (? & ? & ? & ?). repeat split; congruence.
Qed.

Lemma ExecuteBlock_pointers s req :
  samePointers (bc (snd (ExecuteBlock cfg s req))) (bc s).
Proof.
  destruct (ExecuteBlock cfg s req) as [r s'] eqn:Hrun.
  destruct r as [res|c|]; cbn [snd].
  - apply ExecuteBlock_Ok_inv in Hrun
      as (_ & _ & _ & txs & args & payload & root & block & bc' & _ & _ & _
          & _ & _ & Hins & _ & ->).
    rewrite (proj1 (postInsertConfig_frame _ _ _ _)). simpl bc.
    exact (InsertBlockWithoutSetHead_frame _ _ _ Hins).
  - destruct (ExecuteBlock_Err_inv cfg s req c s' Hrun) as [[-> _]|[-> _]];
      apply samePointers_refl.
  - pose proof (ExecuteBlock_not_Panic cfg s req) as Hnp.
    rewrite Hrun in Hnp. by destruct Hnp.
Qed.

Lemma step_pointers s c :
  isUpdateCommitmentState c = false ->
  samePointers (bc (snd (step cfg s c))) (bc s).
Proof.
  destruct c as [|req|req|req| |req]; cbn [step isUpdateCommitmentState];
    intros Hc; [| | | | |discriminate].
  - apply samePointers_refl.
  - unfold GetBlock. destruct (astriaPb.Identifier req); apply samePointers_refl.
  - unfold BatchGetBlocks. destruct (astriaPb.Identifiers req);
      apply samePointers_refl.
  - pose proof (ExecuteBlock_pointers s req) as Hp.
    by destruct (ExecuteBlock cfg s req) as [r s'].
  - unfold GetCommitmentState.
    destruct (ethHeaderToExecutionBlock (CurrentSafeBlock (bc s)));
      [destruct (ethHeaderToExecutionBlock (CurrentFinalBlock (bc s)))|];
      apply samePointers_refl.
Qed.

Lemma run_pointers calls : forall s0 s,
  Forall (fun c => isUpdateCommitmentState c = false) calls ->
  run cfg s0 calls = Some s ->
  samePointers (bc s) (bc s0).
Proof.
  induction calls as [|c rest IH]; intros s0 s Hcalls Hrun.
  - injection Hrun as <-. apply samePointers_refl.
  - apply Forall_cons in Hcalls as [Hc Hrest].
    apply run_cons in Hrun as [_ Hrun].
    eapply samePointers_trans; [exact (IH _ _ Hrest Hrun)|].
    exact (step_pointers s0 c Hc).
Qed.

(** *** After an accepted update *)

Lemma commitBlocks_Ok_head s cs softEthHash firmEthHash softBlock firmBlock cs' s1 :
  commitBlocks s cs softEthHash firmEthHash softBlock firmBlock = (Ok cs', s1) ->
  types.Hash softBlock = softEthHash ->
  types.hHash (CurrentBlock (bc s1)) = softEthHash
  /\ s1 = SetSynced (setBc s (bc s1)).
Proof.
  unfold commitBlocks. cbv zeta. intros Hout Hsoft.
  destruct (decide (types.hHash (CurrentBlock (bc s)) = softEthHash)) as [Hh|Hh];
    [rewrite (bool_decide_eq_false_2 _ (fun H => H Hh)) in Hout
    |rewrite (bool_decide_eq_true_2 _ Hh) in Hout].
  - case_bool_decide as Hfirm.
    { destruct (GetBlockByHash (bc s) _) as [rb|]; [|discriminate].
      destruct (SetCanonical (bc s) rb); discriminate. }
    revert Hout. simpl bc.
    repeat case_bool_decide; intros [= _ <-]; simpl bc;
      rewrite ?(proj1 (SetCelestiaFinalized_frame _ _ _)),
              ?(proj1 (SetSafe_frame _ _)); by split.
  - destruct (SetCanonical (bc s) softBlock) as [bc1|] eqn:Hcanon; [|discriminate].
    apply SetCanonical_head in Hcanon.
    case_bool_decide as Hfirm.
    { destruct (GetBlockByHash bc1 _) as [rb|]; [|discriminate].
      destruct (SetCanonical bc1 rb); discriminate. }
    revert Hout. simpl bc.
    repeat case_bool_decide; intros [= _ <-]; simpl bc;
      rewrite ?(proj1 (SetCelestiaFinalized_frame _ _ _)),
              ?(proj1 (SetSafe_frame _ _)), Hcanon; by split.
Qed.

(** *** After a refused update *)

Lemma commitBlocks_Err s cs softEthHash firmEthHash softBlock firmBlock c s1 :
  commitBlocks s cs softEthHash firmEthHash softBlock firmBlock = (Err c, s1) ->
  (c = codes.InvalidArgument \/ c = codes.Internal)
  /\ s1 = setBc s (bc s1)
  /\ CurrentSafeBlock (bc s1) = CurrentSafeBlock (bc s)
  /\ CurrentFinalBlock (bc s1) = CurrentFinalBlock (bc s)
  /\ CurrentBaseCelestiaHeight (bc s1) = CurrentBaseCelestiaHeight (bc s)
  /\ (c ≠ codes.InvalidArgument -> s1 = s).
Proof.
  unfold commitBlocks. cbv zeta.
  destruct (if bool_decide (types.hHash (CurrentBlock (bc s)) ≠ softEthHash)
            then SetCanonical (bc s) softBlock else Some (bc s))
    as [bc1|] eqn:Hcanon.
  2: { intros [= <- <-]. destruct s. repeat split; auto. }
  apply recanonicalise_frame in Hcanon as (Hsafe1 & Hfinal1 & Hbase1).
  case_bool_decide; [|discriminate].
  destruct (GetBlockByHash bc1 _) as [rb|]; [|discriminate].
  destruct (SetCanonical bc1 rb) as [bc2|] eqn:Hback; [|discriminate].
  intros [= <- <-]. simpl bc.
  destruct (SetCanonical_frame _ _ _ Hback) as (-> & -> & ->).
  repeat split; auto. done.
Qed.

End CommitmentFrame.

(** X7.  Only [UpdateCommitmentState] moves the commitment state.  Along
    any run of calls none of which is an [UpdateCommitmentState] (queries,
    handshake calls and [ExecuteBlock], accepted or refused) the head, the
    safe and final pointers and the Celestia height stay where they were,
    and [GetCommitmentState] gives the same answer at the end as at the
    start. *)
Theorem commitment_state_only_moved_by_update
    `{C : Collaborators} {laws : ChainStoreLaws} (cfg : ChainConfig)
    (calls : list Call) (s0 s : SharedServiceContainer chain) :
  Forall (fun c => isUpdateCommitmentState c = false) calls ->
  run cfg s0 calls = Some s ->
  CurrentBlock (bc s) = CurrentBlock (bc s0)
  /\ CurrentSafeBlock (bc s) = CurrentSafeBlock (bc s0)
  /\ CurrentFinalBlock (bc s) = CurrentFinalBlock (bc s0)
  /\ CurrentBaseCelestiaHeight (bc s) = CurrentBaseCelestiaHeight (bc s0)
  /\ fst (GetCommitmentState s) = fst (GetCommitmentState s0).
Proof.
  intros Hcalls Hrun.
  destruct (run_pointers cfg calls s0 s Hcalls Hrun) as (Hh & Hs & Hf & Hb).
  repeat split; try assumption.
  unfold GetCommitmentState. rewrite Hs, Hf, Hb.
  destruct (ethHeaderToExecutionBlock (CurrentSafeBlock (bc s0)));
    [destruct (ethHeaderToExecutionBlock (CurrentFinalBlock (bc s0)))|];
    reflexivity.
Qed.

(** On the small chain: the handshake, a block executed on the soft head,
    a lookup of a block and a refused execution leave the pointers at
    [block2] and the Celestia height at 5. *)
Lemma commitment_state_only_moved_by_update_witness :
  let cfg := Toy.config false ∅ ∅ in
  let calls :=
    [CallGetGenesisInfo; CallGetCommitmentState;
     CallExecuteBlock (Toy.executeOn Toy.block2 30 None);
     CallGetBlock (astriaPb.mkGetBlockRequest
                     (Some (astriaPb.BlockIdentifier_BlockNumber 1)));
     CallExecuteBlock (Toy.executeOn Toy.block1 40 None)] in
  exists s,
    run cfg (Toy.container Toy.chainAt2 false) calls = Some s
    /\ CurrentSafeBlock (bc s) = Some (types.header Toy.block2)
    /\ CurrentBaseCelestiaHeight (bc s) = 5.
Proof.
  intros cfg calls.
  assert (Hrun : exists s, run cfg (Toy.container Toy.chainAt2 false) calls = Some s)
    by (eexists; vm_compute; reflexivity).
  destruct Hrun as [s Hrun]. exists s. split; [exact Hrun|].
  assert (Hcalls : Forall (fun c => isUpdateCommitmentState c = false) calls)
    by (repeat constructor).
  destruct (commitment_state_only_moved_by_update (C := Toy.toy)
              (laws := toy_store_laws) cfg calls _ s Hcalls Hrun)
    as (_ & Hs & _ & Hb & _).
  rewrite Hs, Hb. split; reflexivity.
Defined.

(** X8.  An accepted [UpdateCommitmentState] echoes the request's
    commitment state, leaves the head of the chain at the soft block of
    the request (the head and the safe pointer then carry the same hash),
    and marks the node as synced; apart from the chain store and that
    mark the service state is as before (pool list, fee recipient,
    auctioneer address, handshake flags). *)
Theorem UpdateCommitmentState_accepted
    `{C : Collaborators} {laws : ChainStoreLaws}
    (s s1 : SharedServiceContainer chain)
    (req : astriaPb.UpdateCommitmentStateRequest) (cs : astriaPb.CommitmentState) :
  UpdateCommitmentState s req = (Ok cs, s1) ->
  cs = astriaPb.ReqCommitmentState req
  /\ types.hHash (CurrentBlock (bc s1))
     = common.BytesToHash (astriaPb.Hash (astriaPb.Soft cs))
  /\ HeaderHash (CurrentSafeBlock (bc s1)) = types.hHash (CurrentBlock (bc s1))
  /\ synced s1 = true
  /\ s1 = SetSynced (setBc s (bc s1)).
Proof.
  intros Hupd.
  apply UpdateCommitmentState_Ok_inv in Hupd
    as (_ & _ & _ & softBlock & firmBlock & Hsoft & Hfirm & Hcommit).
  pose proof (commitBlocks_Ok_head _ _ _ _ _ _ _ _ Hcommit eq_refl)
    as [Hhead Hrest].
  apply commitBlocks_Ok in Hcommit as (-> & Hs1 & _); [|reflexivity..].
  rewrite Hhead, Hs1, Hsoft.
  repeat split; [|exact Hrest]. by rewrite Hrest.
Qed.

(** On the small chain with the head at [block2] and the soft pointer at
    [block1], promoting [block2] is accepted; the head is then [block2]
    and the node is marked as synced. *)
Lemma UpdateCommitmentState_accepted_witness :
  let s := Toy.container Toy.chainSoftBehind true in
  let up := Toy.commit (Toy.wire Toy.block2) (Toy.wire Toy.block2) 7 in
  synced s = false
  /\ is_Ok (fst (UpdateCommitmentState s up)) = true
  /\ synced (snd (UpdateCommitmentState s up)) = true
  /\ types.hHash (CurrentBlock (bc (snd (UpdateCommitmentState s up))))
     = types.Hash Toy.block2.
Proof.
  intros s up.
  split; [reflexivity|]. split; [reflexivity|].
  assert (Hupd : exists cs s1, UpdateCommitmentState s up = (Ok cs, s1))
    by (eexists _, _; vm_compute; reflexivity).
  destruct Hupd as (cs & s1 & Hupd).
  destruct (UpdateCommitmentState_accepted (C := Toy.toy)
              (laws := toy_store_laws) _ _ _ _ Hupd)
    as (-> & Hhead & _ & Hsynced & _).
  rewrite Hupd. cbn [snd]. rewrite Hsynced, Hhead. split; reflexivity.
Defined.

(** X9.  A refused [UpdateCommitmentState] is answered [InvalidArgument],
    [PermissionDenied] or [Internal], never [NotFound] or
    [FailedPrecondition] (a block named by the request that the store
    does not hold is an [InvalidArgument]).  It moves neither the safe nor
    the final pointer nor the Celestia height and does not mark the node
    as synced: nothing but the chain store can differ afterwards, and
    after [PermissionDenied] the whole state is as before. *)
Theorem UpdateCommitmentState_error_footprint
    `{C : Collaborators} {laws : ChainStoreLaws}
    (s s' : SharedServiceContainer chain)
    (req : astriaPb.UpdateCommitmentStateRequest) (c : codes.Code) :
  UpdateCommitmentState s req = (Err c, s') ->
  (c = codes.InvalidArgument \/ c = codes.PermissionDenied
   \/ c = codes.Internal)
  /\ s' = setBc s (bc s')
  /\ CurrentSafeBlock (bc s') = CurrentSafeBlock (bc s)
  /\ CurrentFinalBlock (bc s') = CurrentFinalBlock (bc s)
  /\ CurrentBaseCelestiaHeight (bc s') = CurrentBaseCelestiaHeight (bc s)
  /\ (c = codes.PermissionDenied -> s' = s).
Proof.
  unfold UpdateCommitmentState. cbv zeta.
  assert (Hsame : forall c0, c0 = codes.InvalidArgument \/ c0 = codes.PermissionDenied ->
            (Err c0, s) = (@Err astriaPb.CommitmentState c, s') ->
            (c = codes.InvalidArgument \/ c = codes.PermissionDenied
             \/ c = codes.Internal)
            /\ s' = setBc s (bc s')
            /\ CurrentSafeBlock (bc s') = CurrentSafeBlock (bc s)
            /\ CurrentFinalBlock (bc s') = CurrentFinalBlock (bc s)
            /\ CurrentBaseCelestiaHeight (bc s') = CurrentBaseCelestiaHeight (bc s)
            /\ (c = codes.PermissionDenied -> s' = s)).
  { intros c0 Hc0 [= <- <-]. destruct s.
    repeat split; auto. destruct Hc0 as [->| ->]; auto. }
  destruct (validateStaticCommitmentState _); cbn [negb];
    [|apply Hsame; auto].
  destruct (syncMethodsCalled s); cbn [negb]; [|apply Hsame; auto].
  destruct (_ >? _); [apply Hsame; auto|].
  destruct (GetBlockByHash (bc s) _) as [softBlock|]; [|apply Hsame; auto].
  destruct (GetBlockByHash (bc s) _) as [firmBlock|]; [|apply Hsame; auto].
  intros Hcommit. apply commitBlocks_Err in Hcommit
    as ([->| ->] & Hstate & Hsafe & Hfinal & Hbase & _);
    (split; [auto|]); repeat (split; [assumption|]); discriminate.
Qed.

(** On the small chain, naming a firm block that is not on the chain of
    the soft block ([fork1] under [block2]) is refused with
    [InvalidArgument]; the safe pointer stays at [block1]. *)
Lemma UpdateCommitmentState_error_footprint_witness :
  let s := Toy.container Toy.chainSoftBehind true in
  let up := Toy.commit (Toy.wire Toy.block2) (Toy.wire Toy.fork1) 7 in
  fst (UpdateCommitmentState s up) = Err codes.InvalidArgument
  /\ CurrentSafeBlock (bc (snd (UpdateCommitmentState s up)))
     = Some (types.header Toy.block1)
  /\ synced (snd (UpdateCommitmentState s up)) = false.
Proof.
  intros s up.
  assert (Hupd : exists s', UpdateCommitmentState s up
                            = (Err codes.InvalidArgument, s'))
    by (eexists; vm_compute; reflexivity).
  destruct Hupd as (s' & Hupd).
  destruct (UpdateCommitmentState_error_footprint (C := Toy.toy)
              (laws := toy_store_laws) _ _ _ _ Hupd)
    as (_ & Hstate & Hsafe & _).
  rewrite Hupd. cbn [fst snd]. split; [reflexivity|].
  rewrite Hsafe. split; [reflexivity|]. by rewrite Hstate.
Defined.

(** X10.  [ExecuteBlock] after an accepted [UpdateCommitmentState]: a
    request that passes static validation is refused with
    [FailedPrecondition] exactly when its [prev_block_hash] is not the
    hash of the soft block just committed (both read as 32-byte hashes);
    it is never refused with [PermissionDenied]. *)
Theorem ExecuteBlock_after_UpdateCommitmentState
    `{C : Collaborators} {laws : ChainStoreLaws} (cfg : ChainConfig)
    (s s1 : SharedServiceContainer chain)
    (ureq : astriaPb.UpdateCommitmentStateRequest)
    (cs : astriaPb.CommitmentState) (req : astriaPb.ExecuteBlockRequest) :
  UpdateCommitmentState s ureq = (Ok cs, s1) ->
  validateStaticExecuteBlockRequest req = true ->
  (fst (ExecuteBlock cfg s1 req) = Err codes.FailedPrecondition <->
   common.BytesToHash (astriaPb.PrevBlockHash req)
   ≠ common.BytesToHash (astriaPb.Hash (astriaPb.Soft cs)))
  /\ fst (ExecuteBlock cfg s1 req) ≠ Err codes.PermissionDenied.
Proof.
  intros Hupd Hstatic.
  pose proof (UpdateCommitmentState_flags s ureq) as [Hg Hc].
  rewrite Hupd in Hg, Hc. cbn [snd] in Hg, Hc.
  apply UpdateCommitmentState_Ok_inv in Hupd
    as (_ & Hsync & _ & softBlock & firmBlock & Hsoft & Hfirm & Hcommit).
  apply commitBlocks_Ok in Hcommit as (-> & Hs1 & _); [|reflexivity..].
  rewrite Hsoft in Hs1. rewrite <- Hs1.
  apply ExecuteBlock_parent_check; [exact Hstatic|].
  unfold syncMethodsCalled in *. by rewrite Hg, Hc.
Qed.

(** On the small chain with the soft pointer at [block1]: once [block2] is
    committed as the soft block, a request on top of [block1] is refused
    with [FailedPrecondition] and a request on top of [block2] is not. *)
Lemma ExecuteBlock_after_UpdateCommitmentState_witness :
  let cfg := Toy.config false ∅ ∅ in
  let s := Toy.container Toy.chainSoftBehind true in
  let up := Toy.commit (Toy.wire Toy.block2) (Toy.wire Toy.block1) 5 in
  exists cs s1,
    UpdateCommitmentState s up = (Ok cs, s1)
    /\ fst (ExecuteBlock cfg s1 (Toy.executeOn Toy.block1 30 None))
       = Err codes.FailedPrecondition
    /\ fst (ExecuteBlock cfg s1 (Toy.executeOn Toy.block2 30 None))
       ≠ Err codes.FailedPrecondition.
Proof.
  intros cfg s up.
  assert (Hupd : exists cs s1,
             UpdateCommitmentState s up = (Ok cs, s1)
             /\ astriaPb.Hash (astriaPb.Soft cs) = types.Hash Toy.block2)
    by (eexists _, _; split; [vm_compute; reflexivity | reflexivity]).
  destruct Hupd as (cs & s1 & Hupd & Hhash).
  exists cs, s1. split; [exact Hupd|].
  split.
  - apply (ExecuteBlock_after_UpdateCommitmentState (C := Toy.toy)
             (laws := toy_store_laws) cfg s s1 up cs
             (Toy.executeOn Toy.block1 30 None) Hupd eq_refl).
    rewrite Hhash. vm_compute. discriminate.
  - intros Hfailed.
    apply (ExecuteBlock_after_UpdateCommitmentState (C := Toy.toy)
             (laws := toy_store_laws) cfg s s1 up cs
             (Toy.executeOn Toy.block2 30 None) Hupd eq_refl) in Hfailed.
    apply Hfailed. rewrite Hhash. reflexivity.
Defined.

(** X17.  [ExecuteBlock] does not advance the soft head.  After a call
    that returned OK, a further request that passes static validation is
    refused with [FailedPrecondition] exactly when its [prev_block_hash]
    differs from that of the request just executed: the same parent is
    accepted again, and the block just built is not accepted as a parent
    until [UpdateCommitmentState] commits it. *)
Theorem ExecuteBlock_does_not_advance_soft
    `{C : Collaborators} {laws : ChainStoreLaws} (cfg : ChainConfig)
    (s s' : SharedServiceContainer chain)
    (req req' : astriaPb.ExecuteBlockRequest) (res : astriaPb.Block) :
  ExecuteBlock cfg s req = (Ok res, s') ->
  validateStaticExecuteBlockRequest req' = true ->
  (fst (ExecuteBlock cfg s' req') = Err codes.FailedPrecondition <->
   common.BytesToHash (astriaPb.PrevBlockHash req')
   ≠ common.BytesToHash (astriaPb.PrevBlockHash req))
  /\ fst (ExecuteBlock cfg s' req') ≠ Err codes.PermissionDenied.
Proof.
  intros Hrun Hstatic.
  pose proof (ExecuteBlock_flags cfg s req) as [Hg Hc].
  pose proof (ExecuteBlock_pointers cfg s req) as (_ & Hsafe & _).
  rewrite Hrun in Hg, Hc, Hsafe. cbn [snd] in Hg, Hc, Hsafe.
  apply ExecuteBlock_Ok_inv in Hrun as (_ & Hsync & Hprev & _).
  rewrite Hprev, <- Hsafe.
  apply ExecuteBlock_parent_check; [exact Hstatic|].
  unfold syncMethodsCalled in *. by rewrite Hg, Hc.
Qed.

(** On the small chain, after block 3 has been executed on top of
    [block2], a request on top of block 3 is refused with
    [FailedPrecondition] and the request on top of [block2] is not. *)
Lemma ExecuteBlock_does_not_advance_soft_witness :
  let cfg := Toy.config false ∅ ∅ in
  let s := Toy.container Toy.chainAt2 true in
  let req := Toy.executeOn Toy.block2 30 None in
  exists res s',
    ExecuteBlock cfg s req = (Ok res, s')
    /\ fst (ExecuteBlock cfg s'
              (astriaPb.mkExecuteBlockRequest (astriaPb.Hash res) []
                 (Some (timestamppb.mkTimestamp 40 0)) None))
       = Err codes.FailedPrecondition
    /\ fst (ExecuteBlock cfg s' req) ≠ Err codes.FailedPrecondition.
Proof.
  intros cfg s req.
  assert (Hrun : exists res s',
             ExecuteBlock cfg s req = (Ok res, s')
             /\ length (astriaPb.Hash res) = common.HashLength
             /\ astriaPb.Hash res ≠ types.Hash Toy.block2)
    by (eexists _, _;
        split; [vm_compute; reflexivity
               | split; [reflexivity | vm_compute; discriminate]]).
  destruct Hrun as (res & s' & Hrun & Hlen & Hne).
  exists res, s'. split; [exact Hrun|].
  split.
  - apply (ExecuteBlock_does_not_advance_soft (C := Toy.toy)
             (laws := toy_store_laws) cfg s s' req
             (astriaPb.mkExecuteBlockRequest (astriaPb.Hash res) []
                (Some (timestamppb.mkTimestamp 40 0)) None) res Hrun).
    + unfold validateStaticExecuteBlockRequest.
      cbn [astriaPb.PrevBlockHash astriaPb.ReqTimestamp].
      rewrite Hlen. reflexivity.
    + cbn [astriaPb.PrevBlockHash].
      rewrite (BytesToHash_id _ Hlen). exact Hne.
  - intros Hfailed.
    apply (ExecuteBlock_does_not_advance_soft (C := Toy.toy)
             (laws := toy_store_laws) cfg s s' req req res Hrun eq_refl)
      in Hfailed.
    by apply Hfailed.
Defined.

(** ** The handshake, once made, stays made *)

Section HandshakeLatch.
Context `{C : Collaborators}.
Variable cfg : ChainConfig.

Lemma step_flags_kept s c :
  (genesisInfoCalled s = true -> genesisInfoCalled (snd (step cfg s c)) = true)
  /\ (getCommitmentStateCalled s = true ->
      getCommitmentStateCalled (snd (step cfg s c)) = true).
Proof.
  destruct c as [|req|req|req| |req]; cbn [step].
  - split; [reflexivity | auto].
  - unfold GetBlock. destruct (astriaPb.Identifier req); auto.
  - unfold BatchGetBlocks. destruct (astriaPb.Identifiers req); auto.
  - pose proof (ExecuteBlock_flags cfg s req) as [Hg Hc].
    destruct (ExecuteBlock cfg s req) as [r s']. cbn [snd] in *.
    rewrite Hg, Hc. auto.
  - unfold GetCommitmentState.
    destruct (ethHeaderToExecutionBlock (CurrentSafeBlock (bc s)));
      [destruct (ethHeaderToExecutionBlock (CurrentFinalBlock (bc s)))|];
      cbn; auto.
  - pose proof (UpdateCommitmentState_flags s req) as [Hg Hc].
    destruct (UpdateCommitmentState s req) as [r s']. cbn [snd] in *.
    rewrite Hg, Hc. auto.
Qed.

Lemma run_flags_kept calls : forall s0 s,
  run cfg s0 calls = Some s ->
  (genesisInfoCalled s0 = true -> genesisInfoCalled s = true)
  /\ (getCommitmentStateCalled s0 = true -> getCommitmentStateCalled s = true).
Proof.
  induction calls as [|c rest IH]; intros s0 s Hrun.
  - injection Hrun as <-. auto.
  - apply run_cons in Hrun as [_ Hrun].
    destruct (IH _ _ Hrun) as [Hg Hc].
    destruct (step_flags_kept s0 c) as [Hg0 Hc0]. auto.
Qed.

Lemma run_app pre : forall post s0 s,
  run cfg s0 (pre ++ post) = Some s ->
  exists s1, run cfg s0 pre = Some s1 /\ run cfg s1 post = Some s.
Proof.
  induction pre as [|c rest IH]; intros post s0 s Hrun.
  - by exists s0.
  - rewrite <- app_comm_cons in Hrun.
    pose proof (run_cons cfg _ _ _ _ Hrun) as [Hnp Hrest].
    destruct (IH _ _ _ Hrest) as (s1 & Hpre & Hpost).
    exists s1. split; [|exact Hpost].
    by rewrite (run_cons_intro cfg _ _ _ Hnp).
Qed.

Lemma run_sets_genesisInfoCalled calls : forall s0 s,
  run cfg s0 calls = Some s ->
  In CallGetGenesisInfo calls ->
  genesisInfoCalled s = true.
Proof.
  intros s0 s Hrun Hin.
  apply in_split in Hin as (pre & post & ->).
  apply run_app in Hrun as (s1 & _ & Hrun).
  apply run_cons in Hrun as [_ Hrun].
  by apply (run_flags_kept _ _ _ Hrun).
Qed.

End HandshakeLatch.

(** X11.  The handshake latches.  If a run of calls that does not panic
    contains a [GetGenesisInfo] call and a [GetCommitmentState] call that
    was answered OK (or starts from a state where the respective flag is
    already set), then at its end both flags are set, whatever calls came
    in between or after, and no [ExecuteBlock] or [UpdateCommitmentState]
    request is refused with [PermissionDenied] from then on. *)
Theorem handshake_latches `{C : Collaborators} (cfg : ChainConfig)
    (calls : list Call) (s0 s : SharedServiceContainer chain) :
  run cfg s0 calls = Some s ->
  (genesisInfoCalled s0 = true \/ In CallGetGenesisInfo calls) ->
  (getCommitmentStateCalled s0 = true
   \/ exists pre post s1,
        calls = pre ++ CallGetCommitmentState :: post
        /\ run cfg s0 pre = Some s1
        /\ fst (step cfg s1 CallGetCommitmentState) = StatusOK) ->
  syncMethodsCalled s = true
  /\ (forall req, fst (ExecuteBlock cfg s req) ≠ Err codes.PermissionDenied)
  /\ (forall req, fst (UpdateCommitmentState s req) ≠ Err codes.PermissionDenied).
Proof.
  intros Hrun Hgen Hcommit.
  assert (Hg : genesisInfoCalled s = true).
  { destruct Hgen as [Hg0|Hin].
    - by apply (run_flags_kept cfg _ _ _ Hrun).
    - exact (run_sets_genesisInfoCalled cfg _ _ _ Hrun Hin). }
  assert (Hc : getCommitmentStateCalled s = true).
  { destruct Hcommit as [Hc0|(pre & post & s1 & -> & Hpre & Hok)].
    - by apply (run_flags_kept cfg _ _ _ Hrun).
    - apply run_app in Hrun as (s1' & Hpre' & Hrun).
      rewrite Hpre in Hpre'. injection Hpre' as <-.
      apply run_cons in Hrun as [_ Hrun].
      apply (run_flags_kept cfg _ _ _ Hrun).
      revert Hok. cbn [step]. unfold GetCommitmentState.
      destruct (ethHeaderToExecutionBlock (CurrentSafeBlock (bc s1)));
        [destruct (ethHeaderToExecutionBlock (CurrentFinalBlock (bc s1)))|];
        cbn; done. }
  assert (Hsync : syncMethodsCalled s = true).
  { unfold syncMethodsCalled. by rewrite Hg, Hc. }
  split; [exact Hsync|]. split; intros req.
  - destruct (ExecuteBlock cfg s req) as [r s'] eqn:Hexec. cbn [fst].
    intros ->.
    destruct (ExecuteBlock_Err_inv cfg s req _ s' Hexec) as [[-> _]|[_ [?|?]]];
      [|discriminate..].
    revert Hexec. unfold ExecuteBlock. cbv zeta.
    destruct (validateStaticExecuteBlockRequest req); cbn [negb]; [|discriminate].
    rewrite Hsync. cbn [negb].
    repeat match goal with
           | |- context [if ?b then _ else _] => destruct b
           | |- context [match ?o with Some _ => _ | None => _ end] => destruct o
           end; discriminate.
  - unfold UpdateCommitmentState, commitBlocks. cbv zeta.
    destruct (validateStaticCommitmentState _); cbn [negb]; [|discriminate].
    rewrite Hsync. cbn [negb].
    repeat match goal with
           | |- context [if ?b then _ else _] => destruct b
           | |- context [match ?o with Some _ => _ | None => _ end] => destruct o
           end; discriminate.
Qed.

(** On the small chain, from a state where no handshake call has been
    made: after [GetCommitmentState], a refused [ExecuteBlock],
    [GetGenesisInfo] and a lookup, the handshake is complete and a request
    on the soft head is executed. *)
Lemma handshake_latches_witness :
  let cfg := Toy.config false ∅ ∅ in
  let s0 := Toy.container Toy.chainAt2 false in
  let calls :=
    [CallGetCommitmentState;
     CallExecuteBlock (Toy.executeOn Toy.block2 30 None);
     CallGetGenesisInfo;
     CallGetBlock (astriaPb.mkGetBlockRequest
                     (Some (astriaPb.BlockIdentifier_BlockNumber 1)))] in
  syncMethodsCalled s0 = false
  /\ exists s, run cfg s0 calls = Some s /\ syncMethodsCalled s = true.
Proof.
  intros cfg s0 calls.
  split; [reflexivity|].
  assert (Hrun : exists s, run cfg s0 calls = Some s)
    by (eexists; vm_compute; reflexivity).
  destruct Hrun as [s Hrun]. exists s. split; [exact Hrun|].
  apply (handshake_latches (C := Toy.toy) cfg calls s0 s Hrun).
  - right. right. right. left. reflexivity.
  - right. exists [], (tl calls), s0. repeat split.
Defined.

(** ** Timestamps on the wire *)

(** X12.  The wire block of a header carries the header's time (a 64-bit
    unsigned number) as signed seconds with no nanoseconds: a time below
    2^63 is carried as it is, a time from 2^63 on comes out negative, by
    2^64 less; reading the seconds back as an unsigned 64-bit number, as
    [ExecuteBlock] does with a request's timestamp, gives the header's
    time again in either case. *)
Theorem wire_timestamp_round_trip (h : types.Header) (blk : astriaPb.Block) :
  0 <= types.hTime h < 2 ^ 64 ->
  ethHeaderToExecutionBlock (Some h) = Some blk ->
  timestamppb.GetSeconds (astriaPb.Timestamp blk)
  = (if types.hTime h <? 2 ^ 63 then types.hTime h else types.hTime h - 2 ^ 64)
  /\ (timestamppb.Nanos <$> astriaPb.Timestamp blk) = Some 0
  /\ uint64 (timestamppb.GetSeconds (astriaPb.Timestamp blk)) = types.hTime h.
Proof.
  intros Hrange [= <-]. cbn. unfold int64, uint64.
  destruct (Z.ltb_spec (types.hTime h) (2 ^ 63)) as [Hlt|Hge].
  - rewrite (Z.mod_small (types.hTime h + 2 ^ 63)) by lia.
    split; [lia|]. split; [reflexivity|].
    replace (types.hTime h + 2 ^ 63 - 2 ^ 63) with (types.hTime h) by lia.
    apply Z.mod_small. lia.
  - replace (types.hTime h + 2 ^ 63)
      with ((types.hTime h - 2 ^ 63) + 1 * 2 ^ 64) by lia.
    rewrite Z_mod_plus_full, (Z.mod_small (types.hTime h - 2 ^ 63)) by lia.
    split; [lia|]. split; [reflexivity|].
    replace (types.hTime h - 2 ^ 63 - 2 ^ 63)
      with (types.hTime h + (-1) * 2 ^ 64) by lia.
    rewrite Z_mod_plus_full. apply Z.mod_small. lia.
Qed.

(** A header stamped 2^63 + 5 is answered with -(2^63) + 5 seconds. *)
Lemma wire_timestamp_round_trip_witness :
  let h := types.mkHeader 7 Toy.zeroHash (2 ^ 63 + 5) Toy.zeroHash in
  exists blk,
    ethHeaderToExecutionBlock (Some h) = Some blk
    /\ timestamppb.GetSeconds (astriaPb.Timestamp blk) = - 2 ^ 63 + 5.
Proof.
  intros h. eexists. split; [reflexivity|].
  refine (proj1 (wire_timestamp_round_trip h _ _ eq_refl)).
  cbn [types.hTime h]. lia.
Defined.

(** ** The mock bidirectional stream *)

Section MockStream.
Context {K V : Type}.
Import optimistic.

Lemma Recv_at_end (rs : list K) (acc : list V) :
  rs ≠ [] ->
  Z.of_nat (length rs) < 2 ^ 64 ->
  Recv (mkMock rs acc (Z.of_nat (length rs)))
  = (RecvEOF, mkMock rs acc (Z.of_nat (length rs))).
Proof.
  intros Hne Hlen. unfold Recv. cbn [requestCounter requestStream].
  assert (0 < Z.of_nat (length rs)) by (destruct rs; [done | cbn; lia]).
  unfold uint64. rewrite Z.mod_small by lia.
  destruct (Z.gtb_spec (Z.of_nat (length rs)) (Z.of_nat (length rs) - 1));
    [reflexivity | lia].
Qed.

Lemma recvN_at_end (rs : list K) (acc : list V) (k : nat) :
  rs ≠ [] ->
  Z.of_nat (length rs) < 2 ^ 64 ->
  recvN k (mkMock rs acc (Z.of_nat (length rs)))
  = (repeat RecvEOF k, mkMock rs acc (Z.of_nat (length rs))).
Proof.
  intros Hne Hlen. induction k as [|k IH]; [reflexivity|].
  cbn [recvN repeat]. rewrite (Recv_at_end rs acc Hne Hlen), IH. reflexivity.
Qed.

Lemma Recv_before_end (rs : list K) (acc : list V) (i : nat) (x : K) :
  Z.of_nat (length rs) < 2 ^ 64 ->
  rs !! i = Some x ->
  Recv (mkMock rs acc (Z.of_nat i))
  = (RecvRequest x, mkMock rs acc (Z.of_nat (S i))).
Proof.
  intros Hlen Hx. unfold Recv. cbn [requestCounter requestStream].
  pose proof (lookup_lt_Some _ _ _ Hx) as Hi.
  unfold uint64. rewrite Z.mod_small by lia.
  destruct (Z.gtb_spec (Z.of_nat i) (Z.of_nat (length rs) - 1)); [lia|].
  rewrite Nat2Z.id, Hx. rewrite Z.mod_small by lia.
  do 2 f_equal. lia.
Qed.

Lemma recvN_from (rs : list K) (acc : list V) (k : nat) :
  rs ≠ [] ->
  Z.of_nat (length rs) < 2 ^ 64 ->
  forall n i, (i + n = length rs)%nat ->
    recvN (n + k) (mkMock rs acc (Z.of_nat i))
    = (map RecvRequest (drop i rs) ++ repeat RecvEOF k,
       mkMock rs acc (Z.of_nat (length rs))).
Proof.
  intros Hne Hlen. induction n as [|n IH]; intros i Hi.
  - replace i with (length rs) by lia.
    rewrite drop_all. cbn [map app Nat.add]. by apply recvN_at_end.
  - destruct (lookup_lt_is_Some_2 rs i) as [x Hx]; [lia|].
    cbn [Nat.add recvN].
    rewrite (Recv_before_end rs acc i x Hlen Hx).
    rewrite (IH (S i)) by lia.
    rewrite (drop_S _ _ _ Hx). reflexivity.
Qed.

End MockStream.

(** X13.  A mock stream that holds at least one request and has not been
    read yet hands its requests to successive [Recv] calls one by one in
    the order given, then answers [io.EOF] to every further call; the
    stream and the responses accumulated so far are not changed by
    reading. *)
Theorem Recv_delivers_in_order {K V : Type}
    (ms : optimistic.MockBidirectionalStreaming K V) (k : nat) :
  optimistic.requestStream ms ≠ [] ->
  Z.of_nat (length (optimistic.requestStream ms)) < 2 ^ 64 ->
  optimistic.requestCounter ms = 0 ->
  optimistic.recvN (length (optimistic.requestStream ms) + k) ms
  = (map optimistic.RecvRequest (optimistic.requestStream ms)
       ++ repeat optimistic.RecvEOF k,
     optimistic.mkMock (optimistic.requestStream ms)
       (optimistic.accumulatedResponses ms)
       (Z.of_nat (length (optimistic.requestStream ms)))).
Proof.
  destruct ms as [rs acc c]. cbn. intros Hne Hlen ->.
  exact (recvN_from rs acc k Hne Hlen (length rs) 0%nat eq_refl).
Qed.

(** Three requests read by five calls: the three in order, then two
    end-of-stream answers. *)
Lemma Recv_delivers_in_order_witness :
  fst (optimistic.recvN 5 (optimistic.mkMock [10; 20; 30] ([] : list bool) 0))
  = [optimistic.RecvRequest 10; optimistic.RecvRequest 20;
     optimistic.RecvRequest 30; optimistic.RecvEOF; optimistic.RecvEOF].
Proof.
  pose proof (Recv_delivers_in_order
                (optimistic.mkMock [10; 20; 30] ([] : list bool) 0) 2) as Hrecv.
  cbn [optimistic.requestStream optimistic.requestCounter length Nat.add] in Hrecv.
  rewrite Hrecv; [reflexivity | discriminate | reflexivity | reflexivity].
Defined.

(** X14.  On a mock stream with no requests [Recv] does not answer
    [io.EOF]: the bound [uint64(len - 1)] wraps around to 2^64 - 1, no
    counter exceeds it, and the read of the empty slice panics. *)
Theorem Recv_empty_stream_panics {K V : Type}
    (ms : optimistic.MockBidirectionalStreaming K V) :
  optimistic.requestStream ms = [] ->
  0 <= optimistic.requestCounter ms < 2 ^ 64 ->
  optimistic.Recv ms = (optimistic.RecvPanic, ms).
Proof.
  intros Hempty Hc. unfold optimistic.Recv. rewrite Hempty.
  change (uint64 (Z.of_nat (length (@nil K)) - 1)) with (2 ^ 64 - 1).
  destruct (Z.gtb_spec (optimistic.requestCounter ms) (2 ^ 64 - 1)); [lia|].
  reflexivity.
Qed.

Lemma Recv_empty_stream_panics_witness :
  fst (optimistic.Recv (optimistic.mkMock ([] : list Z) ([] : list bool) 0))
  = optimistic.RecvPanic.
Proof.
  rewrite (Recv_empty_stream_panics
             (optimistic.mkMock ([] : list Z) ([] : list bool) 0));
    [reflexivity | reflexivity | cbn; lia].
Defined.

(** X15.  [Send] and [Recv] of the mock stream do not interfere: sending
    a response changes neither what the next [Recv] hands back nor the
    read position, reading changes no accumulated response, and a
    sequence of sends appends the responses to the accumulated ones in
    the order sent. *)
Theorem Send_Recv_independent {K V : Type}
    (ms : optimistic.MockBidirectionalStreaming K V) (res : V)
    (responses : list V) :
  optimistic.Recv (optimistic.Send ms res)
  = (fst (optimistic.Recv ms), optimistic.Send (snd (optimistic.Recv ms)) res)
  /\ optimistic.accumulatedResponses (snd (optimistic.Recv ms))
     = optimistic.accumulatedResponses ms
  /\ optimistic.sendAll ms responses
     = optimistic.mkMock (optimistic.requestStream ms)
         (optimistic.accumulatedResponses ms ++ responses)
         (optimistic.requestCounter ms).
Proof.
  split; [|split].
  - unfold optimistic.Recv, optimistic.Send.
    cbn [optimistic.requestCounter optimistic.requestStream
         optimistic.accumulatedResponses].
    destruct (_ >? _); [reflexivity|].
    destruct (_ !! _); reflexivity.
  - unfold optimistic.Recv.
    destruct (_ >? _); [reflexivity|].
    destruct (_ !! _); reflexivity.
  - unfold optimistic.sendAll. revert ms.
    induction responses as [|r rest IH]; intros ms; cbn [fold_left].
    + rewrite app_nil_r. by destruct ms.
    + rewrite IH. unfold optimistic.Send.
      cbn [optimistic.requestCounter optimistic.requestStream
           optimistic.accumulatedResponses].
      by rewrite <- app_assoc.
Qed.

(** ** The fee recipient container *)

(** X16.  The fee recipient container holds one address: after any
    sequence of writes a read returns the last address written, and with
    no write the address held before. *)
Theorem FeeRecipientContainer_last_write (frc : grpc.FeeRecipientContainer)
    (writes : list common.Address) :
  grpc.GetNextFeeRecipient (grpc.setAll frc writes)
  = List.last writes (grpc.GetNextFeeRecipient frc).
Proof.
  unfold grpc.setAll.
  induction writes as [|w rest _] using rev_ind; [reflexivity|].
  rewrite fold_left_app, List.last_last. reflexivity.
Qed.

